(** * The Atari preprocessing wrappers of [assignment3/utils.py]

    A shallow embedding of the environment wrappers [NoopResetEnv],
    [FireResetEnv], [EpisodicLifeEnv], [MaxAndSkipEnv],
    [ClippedRewardsWrapper] and of the composer [wrap_deepmind_ram],
    followed by the properties of their [step] and [reset] operations.

    Python objects are modelled by explicit state passing.  A wrapper owns
    its inner environment, so the state of a wrapper is a record that holds
    the state of the inner environment next to the wrapper's own attributes.
    Exceptions are values of [Result]; the process-wide generator of
    [np.random] is threaded through every call. *)

From Stdlib Require Import String ZArith List Bool Lia.
Import ListNotations.
Open Scope string_scope.
Open Scope list_scope.
Open Scope Z_scope.

Set Implicit Arguments.

(** ** Exceptions *)

Inductive exn : Type :=
| AssertionError
| IndexError
| ValueError
| UnboundLocalError
| EnvError (msg : string).

Inductive Result (A : Type) : Type :=
| Ok (a : A)
| Raise (e : exn).

Arguments Ok {A} a.
Arguments Raise {A} e.

Definition succeeds {A} (r : Result A) : Prop := exists a, r = Ok a.
Definition fails {A} (r : Result A) : Prop := exists e, r = Raise e.

(** ** What the wrappers take from outside the repository

    Rewards are Python numbers: the wrappers only use the literal [0.0],
    [+] and [np.sign] on them, and nothing is assumed of these operations.
    [info] is an opaque dictionary.  [randint low high] is
    [np.random.randint(low, high)]: a draw from the half-open interval
    [low, high), [ValueError] when the interval is empty; every integer of
    the interval can be drawn. *)

Class Externals : Type := {
  Reward : Type;
  float_zero : Reward;
  add : Reward -> Reward -> Reward;
  np_sign : Reward -> Reward;
  Info : Type;
  RandomState : Type;
  randint : Z -> Z -> RandomState -> Result (Z * RandomState);
  randint_range : forall low high g, low < high ->
    exists n g', randint low high g = Ok (n, g') /\ low <= n < high;
  randint_empty : forall low high g, high <= low ->
    randint low high g = Raise ValueError;
  randint_onto : forall low high n, low <= n < high ->
    exists g g', randint low high g = Ok (n, g')
}.

(** ** Observations: numpy arrays

    A frame is the flattened array of its pixel values; its shape is its
    length. *)

Definition Obs : Type := list Z.
Definition Action : Type := Z.

Definition same_shape (a b : Obs) : bool := Nat.eqb (length a) (length b).

(** [np.stack(frames)]: [ValueError] on an empty sequence and on frames of
    different shapes. *)
Definition np_stack (frames : list Obs) : Result (list Obs) :=
  match frames with
  | [] => Raise ValueError
  | f :: rest => if forallb (same_shape f) rest then Ok frames else Raise ValueError
  end.

Fixpoint maximum (a b : Obs) : Obs :=
  match a, b with
  | x :: a', y :: b' => Z.max x y :: maximum a' b'
  | _, _ => []
  end.

(** [np.max(stacked, axis=0)] on a non-empty stack. *)
Definition np_max_axis0 (stacked : list Obs) : Obs :=
  match stacked with
  | [] => []
  | f :: rest => fold_left maximum rest f
  end.

(** ** [collections.deque] with [maxlen] *)

Record deque (A : Type) : Type := { maxlen : nat; items : list A }.

Definition deque_new {A} (maxlen : nat) : deque A :=
  {| maxlen := maxlen; items := [] |}.

(** [append] drops from the left end once [maxlen] items are held. *)
Definition deque_append {A} (d : deque A) (x : A) : deque A :=
  let l := items d ++ [x] in
  {| maxlen := maxlen d; items := skipn (length l - maxlen d) l |}.

Definition deque_clear {A} (d : deque A) : deque A :=
  {| maxlen := maxlen d; items := [] |}.

(** ** The monad of method bodies *)

Section Gym.
Context `{X : Externals}.

Definition StepResult : Type := Obs * Reward * bool * Info.

Definition M (S A : Type) : Type :=
  S -> RandomState -> Result (A * S * RandomState).

Definition ret {S A} (a : A) : M S A := fun s g => Ok (a, s, g).

Definition bind {S A B} (m : M S A) (k : A -> M S B) : M S B :=
  fun s g =>
    match m s g with
    | Ok (a, s', g') => k a s' g'
    | Raise e => Raise e
    end.

Definition raise {S A} (e : exn) : M S A := fun _ _ => Raise e.

Definition gets {S A} (f : S -> A) : M S A := fun s g => Ok (f s, s, g).

Definition modify {S} (f : S -> S) : M S unit := fun s g => Ok (tt, f s, g).

Definition lift {S A} (r : Result A) : M S A :=
  fun s g => match r with Ok a => Ok (a, s, g) | Raise e => Raise e end.

(** The generator is process-wide: a draw advances it for everybody. *)
Definition np_random_randint {S} (low high : Z) : M S Z :=
  fun s g =>
    match randint low high g with
    | Ok (n, g') => Ok (n, s, g')
    | Raise e => Raise e
    end.

(** A method call on an attribute: [self.env.step(...)] runs on the part
    [get self] of the state and stores the result back. *)
Definition zoom {S T A} (get : T -> S) (set : T -> S -> T) (m : M S A) : M T A :=
  fun t g =>
    match m (get t) g with
    | Ok (a, s', g') => Ok (a, set t s', g')
    | Raise e => Raise e
    end.

(** ** The environment interface ([gym.Env])

    [ale_lives] and [get_action_meanings] are the two reads that the
    wrappers make through [env.unwrapped]; [wrappers] lists the classes
    of the wrappers met from this environment down to the base
    environment, outermost first. *)
Record Env : Type := {
  state : Type;
  step : Action -> M state StepResult;
  reset : M state Obs;
  ale_lives : state -> Z;
  get_action_meanings : state -> list string;
  wrappers : list string
}.

(** An environment object: a class together with the state of one
    instance. *)
Definition Handle : Type := { E : Env & state E }.

Definition handle (E : Env) (s : state E) : Handle := existT _ E s.

(** ** Recording the calls made on an environment *)

Inductive Event : Type :=
| EvReset (obs : Obs)
| EvStep (action : Action) (result : StepResult).

(** [Traced E] behaves as [E] and keeps, next to the state of [E], the log
    of the [reset] and [step] calls that returned, oldest first, each with
    what it returned.  An exception of [E] propagates. *)
Definition Traced (E : Env) : Env := {|
  state := list Event * state E;
  step := fun action '(log, s) g =>
    match step E action s g with
    | Ok (r, s', g') => Ok (r, (log ++ [EvStep action r], s'), g')
    | Raise e => Raise e
    end;
  reset := fun '(log, s) g =>
    match reset E s g with
    | Ok (obs, s', g') => Ok (obs, (log ++ [EvReset obs], s'), g')
    | Raise e => Raise e
    end;
  ale_lives := fun '(_, s) => ale_lives E s;
  get_action_meanings := fun '(_, s) => get_action_meanings E s;
  wrappers := wrappers E
|}.

Definition traced {E : Env} (log : list Event) (s : state E) : state (Traced E) :=
  (log, s).

Definition obs_of (r : StepResult) : Obs := let '(obs, _, _, _) := r in obs.
Definition reward_of (r : StepResult) : Reward := let '(_, reward, _, _) := r in reward.
Definition done_of (r : StepResult) : bool := let '(_, _, done, _) := r in done.
Definition info_of (r : StepResult) : Info := let '(_, _, _, info) := r in info.

(** [n] consecutive calls of [env.step(action)], whatever they return. *)
Fixpoint steps (E : Env) (action : Action) (n : nat) : M (state E) (list StepResult) :=
  match n with
  | O => ret []
  | S n' =>
      bind (step E action) (fun r =>
      bind (steps E action n') (fun rs => ret (r :: rs)))
  end.
End Gym.

Declare Scope gym_scope.
Delimit Scope gym_scope with gym.
Notation "x <- m ;; k" := (bind m (fun x => k))
  (at level 61, m at next level, right associativity) : gym_scope.
Notation "' pat <- m ;; k" := (bind m (fun x => match x with pat => k end))
  (at level 61, pat pattern, m at next level, right associativity) : gym_scope.
Notation "m ;;; k" := (bind m (fun _ => k))
  (at level 61, right associativity) : gym_scope.
Open Scope gym_scope.

(** ** [EpisodicLifeEnv] *)

Module EpisodicLifeEnv.
Section Class.
Context `{X : Externals} (E : Env).

Record t : Type := {
  env : state E;
  lives : Z;
  was_real_done : bool;
  was_real_reset : bool
}.

Definition set_env (self : t) (e : state E) : t :=
  {| env := e; lives := lives self;
     was_real_done := was_real_done self; was_real_reset := was_real_reset self |}.
Definition set_lives (v : Z) (self : t) : t :=
  {| env := env self; lives := v;
     was_real_done := was_real_done self; was_real_reset := was_real_reset self |}.
Definition set_was_real_done (v : bool) (self : t) : t :=
  {| env := env self; lives := lives self;
     was_real_done := v; was_real_reset := was_real_reset self |}.
Definition set_was_real_reset (v : bool) (self : t) : t :=
  {| env := env self; lives := lives self;
     was_real_done := was_real_done self; was_real_reset := v |}.

Definition self_env {A} (m : M (state E) A) : M t A := zoom env set_env m.

Definition __init__ (env : state E) : Result t :=
  Ok {| env := env; lives := 0; was_real_done := true; was_real_reset := false |}.

Definition _step (action : Action) : M t StepResult :=
  '(obs, reward, done, info) <- self_env (step E action) ;;
  modify (set_was_real_done done) ;;;
  lives_now <- gets (fun self => ale_lives E (env self)) ;;
  self_lives <- gets lives ;;
  let done := if (lives_now <? self_lives) && (0 <? lives_now) then true else done in
  modify (set_lives lives_now) ;;;
  ret (obs, reward, done, info).

Definition _reset : M t Obs :=
  was_real_done <- gets was_real_done ;;
  obs <- (if was_real_done
          then
            obs <- self_env (reset E) ;;
            modify (set_was_real_reset true) ;;;
            ret obs
          else
            '(obs, _, _, _) <- self_env (step E 0) ;;
            modify (set_was_real_reset false) ;;;
            ret obs) ;;
  modify (fun self => set_lives (ale_lives E (env self)) self) ;;;
  ret obs.

Definition cls : Env := {|
  state := t;
  step := _step;
  reset := _reset;
  ale_lives := fun self => ale_lives E (env self);
  get_action_meanings := fun self => get_action_meanings E (env self);
  wrappers := "EpisodicLifeEnv" :: wrappers E
|}.
End Class.
End EpisodicLifeEnv.

(** ** [NoopResetEnv] *)

Module NoopResetEnv.
Section Class.
Context `{X : Externals} (E : Env).

Record t : Type := { env : state E; noop_max : Z }.

Definition set_env (self : t) (e : state E) : t :=
  {| env := e; noop_max := noop_max self |}.

Definition self_env {A} (m : M (state E) A) : M t A := zoom env set_env m.

Definition __init__ (env : state E) (noop_max : Z) : Result t :=
  let self := {| env := env; noop_max := noop_max |} in
  match nth_error (get_action_meanings E env) 0 with
  | None => Raise IndexError
  | Some meaning =>
      if String.eqb meaning "NOOP" then Ok self else Raise AssertionError
  end.

(** [for _ in range(noops): obs, _, _, _ = self.env.step(0)]; [obs] is
    unbound until the first iteration. *)
Fixpoint for_range (n : nat) (obs : option Obs) : M t (option Obs) :=
  match n with
  | O => ret obs
  | S n' =>
      '(obs, _, _, _) <- self_env (step E 0) ;;
      for_range n' (Some obs)
  end.

Definition _reset : M t Obs :=
  self_env (reset E) ;;;
  noop_max <- gets noop_max ;;
  noops <- np_random_randint 1 (noop_max + 1) ;;
  obs <- for_range (Z.to_nat noops) None ;;
  match obs with
  | Some obs => ret obs
  | None => raise UnboundLocalError
  end.

Definition cls : Env := {|
  state := t;
  step := fun action => self_env (step E action);
  reset := _reset;
  ale_lives := fun self => ale_lives E (env self);
  get_action_meanings := fun self => get_action_meanings E (env self);
  wrappers := "NoopResetEnv" :: wrappers E
|}.
End Class.
End NoopResetEnv.

(** ** [FireResetEnv] *)

Module FireResetEnv.
Section Class.
Context `{X : Externals} (E : Env).

Record t : Type := { env : state E }.

Definition set_env (self : t) (e : state E) : t := {| env := e |}.

Definition self_env {A} (m : M (state E) A) : M t A := zoom env set_env m.

Definition __init__ (env : state E) : Result t :=
  let self := {| env := env |} in
  match nth_error (get_action_meanings E env) 1 with
  | None => Raise IndexError
  | Some meaning =>
      if String.eqb meaning "FIRE"
      then
        if (3 <=? length (get_action_meanings E env))%nat
        then Ok self
        else Raise AssertionError
      else Raise AssertionError
  end.

Definition _reset : M t Obs :=
  self_env (reset E) ;;;
  '(obs, _, _, _) <- self_env (step E 1) ;;
  '(obs, _, _, _) <- self_env (step E 2) ;;
  ret obs.

Definition cls : Env := {|
  state := t;
  step := fun action => self_env (step E action);
  reset := _reset;
  ale_lives := fun self => ale_lives E (env self);
  get_action_meanings := fun self => get_action_meanings E (env self);
  wrappers := "FireResetEnv" :: wrappers E
|}.
End Class.
End FireResetEnv.

(** ** [MaxAndSkipEnv] *)

Module MaxAndSkipEnv.
Section Class.
Context `{X : Externals} (E : Env).

Record t : Type := { env : state E; _obs_buffer : deque Obs; _skip : Z }.

Definition set_env (self : t) (e : state E) : t :=
  {| env := e; _obs_buffer := _obs_buffer self; _skip := _skip self |}.
Definition set_obs_buffer (b : deque Obs) (self : t) : t :=
  {| env := env self; _obs_buffer := b; _skip := _skip self |}.

Definition self_env {A} (m : M (state E) A) : M t A := zoom env set_env m.

Definition __init__ (env : state E) (skip : Z) : Result t :=
  Ok {| env := env; _obs_buffer := deque_new 2; _skip := skip |}.

(** The local variables of [_step] that the loop assigns; [done] starts
    as [None] and [info] is unbound until the first iteration. *)
Record locals : Type := {
  total_reward : Reward;
  done : option bool;
  info : option Info
}.

Fixpoint for_range (n : nat) (action : Action) (l : locals) : M t locals :=
  match n with
  | O => ret l
  | S n' =>
      '(obs, reward, done, info) <- self_env (step E action) ;;
      modify (fun self => set_obs_buffer (deque_append (_obs_buffer self) obs) self) ;;;
      let l := {| total_reward := add (total_reward l) reward;
                  done := Some done; info := Some info |} in
      if done then ret l else for_range n' action l
  end.

(** [total_reward = 0.0], [done = None], and no [info] yet. *)
Definition at_entry : locals :=
  {| total_reward := float_zero; done := None; info := None |}.

Definition _step (action : Action) : M t StepResult :=
  skip <- gets _skip ;;
  l <- for_range (Z.to_nat skip) action at_entry ;;
  buffer <- gets _obs_buffer ;;
  stacked <- lift (np_stack (items buffer)) ;;
  let max_frame := np_max_axis0 stacked in
  match done l, info l with
  | Some done, Some info => ret (max_frame, total_reward l, done, info)
  | _, _ => raise UnboundLocalError
  end.

Definition _reset : M t Obs :=
  modify (fun self => set_obs_buffer (deque_clear (_obs_buffer self)) self) ;;;
  obs <- self_env (reset E) ;;
  modify (fun self => set_obs_buffer (deque_append (_obs_buffer self) obs) self) ;;;
  ret obs.

Definition cls : Env := {|
  state := t;
  step := _step;
  reset := _reset;
  ale_lives := fun self => ale_lives E (env self);
  get_action_meanings := fun self => get_action_meanings E (env self);
  wrappers := "MaxAndSkipEnv" :: wrappers E
|}.
End Class.
End MaxAndSkipEnv.

(** ** [ClippedRewardsWrapper] *)

Module ClippedRewardsWrapper.
Section Class.
Context `{X : Externals} (E : Env).

Record t : Type := { env : state E }.

Definition set_env (self : t) (e : state E) : t := {| env := e |}.

Definition self_env {A} (m : M (state E) A) : M t A := zoom env set_env m.

Definition __init__ (env : state E) : Result t := Ok {| env := env |}.

Definition _step (action : Action) : M t StepResult :=
  '(obs, reward, done, info) <- self_env (step E action) ;;
  ret (obs, np_sign reward, done, info).

Definition cls : Env := {|
  state := t;
  step := _step;
  reset := self_env (reset E);
  ale_lives := fun self => ale_lives E (env self);
  get_action_meanings := fun self => get_action_meanings E (env self);
  wrappers := "ClippedRewardsWrapper" :: wrappers E
|}.
End Class.
End ClippedRewardsWrapper.

(** ** [wrap_deepmind_ram] *)

Section Composer.
Context `{X : Externals}.

(** Instantiating a wrapper class on an environment object. *)
Definition construct (env : Handle)
    (cls : Env -> Env) (init : forall E, state E -> Result (state (cls E)))
    : Result Handle :=
  let (E, e) := env in
  match init E e with
  | Ok self => Ok (handle (cls E) self)
  | Raise err => Raise err
  end.

Definition unwrapped_get_action_meanings (env : Handle) : list string :=
  let (E, e) := env in get_action_meanings E e.

Definition class_chain (env : Handle) : list string :=
  let (E, _) := env in wrappers E.

(** [x in meanings] *)
Definition contains (x : string) (meanings : list string) : bool :=
  existsb (String.eqb x) meanings.

Definition and_then {A B} (r : Result A) (k : A -> Result B) : Result B :=
  match r with
  | Ok a => k a
  | Raise e => Raise e
  end.

Definition wrap_deepmind_ram (env : Handle) : Result Handle :=
  and_then (construct env EpisodicLifeEnv.cls EpisodicLifeEnv.__init__) (fun env =>
  and_then (construct env NoopResetEnv.cls
              (fun E e => NoopResetEnv.__init__ E e 30)) (fun env =>
  and_then (construct env MaxAndSkipEnv.cls
              (fun E e => MaxAndSkipEnv.__init__ E e 4)) (fun env =>
  and_then (if contains "FIRE" (unwrapped_get_action_meanings env)
            then construct env FireResetEnv.cls FireResetEnv.__init__
            else Ok env) (fun env =>
  and_then (construct env ClippedRewardsWrapper.cls ClippedRewardsWrapper.__init__) (fun env =>
  Ok env))))).
End Composer.

(** ** Callers and vocabulary of the properties *)

Section Callers.
Context `{X : Externals}.

(** A caller that steps an environment through a list of actions and
    notes, after each step, what was returned and the life count of the
    base environment. *)
Fixpoint play (E : Env) (actions : list Action) : M (state E) (list (StepResult * Z)) :=
  match actions with
  | [] => ret []
  | action :: rest =>
      r <- step E action ;;
      lives_now <- gets (ale_lives E) ;;
      rs <- play E rest ;;
      ret ((r, lives_now) :: rs)
  end.

(** No life is lost along a run: each life count read is at least the
    one recorded before it. *)
Fixpoint no_life_loss (recorded : Z) (lives : list Z) : Prop :=
  match lives with
  | [] => True
  | l :: rest => recorded <= l /\ no_life_loss l rest
  end.

(** The two conditions that the constructors assert on the action
    meanings of the base environment. *)
Definition noop_at_0 (meanings : list string) : Prop :=
  nth_error meanings 0 = Some "NOOP".

Definition fire_at_1 (meanings : list string) : Prop :=
  nth_error meanings 1 = Some "FIRE" /\ (3 <= length meanings)%nat.

(** The frames returned by the [step] calls of a log. *)
Definition frames_of (log : list Event) : list Obs :=
  flat_map (fun ev => match ev with EvStep _ r => [obs_of r] | EvReset _ => [] end) log.

(** The last [n] elements of a list. *)
Definition lastn {A} (n : nat) (l : list A) : list A := skipn (length l - n) l.

(** [m] is the pixel-wise maximum of [frames]: every pixel of [m] bounds
    that pixel of every frame and is the pixel of one of them. *)
Definition elementwise_max (frames : list Obs) (m : Obs) : Prop :=
  (forall f, In f frames -> length f = length m) /\
  (forall i, (i < length m)%nat ->
     (forall f, In f frames -> nth i f 0 <= nth i m 0) /\
     (exists f, In f frames /\ nth i f 0 = nth i m 0)).
End Callers.

(** The sentence of the specification on the frame buffer of
    [MaxAndSkipEnv], as it is worded: of two consecutive [step] calls, no
    frame that the first one observed is in the buffer from which the
    second one computes its maximum. *)
Definition buffer_reset_on_every_step : Prop :=
  forall (X : Externals) (E : Env) (a1 a2 : Action)
         (self self1 self2 : MaxAndSkipEnv.t (Traced E))
         (g g1 g2 : RandomState) (out1 out2 : StepResult) (log1 : list Event),
    MaxAndSkipEnv._step a1 self g = Ok (out1, self1, g1) ->
    MaxAndSkipEnv._step a2 self1 g1 = Ok (out2, self2, g2) ->
    fst (MaxAndSkipEnv.env self1) = fst (MaxAndSkipEnv.env self) ++ log1 ->
    forall f, In f (frames_of log1) ->
              ~ In f (items (MaxAndSkipEnv._obs_buffer self2)).

(** The sentence of the specification on the composer, as it is worded:
    whatever the base environment, the composer returns the chain of
    wrappers, with [FireResetEnv] in it exactly when ["FIRE"] is one of the
    action meanings. *)
Definition composer_always_returns : Prop :=
  forall (X : Externals) (base : Handle),
    exists env,
      wrap_deepmind_ram base = Ok env /\
      class_chain env =
        (["ClippedRewardsWrapper"] ++
         (if contains "FIRE" (unwrapped_get_action_meanings base)
          then ["FireResetEnv"] else []) ++
         ["MaxAndSkipEnv"; "NoopResetEnv"; "EpisodicLifeEnv"])
        ++ class_chain base.

(** ** A test double

    Integer rewards, the step number as [info], and a generator that reads
    its draws off a tape. *)

Module Mock.

Definition tape_randint (low high : Z) (g : list Z) : Result (Z * list Z) :=
  if low <? high
  then match g with
       | [] => Ok (low, [])
       | u :: g' => Ok (low + u mod (high - low), g')
       end
  else Raise ValueError.

#[export] Instance externals : Externals.
Proof.
  refine {| Reward := Z; float_zero := 0; add := Z.add; np_sign := Z.sgn;
            Info := nat; RandomState := list Z; randint := tape_randint |}.
  - intros low high g Hlt. unfold tape_randint.
    destruct (Z.ltb_spec low high) as [_ | Hge]; [| lia].
    destruct g as [| u g'].
    + exists low, []. split; [reflexivity | lia].
    + exists (low + u mod (high - low)), g'. split; [reflexivity |].
      pose proof (Z.mod_pos_bound u (high - low)). lia.
  - intros low high g Hle. unfold tape_randint.
    destruct (Z.ltb_spec low high); [lia | reflexivity].
  - intros low high n Hn. exists [n - low], []. unfold tape_randint.
    destruct (Z.ltb_spec low high) as [_ | Hge]; [| lia].
    rewrite Z.mod_small by lia. f_equal. f_equal. lia.
Defined.

(** What the environment shows at each step of its clock. *)
Record Script : Type := {
  first_frame : Obs;
  frame : nat -> Obs;
  reward_at : nat -> Z;
  done_at : nat -> bool;
  lives_at : nat -> Z;
  meanings : list string
}.

(** The state is the number of steps taken so far; [reset] rewinds. *)
Definition ClockEnv (P : Script) : Env := {|
  state := nat;
  step := fun _ clock g =>
    Ok ((frame P clock, reward_at P clock, done_at P clock, clock), S clock, g);
  reset := fun _ g => Ok (first_frame P, O, g);
  ale_lives := lives_at P;
  get_action_meanings := fun _ => meanings P;
  wrappers := []
|}.

Definition breakout : Script := {|
  first_frame := [0; 0];
  frame := fun clock => [Z.of_nat clock; 10 - Z.of_nat clock];
  reward_at := fun clock => Z.of_nat clock;
  done_at := fun clock => Nat.leb 5 clock;
  lives_at := fun clock => 3 - Z.of_nat (Nat.div clock 3);
  meanings := ["NOOP"; "FIRE"; "UP"]
|}.

(** Four quiet frames with a bright fourth one, then a dark frame on
    which the episode ends. *)
Definition flash : Script := {|
  first_frame := [0];
  frame := fun clock => nth clock [[0]; [0]; [0]; [7]; [1]] [0];
  reward_at := fun _ => 1;
  done_at := fun clock => Nat.eqb clock 4;
  lives_at := fun _ => 3;
  meanings := ["NOOP"; "FIRE"; "UP"]
|}.

(** An action table with ["FIRE"] out of its place. *)
Definition misplaced_fire : Script := {|
  first_frame := [0];
  frame := fun _ => [0];
  reward_at := fun _ => 0;
  done_at := fun _ => false;
  lives_at := fun _ => 0;
  meanings := ["NOOP"; "UP"; "FIRE"]
|}.

Definition at_clock (P : Script) (clock : nat) : state (ClockEnv P) := clock.

(** An episode that is over after its first step. *)
Definition short_episode : Script := {|
  first_frame := [0];
  frame := fun clock => [Z.of_nat clock + 1];
  reward_at := fun _ => 5;
  done_at := fun clock => Nat.leb 1 clock;
  lives_at := fun _ => 1;
  meanings := ["NOOP"; "FIRE"; "UP"]
|}.

Definition Breakout : Env := ClockEnv breakout.
Definition ShortEpisode : Env := ClockEnv short_episode.
Definition Flash : Env := ClockEnv flash.
Definition MisplacedFire : Env := ClockEnv misplaced_fire.

(** [EpisodicLifeEnv] two steps into a life of Breakout, three lives
    recorded. *)
Definition episodic_playing : EpisodicLifeEnv.t (Traced Breakout) :=
  {| EpisodicLifeEnv.env := traced (E := Breakout) [] 2%nat;
     EpisodicLifeEnv.lives := 3;
     EpisodicLifeEnv.was_real_done := false;
     EpisodicLifeEnv.was_real_reset := true |}.

(** The same wrapper on the plain environment, at the start of a life. *)
Definition episodic_start : EpisodicLifeEnv.t Breakout :=
  {| EpisodicLifeEnv.env := at_clock breakout 0;
     EpisodicLifeEnv.lives := 3;
     EpisodicLifeEnv.was_real_done := false;
     EpisodicLifeEnv.was_real_reset := true |}.

Definition noop_reset_3 : NoopResetEnv.t (Traced Breakout) :=
  {| NoopResetEnv.env := traced (E := Breakout) [] 4%nat; NoopResetEnv.noop_max := 3 |}.

Definition fire_reset : FireResetEnv.t (Traced ShortEpisode) :=
  {| FireResetEnv.env := traced (E := ShortEpisode) [] 4%nat |}.

(** [MaxAndSkipEnv] with [skip = 4] as [__init__] leaves it. *)
Definition max_and_skip_4 (E : Env) (clock : state E) : MaxAndSkipEnv.t (Traced E) :=
  {| MaxAndSkipEnv.env := traced (E := E) [] clock;
     MaxAndSkipEnv._obs_buffer := deque_new 2;
     MaxAndSkipEnv._skip := 4 |}.

(** [MaxAndSkipEnv] on [Flash] after a first and after a second [step]. *)
Definition flash_log_1 : list Event :=
  [EvStep 0 ([0], 1, false, 0%nat); EvStep 0 ([0], 1, false, 1%nat);
   EvStep 0 ([0], 1, false, 2%nat); EvStep 0 ([7], 1, false, 3%nat)].

Definition flash_after_first : MaxAndSkipEnv.t (Traced Flash) :=
  {| MaxAndSkipEnv.env := traced (E := Flash) flash_log_1 4%nat;
     MaxAndSkipEnv._obs_buffer := {| maxlen := 2; items := [[0]; [7]] |};
     MaxAndSkipEnv._skip := 4 |}.

Definition flash_after_second : MaxAndSkipEnv.t (Traced Flash) :=
  {| MaxAndSkipEnv.env :=
       traced (E := Flash) (flash_log_1 ++ [EvStep 0 ([1], 1, true, 4%nat)]) 5%nat;
     MaxAndSkipEnv._obs_buffer := {| maxlen := 2; items := [[7]; [1]] |};
     MaxAndSkipEnv._skip := 4 |}.

End Mock.

(** ** More vocabulary of the properties *)

(** The frame buffer of [MaxAndSkipEnv] as [deque(maxlen=2)] keeps it. *)
Definition buffer_ok (d : deque Obs) : Prop :=
  maxlen d = 2%nat /\ (length (items d) <= 2)%nat.

Section MoreCallers.
Context `{X : Externals}.

(** [env.unwrapped.ale.lives()] on an environment object. *)
Definition unwrapped_lives (env : Handle) : Z :=
  let (E, e) := env in ale_lives E e.

(** The [EpisodicLifeEnv] under the [NoopResetEnv] under a [MaxAndSkipEnv],
    as [wrap_deepmind_ram] stacks them. *)
Definition episodic_of {E : Env}
    (self : MaxAndSkipEnv.t (NoopResetEnv.cls (EpisodicLifeEnv.cls E)))
    : EpisodicLifeEnv.t E :=
  NoopResetEnv.env (MaxAndSkipEnv.env self).

(** [n] consecutive calls of [env.reset()]. *)
Fixpoint resets (E : Env) (n : nat) : M (state E) (list Obs) :=
  match n with
  | O => ret []
  | S n' =>
      obs <- reset E ;;
      rest <- resets E n' ;;
      ret (obs :: rest)
  end.
End MoreCallers.


(** ** Configuration dictionaries

    [merge_config] and [check_and_merge_config] work on dictionaries with
    string keys.  Of the values they only use their truth value and the
    constants [True] and [False].  A dictionary is the list of its items in
    insertion order; its keys are distinct. *)

Class Values : Type := {
  Value : Type;
  py_True : Value;
  py_False : Value;
  truthy : Value -> bool;
  truthy_True : truthy py_True = true;
  truthy_False : truthy py_False = false
}.

Section Config.
Context `{V : Values}.

Definition dict : Type := list (string * Value).

Definition dict_keys (d : dict) : list string := map fst d.

(** [d.get(k)] *)
Fixpoint dict_get (d : dict) (k : string) : option Value :=
  match d with
  | [] => None
  | (k', v) :: rest => if String.eqb k' k then Some v else dict_get rest k
  end.

(** [k in d] *)
Definition dict_contains (k : string) (d : dict) : bool :=
  match dict_get d k with
  | Some _ => true
  | None => false
  end.

(** [d[k] = v]: a key that is present keeps its place, a new key goes
    last. *)
Fixpoint dict_set (d : dict) (k : string) (v : Value) : dict :=
  match d with
  | [] => [(k, v)]
  | (k', v') :: rest =>
      if String.eqb k' k then (k', v) :: rest else (k', v') :: dict_set rest k v
  end.

(** [d.update(new)] *)
Definition dict_update (d new : dict) : dict :=
  fold_left (fun acc item => dict_set acc (fst item) (snd item)) new d.

(** [copy.deepcopy]: the values of the model are not mutable, so the copy
    is the value. *)
Definition deepcopy (d : dict) : dict := d.

Definition merge_config (new_config : option dict) (old_config : dict) : dict :=
  let config := deepcopy old_config in
  match new_config with
  | Some new_config => dict_update config new_config
  | None => config
  end.

(** [for k in user_config.keys(): assert k in default_config] *)
Fixpoint assert_known (keys : list string) (default_config : dict) : Result unit :=
  match keys with
  | [] => Ok tt
  | k :: rest =>
      if dict_contains k default_config
      then assert_known rest default_config
      else Raise AssertionError
  end.

(** [d.get(k, default)] *)
Definition dict_get_default (d : dict) (k : string) (default : Value) : Value :=
  match dict_get d k with
  | Some v => v
  | None => default
  end.

Definition check_and_merge_config (user_config default_config : dict) : Result dict :=
  if truthy (dict_get_default user_config "checked" py_False)
  then Ok user_config
  else
    match assert_known (dict_keys user_config) default_config with
    | Raise e => Raise e
    | Ok _ =>
        let config := merge_config (Some user_config) default_config in
        Ok (dict_set config "checked" py_True)
    end.
End Config.

(** ** [evaluate_agent]

    Beside [+], the evaluation loop uses the integer literal [0] as the
    start of an episode's reward and [np.mean] on the list of episode
    rewards. *)

Class Numpy (X : Externals) : Type := {
  int_zero : Reward;
  np_mean : list Reward -> Reward
}.

Section Evaluate.
Context `{X : Externals} {N : Numpy X}.

(** The agent: an object with a [compute_action] method. *)
Record Agent : Type := {
  agent : Type;
  compute_action : Obs -> M agent Action
}.

(** [env.render()] and [env.close()], which only the rendering caller
    uses. *)
Record Viewer (E : Env) : Type := {
  env_render : M (state E) unit;
  env_close : M (state E) unit
}.

(** [wait] sleeps: time is no part of the state. *)
Definition wait {S} : M S unit := ret tt.

Section Loop.
Variables (P : Agent) (E : Env) (V : Viewer E).

(** What the caller holds: the agent and the environment. *)
Definition Caller : Type := (agent P * state E)%type.

Definition on_agent {A} (m : M (agent P) A) : M Caller A :=
  zoom fst (fun c a => (a, snd c)) m.
Definition on_env {A} (m : M (state E) A) : M Caller A :=
  zoom snd (fun c e => (fst c, e)) m.

(** [while True: ...]: [None] when [fuel] iterations did not reach the
    [break]. *)
Fixpoint while_true (fuel : nat) (render : bool) (act : Action) (ep_reward : Reward)
  : M Caller (option Reward) :=
  match fuel with
  | O => ret None
  | S fuel' =>
      '(obs, reward, done, info) <- on_env (step E act) ;;
      act <- on_agent (compute_action P obs) ;;
      let ep_reward := add ep_reward reward in
      (if render then on_env (env_render V) ;;; wait else ret tt) ;;;
      if done then ret (Some ep_reward) else while_true fuel' render act ep_reward
  end.

(** [for i in range(num_episodes): ...] *)
Fixpoint for_episodes (fuel : nat) (render : bool) (n : nat) (rewards : list Reward)
  : M Caller (option (list Reward)) :=
  match n with
  | O => ret (Some rewards)
  | S n' =>
      obs <- on_env (reset E) ;;
      act <- on_agent (compute_action P obs) ;;
      ep <- while_true fuel render act int_zero ;;
      match ep with
      | None => ret None
      | Some ep_reward => for_episodes fuel render n' (rewards ++ [ep_reward])
      end
  end.

Definition evaluate_agent (fuel : nat) (num_episodes : Z) (render : bool)
  : M Caller (option Reward) :=
  let num_episodes := if render then 1 else num_episodes in
  rewards <- for_episodes fuel render (Z.to_nat num_episodes) [] ;;
  match rewards with
  | None => ret None
  | Some rewards =>
      (if render then on_env (env_close V) else ret tt) ;;;
      ret (Some (np_mean rewards))
  end.
End Loop.

(** Recording the questions put to an agent, each with its answer. *)
Definition TracedAgent (P : Agent) : Agent := {|
  agent := list (Obs * Action) * agent P;
  compute_action := fun obs '(asked, a) g =>
    match compute_action P obs a g with
    | Ok (act, a', g') => Ok (act, (asked ++ [(obs, act)], a'), g')
    | Raise e => Raise e
    end
|}.

(** A viewer of [E] on [Traced E]: rendering is not a recorded call. *)
Definition traced_viewer {E : Env} (V : Viewer E) : Viewer (Traced E) :=
  let on_state (m : M (state E) unit) : M (list Event * state E) unit :=
    fun c g =>
      match m (snd c) g with
      | Ok (u, s', g') => Ok (u, (fst c, s'), g')
      | Raise e => Raise e
      end in
  Build_Viewer (Traced E) (on_state (env_render V)) (on_state (env_close V)).

(** One episode as the caller sees it: the observation of [reset], the
    action computed from it, and then, for every [step], its result and the
    action computed from the observation in it. *)
Record Episode : Type := {
  first_obs : Obs;
  first_action : Action;
  turns : list (StepResult * Action)
}.

(** The [step] calls of an episode: each is made with the action computed
    just before it. *)
Fixpoint step_calls (act : Action) (turns : list (StepResult * Action)) : list Event :=
  match turns with
  | [] => []
  | (r, act') :: rest => EvStep act r :: step_calls act' rest
  end.

Definition episode_calls (ep : Episode) : list Event :=
  EvReset (first_obs ep) :: step_calls (first_action ep) (turns ep).

Definition episode_questions (ep : Episode) : list (Obs * Action) :=
  (first_obs ep, first_action ep)
    :: map (fun t => (obs_of (fst t), snd t)) (turns ep).

Definition episode_reward (ep : Episode) : Reward :=
  fold_left add (map (fun t => reward_of (fst t)) (turns ep)) int_zero.

(** The episode ends at its last step and nowhere before. *)
Definition episode_ends (ep : Episode) : Prop :=
  exists front final,
    turns ep = front ++ [final]
    /\ Forall (fun t => done_of (fst t) = false) front
    /\ done_of (fst final) = true.
End Evaluate.

Arguments while_true {X} P E V fuel render act ep_reward.
Arguments for_episodes {X N} P E V fuel render n rewards.
Arguments evaluate_agent {X N} P E V fuel num_episodes render.
Arguments Caller {X} P E.
Arguments TracedAgent {X} P.
Arguments on_env {X} P E {A} m.
Arguments on_agent {X} P E {A} m.

(** ** More of the test double *)

Module Scenes.

#[local] Existing Instance Mock.externals.

(** An environment whose emulator fails from its third step on. *)
Definition Faulty : Env := {|
  state := nat;
  step := fun _ clock g =>
    if Nat.leb 2 clock
    then Raise (EnvError "emulator crashed")
    else Ok (([Z.of_nat clock], 1, false, clock), S clock, g);
  reset := fun _ g => Ok ([0], O, g);
  ale_lives := fun _ => 3;
  get_action_meanings := fun _ => ["NOOP"; "FIRE"; "UP"];
  wrappers := []
|}.

Definition faulty_at (clock : nat) : state Faulty := clock.

(** A game that takes a life at every step. *)
Definition fragile : Mock.Script := {|
  Mock.first_frame := [0];
  Mock.frame := fun clock => [Z.of_nat clock];
  Mock.reward_at := fun _ => 0;
  Mock.done_at := fun _ => false;
  Mock.lives_at := fun clock => 3 - Z.of_nat clock;
  Mock.meanings := ["NOOP"; "FIRE"; "UP"]
|}.

Definition Fragile : Env := Mock.ClockEnv fragile.

(** [MaxAndSkipEnv] on a plain environment, with a given [skip]. *)
Definition skipper (E : Env) (s : state E) (skip : Z) : MaxAndSkipEnv.t E :=
  {| MaxAndSkipEnv.env := s;
     MaxAndSkipEnv._obs_buffer := deque_new 2;
     MaxAndSkipEnv._skip := skip |}.

Definition skipper_holding (E : Env) (s : state E) (frames : list Obs) (skip : Z)
  : MaxAndSkipEnv.t E :=
  {| MaxAndSkipEnv.env := s;
     MaxAndSkipEnv._obs_buffer := {| maxlen := 2; items := frames |};
     MaxAndSkipEnv._skip := skip |}.

Definition clipped (E : Env) (s : state E) : ClippedRewardsWrapper.t E :=
  {| ClippedRewardsWrapper.env := s |}.

Definition firing (E : Env) (s : state E) : FireResetEnv.t E :=
  {| FireResetEnv.env := s |}.

Definition nooping (E : Env) (s : state E) (noop_max : Z) : NoopResetEnv.t E :=
  {| NoopResetEnv.env := s; NoopResetEnv.noop_max := noop_max |}.

Definition episodic (E : Env) (s : state E) (lives : Z) : EpisodicLifeEnv.t E :=
  {| EpisodicLifeEnv.env := s;
     EpisodicLifeEnv.lives := lives;
     EpisodicLifeEnv.was_real_done := false;
     EpisodicLifeEnv.was_real_reset := true |}.

(** [EpisodicLifeEnv] as its constructor leaves it. *)
Definition fresh_episodic (E : Env) (s : state E) : EpisodicLifeEnv.t E :=
  {| EpisodicLifeEnv.env := s;
     EpisodicLifeEnv.lives := 0;
     EpisodicLifeEnv.was_real_done := true;
     EpisodicLifeEnv.was_real_reset := false |}.

(** What [wrap_deepmind_ram] builds on Breakout. *)
Definition breakout_pipeline : Handle :=
  handle
    (ClippedRewardsWrapper.cls
       (FireResetEnv.cls
          (MaxAndSkipEnv.cls
             (NoopResetEnv.cls (EpisodicLifeEnv.cls Mock.Breakout)))))
    (clipped (FireResetEnv.cls (MaxAndSkipEnv.cls (NoopResetEnv.cls
                                                     (EpisodicLifeEnv.cls Mock.Breakout))))
       (firing (MaxAndSkipEnv.cls (NoopResetEnv.cls (EpisodicLifeEnv.cls Mock.Breakout)))
          (skipper (NoopResetEnv.cls (EpisodicLifeEnv.cls Mock.Breakout))
             (nooping (EpisodicLifeEnv.cls Mock.Breakout)
                (fresh_episodic Mock.Breakout (Mock.at_clock Mock.breakout 0)) 30)
             4))).

(** Breakout under [EpisodicLifeEnv], [NoopResetEnv] and [MaxAndSkipEnv],
    at the start of a life with three lives recorded. *)
Definition breakout_stack
  : MaxAndSkipEnv.t (NoopResetEnv.cls (EpisodicLifeEnv.cls (Traced Mock.Breakout))) :=
  skipper (NoopResetEnv.cls (EpisodicLifeEnv.cls (Traced Mock.Breakout)))
    (nooping (EpisodicLifeEnv.cls (Traced Mock.Breakout))
       (episodic (Traced Mock.Breakout) (traced [] (Mock.at_clock Mock.breakout 0)) 3)
       30)
    4.

(** The five wrappers on the faulty environment, at a given step of its
    clock. *)
Definition faulty_pipeline (clock : nat)
  : state (ClippedRewardsWrapper.cls
             (FireResetEnv.cls
                (MaxAndSkipEnv.cls
                   (NoopResetEnv.cls (EpisodicLifeEnv.cls Faulty))))) :=
  clipped (FireResetEnv.cls (MaxAndSkipEnv.cls (NoopResetEnv.cls (EpisodicLifeEnv.cls Faulty))))
    (firing (MaxAndSkipEnv.cls (NoopResetEnv.cls (EpisodicLifeEnv.cls Faulty)))
       (skipper (NoopResetEnv.cls (EpisodicLifeEnv.cls Faulty))
          (nooping (EpisodicLifeEnv.cls Faulty)
             (episodic Faulty (faulty_at clock) 3) 30)
          4)).

(** Configuration values. *)
Inductive json : Type :=
| JNone
| JBool (b : bool)
| JInt (n : Z)
| JStr (s : string).

#[export] Instance json_values : Values := {|
  Value := json;
  py_True := JBool true;
  py_False := JBool false;
  truthy := fun v =>
    match v with
    | JNone => false
    | JBool b => b
    | JInt n => negb (n =? 0)
    | JStr s => negb (String.eqb s "")
    end;
  truthy_True := eq_refl;
  truthy_False := eq_refl
|}.

Definition default_config : dict :=
  [("lr", JInt 3); ("gamma", JInt 99); ("checked", JBool false)].

Definition user_config : dict := [("gamma", JInt 95)].

Definition seeded_config : dict := [("seed", JInt 1); ("lr", JInt 5)].

Definition typo_config : dict := [("gama", JInt 95)].

Definition checked_config : dict :=
  [("lr", JInt 3); ("gamma", JInt 95); ("checked", JBool true)].

Definition empty_config : dict := [].

(** The mean of integer rewards, rounded down. *)
#[export] Instance numpy : Numpy Mock.externals := {|
  int_zero := 0;
  np_mean := fun rewards => fold_left Z.add rewards 0 / Z.of_nat (length rewards)
|}.

(** An agent that answers with the first pixel of the frame, and counts
    its answers. *)
Definition pixel_agent : Agent := {|
  agent := nat;
  compute_action := fun obs count g => Ok (nth 0 obs 0, S count, g)
|}.

Definition no_viewer (E : Env) : Viewer E := {|
  env_render := ret tt;
  env_close := ret tt
|}.

End Scenes.

(** * Properties *)

Unset Implicit Arguments.

(** ** Running the method bodies *)

Ltac run :=
  cbv beta iota delta
    [bind ret gets modify lift raise zoom np_random_randint
     EpisodicLifeEnv.self_env NoopResetEnv.self_env FireResetEnv.self_env
     MaxAndSkipEnv.self_env ClippedRewardsWrapper.self_env].

Ltac setters :=
  cbv beta iota delta
    [EpisodicLifeEnv.set_env EpisodicLifeEnv.set_lives
     EpisodicLifeEnv.set_was_real_done EpisodicLifeEnv.set_was_real_reset
     NoopResetEnv.set_env FireResetEnv.set_env
     MaxAndSkipEnv.set_env MaxAndSkipEnv.set_obs_buffer
     ClippedRewardsWrapper.set_env];
  cbn [EpisodicLifeEnv.env EpisodicLifeEnv.lives
       EpisodicLifeEnv.was_real_done EpisodicLifeEnv.was_real_reset
       NoopResetEnv.env NoopResetEnv.noop_max FireResetEnv.env
       MaxAndSkipEnv.env MaxAndSkipEnv._obs_buffer MaxAndSkipEnv._skip
       ClippedRewardsWrapper.env].

Section TracedFacts.
Context `{X : Externals} (E : Env).

Lemma traced_step action log e g r e' g' :
  step E action e g = Ok (r, e', g') ->
  step (Traced E) action (traced log e) g =
    Ok (r, traced (log ++ [EvStep action r]) e', g').
Proof. intros H. simpl. rewrite H. reflexivity. Qed.

Lemma traced_reset log e g obs e' g' :
  reset E e g = Ok (obs, e', g') ->
  reset (Traced E) (traced log e) g =
    Ok (obs, traced (log ++ [EvReset obs]) e', g').
Proof. intros H. simpl. rewrite H. reflexivity. Qed.

Lemma traced_lives log (e : state E) :
  ale_lives (Traced E) (traced log e) = ale_lives E e.
Proof. reflexivity. Qed.
End TracedFacts.

(** ** [EpisodicLifeEnv] *)

Section EpisodicLifeFacts.
Context `{X : Externals} (E : Env).

Lemma EpisodicLifeEnv_step_run action (self : EpisodicLifeEnv.t E) g
      obs reward done info e' g' :
  step E action (EpisodicLifeEnv.env self) g = Ok ((obs, reward, done, info), e', g') ->
  EpisodicLifeEnv._step action self g =
    Ok ((obs, reward,
         if (ale_lives E e' <? EpisodicLifeEnv.lives self) && (0 <? ale_lives E e')
         then true else done,
         info),
        {| EpisodicLifeEnv.env := e';
           EpisodicLifeEnv.lives := ale_lives E e';
           EpisodicLifeEnv.was_real_done := done;
           EpisodicLifeEnv.was_real_reset := EpisodicLifeEnv.was_real_reset self |},
        g').
Proof.
  intros H. unfold EpisodicLifeEnv._step. run. rewrite H. setters. reflexivity.
Qed.

Lemma EpisodicLifeEnv_reset_real (self : EpisodicLifeEnv.t E) g obs e' g' :
  EpisodicLifeEnv.was_real_done self = true ->
  reset E (EpisodicLifeEnv.env self) g = Ok (obs, e', g') ->
  EpisodicLifeEnv._reset self g =
    Ok (obs,
        {| EpisodicLifeEnv.env := e';
           EpisodicLifeEnv.lives := ale_lives E e';
           EpisodicLifeEnv.was_real_done := true;
           EpisodicLifeEnv.was_real_reset := true |},
        g').
Proof.
  intros Hd H. unfold EpisodicLifeEnv._reset. run. rewrite Hd. rewrite H.
  setters. rewrite Hd. reflexivity.
Qed.

Lemma EpisodicLifeEnv_reset_life_lost (self : EpisodicLifeEnv.t E) g
      obs reward done info e' g' :
  EpisodicLifeEnv.was_real_done self = false ->
  step E 0 (EpisodicLifeEnv.env self) g = Ok ((obs, reward, done, info), e', g') ->
  EpisodicLifeEnv._reset self g =
    Ok (obs,
        {| EpisodicLifeEnv.env := e';
           EpisodicLifeEnv.lives := ale_lives E e';
           EpisodicLifeEnv.was_real_done := false;
           EpisodicLifeEnv.was_real_reset := false |},
        g').
Proof.
  intros Hd H. unfold EpisodicLifeEnv._reset. run. rewrite Hd. rewrite H.
  setters. rewrite Hd. reflexivity.
Qed.
End EpisodicLifeFacts.

Section EpisodicLifeClaims.
Context `{X : Externals} (E : Env).

(** C2. A [step] of [EpisodicLifeEnv] makes one [step] call on the inner
    environment with the caller's action, records its [done] in
    [was_real_done], reads the life count of the base environment after
    that call, returns [done = True] when that count is below the recorded
    one and above zero and the inner [done] otherwise, records the count
    in [lives], and passes observation, reward and info through. *)
Theorem EpisodicLifeEnv_step_spec :
  forall (action : Action) (self : EpisodicLifeEnv.t (Traced E)) (g : RandomState)
         (log : list Event) (e : state E)
         (obs : Obs) (reward : Reward) (done : bool) (info : Info)
         (e' : state E) (g' : RandomState),
    EpisodicLifeEnv.env self = traced log e ->
    step E action e g = Ok ((obs, reward, done, info), e', g') ->
    let current_lives := ale_lives E e' in
    let life_lost := current_lives < EpisodicLifeEnv.lives self /\ current_lives > 0 in
    exists done' : bool,
      EpisodicLifeEnv._step action self g =
        Ok ((obs, reward, done', info),
            {| EpisodicLifeEnv.env := traced (log ++ [EvStep action (obs, reward, done, info)]) e';
               EpisodicLifeEnv.lives := current_lives;
               EpisodicLifeEnv.was_real_done := done;
               EpisodicLifeEnv.was_real_reset := EpisodicLifeEnv.was_real_reset self |},
            g')
      /\ (life_lost -> done' = true)
      /\ (~ life_lost -> done' = done).
Proof.
  intros action self g log e obs reward done info e' g' Henv Hstep current_lives life_lost.
  pose proof (traced_step E action log _ _ _ _ _ Hstep) as Ht.
  rewrite <- Henv in Ht.
  rewrite (EpisodicLifeEnv_step_run (Traced E) action self _ _ _ _ _ _ _ Ht).
  rewrite traced_lives.
  fold current_lives.
  eexists. split; [reflexivity |].
  subst life_lost.
  destruct (Z.ltb_spec current_lives (EpisodicLifeEnv.lives self)) as [Hlt | Hge];
    destruct (Z.ltb_spec 0 current_lives) as [Hpos | Hnpos]; cbn [andb];
    split; intros; try reflexivity; lia.
Qed.

(** C3. A [reset] of [EpisodicLifeEnv] calls the inner [reset] when
    [was_real_done] holds, and otherwise makes exactly one [step] call
    with action 0 and no [reset] call; either way it then records the life
    count of the base environment and returns the observation obtained. *)
Theorem EpisodicLifeEnv_reset_spec :
  forall (self : EpisodicLifeEnv.t (Traced E)) (g : RandomState)
         (log : list Event) (e : state E),
    EpisodicLifeEnv.env self = traced log e ->
    (EpisodicLifeEnv.was_real_done self = true ->
     forall obs e' g',
       reset E e g = Ok (obs, e', g') ->
       EpisodicLifeEnv._reset self g =
         Ok (obs,
             {| EpisodicLifeEnv.env := traced (log ++ [EvReset obs]) e';
                EpisodicLifeEnv.lives := ale_lives E e';
                EpisodicLifeEnv.was_real_done := true;
                EpisodicLifeEnv.was_real_reset := true |},
             g'))
    /\
    (EpisodicLifeEnv.was_real_done self = false ->
     forall obs reward done info e' g',
       step E 0 e g = Ok ((obs, reward, done, info), e', g') ->
       EpisodicLifeEnv._reset self g =
         Ok (obs,
             {| EpisodicLifeEnv.env := traced (log ++ [EvStep 0 (obs, reward, done, info)]) e';
                EpisodicLifeEnv.lives := ale_lives E e';
                EpisodicLifeEnv.was_real_done := false;
                EpisodicLifeEnv.was_real_reset := false |},
             g')).
Proof.
  intros self g log e Henv. split.
  - intros Hd obs e' g' Hreset.
    pose proof (traced_reset E log _ _ _ _ _ Hreset) as Ht. rewrite <- Henv in Ht.
    rewrite (EpisodicLifeEnv_reset_real (Traced E) self _ _ _ _ Hd Ht). reflexivity.
  - intros Hd obs reward done info e' g' Hstep.
    pose proof (traced_step E 0 log _ _ _ _ _ Hstep) as Ht. rewrite <- Henv in Ht.
    rewrite (EpisodicLifeEnv_reset_life_lost (Traced E) self _ _ _ _ _ _ _ Hd Ht). reflexivity.
Qed.


(** C6. Along a run of [step] calls in which the life count read after
    each step is never below the one recorded before it, [EpisodicLifeEnv]
    returns at every position the [done] that the inner environment
    returned there. *)
Theorem EpisodicLifeEnv_done_without_life_loss :
  forall (actions : list Action) (self : EpisodicLifeEnv.t E) (g : RandomState)
         (trace : list (StepResult * Z)) (e' : state E) (g' : RandomState),
    play E actions (EpisodicLifeEnv.env self) g = Ok (trace, e', g') ->
    no_life_loss (EpisodicLifeEnv.lives self) (map snd trace) ->
    exists trace' self',
      play (EpisodicLifeEnv.cls E) actions self g = Ok (trace', self', g')
      /\ EpisodicLifeEnv.env self' = e'
      /\ length trace' = length actions
      /\ map (fun x => done_of (fst x)) trace' = map (fun x => done_of (fst x)) trace.
Proof.
  induction actions as [| action rest IH]; intros self g trace e' g' Hplay Hlives.
  - cbn in Hplay. unfold ret in Hplay. injection Hplay as <- <- <-.
    exists [], self. repeat split.
  - cbn [play] in Hplay. revert Hplay. run.
    destruct (step E action (EpisodicLifeEnv.env self) g)
      as [[[[[[obs reward] done] info] e1] g1] | err] eqn:Hstep; [| discriminate].
    destruct (play E rest e1 g1) as [[[trace1 e2] g2] | err] eqn:Hrest; [| discriminate].
    intros Hplay. injection Hplay as <- <- <-.
    cbn [map snd no_life_loss] in Hlives. destruct Hlives as [Hle Hlives].
    pose proof (EpisodicLifeEnv_step_run E action self _ _ _ _ _ _ _ Hstep) as Hrun.
    set (self1 := {| EpisodicLifeEnv.env := e1;
                     EpisodicLifeEnv.lives := ale_lives E e1;
                     EpisodicLifeEnv.was_real_done := done;
                     EpisodicLifeEnv.was_real_reset := EpisodicLifeEnv.was_real_reset self |})
      in *.
    destruct (IH self1 g1 trace1 e2 g2 Hrest Hlives) as (trace' & self' & Hp & He & Hlen & Hdone).
    exists ((obs, reward, done, info, ale_lives E e1) :: trace'), self'.
    split; [| split; [exact He | split]].
    + cbn [play]. run. cbn [step EpisodicLifeEnv.cls].
      rewrite Hrun.
      replace ((ale_lives E e1 <? EpisodicLifeEnv.lives self) && (0 <? ale_lives E e1))
        with false
        by (destruct (Z.ltb_spec (ale_lives E e1) (EpisodicLifeEnv.lives self));
            [lia | reflexivity]).
      cbn [ale_lives EpisodicLifeEnv.cls]. fold self1.
      rewrite Hp. reflexivity.
    + cbn [length]. rewrite Hlen. reflexivity.
    + cbn [map fst done_of]. rewrite Hdone. reflexivity.
Qed.
End EpisodicLifeClaims.

(** ** Construction *)

Section ConstructionFacts.
Context `{X : Externals} (E : Env).

Lemma NoopResetEnv_init_ok (e : state E) (noop_max : Z) :
  noop_at_0 (get_action_meanings E e) ->
  NoopResetEnv.__init__ E e noop_max =
    Ok {| NoopResetEnv.env := e; NoopResetEnv.noop_max := noop_max |}.
Proof.
  unfold noop_at_0, NoopResetEnv.__init__. intros ->.
  rewrite String.eqb_refl. reflexivity.
Qed.

Lemma NoopResetEnv_init_fails (e : state E) (noop_max : Z) :
  ~ noop_at_0 (get_action_meanings E e) ->
  fails (NoopResetEnv.__init__ E e noop_max).
Proof.
  unfold noop_at_0, NoopResetEnv.__init__, fails. intros Hno.
  destruct (nth_error (get_action_meanings E e) 0) as [meaning |].
  - destruct (String.eqb_spec meaning "NOOP") as [-> | Hne].
    + contradiction Hno. reflexivity.
    + exists AssertionError. reflexivity.
  - exists IndexError. reflexivity.
Qed.

Lemma FireResetEnv_init_ok (e : state E) :
  fire_at_1 (get_action_meanings E e) ->
  FireResetEnv.__init__ E e = Ok {| FireResetEnv.env := e |}.
Proof.
  unfold fire_at_1, FireResetEnv.__init__. intros [-> Hlen].
  rewrite String.eqb_refl.
  destruct (Nat.leb_spec 3 (length (get_action_meanings E e))); [reflexivity | lia].
Qed.

Lemma FireResetEnv_init_fails (e : state E) :
  ~ fire_at_1 (get_action_meanings E e) ->
  fails (FireResetEnv.__init__ E e).
Proof.
  unfold fire_at_1, FireResetEnv.__init__, fails. intros Hno.
  destruct (nth_error (get_action_meanings E e) 1) as [meaning |].
  - destruct (String.eqb_spec meaning "FIRE") as [-> | Hne].
    + destruct (Nat.leb_spec 3 (length (get_action_meanings E e))).
      * contradiction Hno. split; [reflexivity | assumption].
      * exists AssertionError. reflexivity.
    + exists AssertionError. reflexivity.
  - exists IndexError. reflexivity.
Qed.

Lemma contains_In (x : string) (meanings : list string) :
  contains x meanings = true <-> In x meanings.
Proof.
  unfold contains. rewrite existsb_exists. split.
  - intros (y & Hin & Heq). apply String.eqb_eq in Heq. subst. exact Hin.
  - intros Hin. exists x. split; [exact Hin | apply String.eqb_refl].
Qed.

(** C7. Construction of [NoopResetEnv] returns the wrapper when ["NOOP"]
    is the action meaning at index 0 and raises otherwise; construction
    of [FireResetEnv] returns the wrapper when ["FIRE"] is the action
    meaning at index 1 and there are at least 3 meanings, and raises
    otherwise. *)
Theorem construction_checks_action_meanings :
  forall (e : state E) (noop_max : Z),
    let meanings := get_action_meanings E e in
    (noop_at_0 meanings ->
       NoopResetEnv.__init__ E e noop_max =
         Ok {| NoopResetEnv.env := e; NoopResetEnv.noop_max := noop_max |})
    /\ (~ noop_at_0 meanings -> fails (NoopResetEnv.__init__ E e noop_max))
    /\ (fire_at_1 meanings ->
          FireResetEnv.__init__ E e = Ok {| FireResetEnv.env := e |})
    /\ (~ fire_at_1 meanings -> fails (FireResetEnv.__init__ E e)).
Proof.
  intros e noop_max meanings. repeat split.
  - apply NoopResetEnv_init_ok.
  - apply NoopResetEnv_init_fails.
  - apply FireResetEnv_init_ok.
  - apply FireResetEnv_init_fails.
Qed.
End ConstructionFacts.

(** ** [FireResetEnv] *)

Section FireResetClaims.
Context `{X : Externals} (E : Env).

(** C8. A [reset] of [FireResetEnv] calls the inner [reset], then [step]
    with action 1, then [step] with action 2, and returns the observation
    of that last step; whatever rewards and [done] flags the two steps
    return, nothing of them reaches the caller or the wrapper. *)
Theorem FireResetEnv_reset_spec :
  forall (self : FireResetEnv.t (Traced E)) (g : RandomState)
         (log : list Event) (e : state E)
         (obs0 : Obs) (e0 : state E) (g0 : RandomState)
         (obs1 obs2 : Obs) (reward1 reward2 : Reward) (done1 done2 : bool)
         (info1 info2 : Info) (e1 e2 : state E) (g1 g2 : RandomState),
    FireResetEnv.env self = traced log e ->
    reset E e g = Ok (obs0, e0, g0) ->
    step E 1 e0 g0 = Ok ((obs1, reward1, done1, info1), e1, g1) ->
    step E 2 e1 g1 = Ok ((obs2, reward2, done2, info2), e2, g2) ->
    FireResetEnv._reset self g =
      Ok (obs2,
          {| FireResetEnv.env :=
               traced (log ++ [EvReset obs0;
                               EvStep 1 (obs1, reward1, done1, info1);
                               EvStep 2 (obs2, reward2, done2, info2)]) e2 |},
          g2).
Proof.
  intros self g log e obs0 e0 g0 obs1 obs2 reward1 reward2 done1 done2
         info1 info2 e1 e2 g1 g2 Henv Hreset Hstep1 Hstep2.
  unfold FireResetEnv._reset. run. rewrite Henv.
  rewrite (traced_reset E log _ _ _ _ _ Hreset). setters.
  rewrite (traced_step E 1 _ _ _ _ _ _ Hstep1). setters.
  rewrite (traced_step E 2 _ _ _ _ _ _ Hstep2). setters.
  rewrite <- !app_assoc. reflexivity.
Qed.
End FireResetClaims.

(** ** [wrap_deepmind_ram] *)

Section ComposerClaims.
Context `{X : Externals} (E : Env).

Let Episodic := EpisodicLifeEnv.cls E.
Let Noop := NoopResetEnv.cls Episodic.
Let MaxAndSkip := MaxAndSkipEnv.cls Noop.
Let Fire := FireResetEnv.cls MaxAndSkip.

Lemma construct_handle (F : Env) (s : state F) (cls : Env -> Env)
      (init : forall E, state E -> Result (state (cls E))) :
  construct (handle F s) cls init =
    match init F s with
    | Ok self => Ok (handle (cls F) self)
    | Raise err => Raise err
    end.
Proof. reflexivity. Qed.

Lemma meanings_of_handle (F : Env) (s : state F) :
  unwrapped_get_action_meanings (handle F s) = get_action_meanings F s.
Proof. reflexivity. Qed.

(** C4, amended. On a base environment whose action meanings have
    ["NOOP"] at index 0 and, when ["FIRE"] is among them, have ["FIRE"] at
    index 1 and at least 3 entries, the composer constructs
    [EpisodicLifeEnv] on the base environment, [NoopResetEnv] with
    [noop_max = 30] on that, [MaxAndSkipEnv] with [skip = 4] on that,
    [FireResetEnv] on that exactly when ["FIRE"] is among the meanings,
    [ClippedRewardsWrapper] on top, and returns the last one; on every
    other base environment it raises. *)
Theorem wrap_deepmind_ram_spec :
  forall (e : state E),
    let meanings := get_action_meanings E e in
    let compatible :=
      noop_at_0 meanings /\ (In "FIRE" meanings -> fire_at_1 meanings) in
    (compatible ->
     exists (s1 : state Episodic) (s2 : state Noop) (s3 : state MaxAndSkip),
       EpisodicLifeEnv.__init__ E e = Ok s1
       /\ NoopResetEnv.__init__ Episodic s1 30 = Ok s2
       /\ MaxAndSkipEnv.__init__ Noop s2 4 = Ok s3
       /\ (In "FIRE" meanings ->
           exists (s4 : state Fire) (s5 : state (ClippedRewardsWrapper.cls Fire)),
             FireResetEnv.__init__ MaxAndSkip s3 = Ok s4
             /\ ClippedRewardsWrapper.__init__ Fire s4 = Ok s5
             /\ wrap_deepmind_ram (handle E e) =
                  Ok (handle (ClippedRewardsWrapper.cls Fire) s5)
             /\ wrappers (ClippedRewardsWrapper.cls Fire) =
                  ["ClippedRewardsWrapper"; "FireResetEnv"; "MaxAndSkipEnv";
                   "NoopResetEnv"; "EpisodicLifeEnv"] ++ wrappers E)
       /\ (~ In "FIRE" meanings ->
           exists (s5 : state (ClippedRewardsWrapper.cls MaxAndSkip)),
             ClippedRewardsWrapper.__init__ MaxAndSkip s3 = Ok s5
             /\ wrap_deepmind_ram (handle E e) =
                  Ok (handle (ClippedRewardsWrapper.cls MaxAndSkip) s5)
             /\ wrappers (ClippedRewardsWrapper.cls MaxAndSkip) =
                  ["ClippedRewardsWrapper"; "MaxAndSkipEnv";
                   "NoopResetEnv"; "EpisodicLifeEnv"] ++ wrappers E))
    /\ (~ compatible -> fails (wrap_deepmind_ram (handle E e))).
Proof.
  intros e meanings compatible. split.
  - intros [Hnoop Hfire].
    eexists. eexists. eexists.
    split; [reflexivity |].
    split; [apply NoopResetEnv_init_ok; exact Hnoop |].
    split; [reflexivity |].
    split.
    + intros Hin. pose proof (Hfire Hin) as Hok.
      eexists. eexists.
      split; [apply FireResetEnv_init_ok; exact Hok |].
      split; [reflexivity |].
      split; [| reflexivity].
      unfold wrap_deepmind_ram.
      rewrite construct_handle. cbn [and_then EpisodicLifeEnv.__init__].
      rewrite construct_handle, NoopResetEnv_init_ok by exact Hnoop.
      cbn [and_then].
      rewrite construct_handle. cbn [and_then MaxAndSkipEnv.__init__].
      rewrite meanings_of_handle.
      change (contains "FIRE" (get_action_meanings _ _))
        with (contains "FIRE" meanings). apply contains_In in Hin. rewrite Hin.
      rewrite construct_handle, FireResetEnv_init_ok by exact Hok.
      reflexivity.
    + intros Hnin.
      eexists.
      split; [reflexivity |].
      split; [| reflexivity].
      unfold wrap_deepmind_ram.
      rewrite construct_handle. cbn [and_then EpisodicLifeEnv.__init__].
      rewrite construct_handle, NoopResetEnv_init_ok by exact Hnoop.
      cbn [and_then].
      rewrite construct_handle. cbn [and_then MaxAndSkipEnv.__init__].
      rewrite meanings_of_handle.
      change (contains "FIRE" (get_action_meanings _ _))
        with (contains "FIRE" meanings).
      destruct (contains "FIRE" meanings) eqn:Hc.
      * apply contains_In in Hc. contradiction.
      * reflexivity.
  - intros Hno.
    assert (Hdec : noop_at_0 meanings \/ ~ noop_at_0 meanings).
    { unfold noop_at_0. destruct (nth_error meanings 0) as [m0 |].
      - destruct (string_dec m0 "NOOP") as [-> | Hne].
        + left. reflexivity.
        + right. congruence.
      - right. discriminate. }
    unfold wrap_deepmind_ram.
    rewrite construct_handle. cbn [and_then EpisodicLifeEnv.__init__].
    rewrite construct_handle.
    destruct Hdec as [H0 | H0].
    2:{ match goal with
        | |- context [NoopResetEnv.__init__ ?F ?s ?n] =>
            destruct (NoopResetEnv_init_fails F s n H0) as [err Herr]
        end.
        rewrite Herr. exists err. reflexivity. }
    rewrite NoopResetEnv_init_ok by exact H0.
    cbn [and_then].
    rewrite construct_handle. cbn [and_then MaxAndSkipEnv.__init__].
    rewrite meanings_of_handle.
    change (contains "FIRE" (get_action_meanings _ _))
      with (contains "FIRE" meanings).
    destruct (contains "FIRE" meanings) eqn:Hc.
    + apply contains_In in Hc.
      rewrite construct_handle.
      match goal with
      | |- context [FireResetEnv.__init__ ?F ?s] =>
          destruct (FireResetEnv_init_fails F s) as [err Herr]
      end.
      * intros Hok. apply Hno. split; [exact H0 | intros _; exact Hok].
      * rewrite Herr. exists err. reflexivity.
    + exfalso. apply Hno. split; [exact H0 |].
      intros Hin. apply contains_In in Hin. congruence.
Qed.
End ComposerClaims.

(** ** [NoopResetEnv] *)

Section NoopResetClaims.
Context `{X : Externals} (E : Env).

Lemma last_cons_default {A} (a d : A) (l : list A) :
  last (a :: l) d = last l a.
Proof.
  revert a d. induction l as [| b l IH]; intros a d; [reflexivity |].
  change (last (a :: b :: l) d) with (last (b :: l) d).
  rewrite (IH b d), (IH b a). reflexivity.
Qed.

Lemma steps_succ action n (e : state E) g r e1 g1 rs e' g' :
  step E action e g = Ok (r, e1, g1) ->
  steps E action n e1 g1 = Ok (rs, e', g') ->
  steps E action (S n) e g = Ok (r :: rs, e', g').
Proof.
  intros Hstep Hrest. cbn [steps]. run. rewrite Hstep, Hrest. reflexivity.
Qed.

Lemma NoopResetEnv_for_range_run :
  (forall s g, succeeds (step E 0 s g)) ->
  forall n obs (self : NoopResetEnv.t (Traced E)) g log e,
    NoopResetEnv.env self = traced log e ->
    exists rs e' g',
      steps E 0 n e g = Ok (rs, e', g')
      /\ length rs = n
      /\ NoopResetEnv.for_range n obs self g =
           Ok (last (map (fun r => Some (obs_of r)) rs) obs,
               {| NoopResetEnv.env := traced (log ++ map (EvStep 0) rs) e';
                  NoopResetEnv.noop_max := NoopResetEnv.noop_max self |},
               g').
Proof.
  intros Htotal. induction n as [| n IH]; intros obs self g log e Henv.
  - exists [], e, g. split; [reflexivity |]. split; [reflexivity |].
    cbn [NoopResetEnv.for_range map last]. unfold ret.
    rewrite app_nil_r, <- Henv. destruct self; reflexivity.
  - destruct (Htotal e g) as [[[r e1] g1] Hstep].
    pose proof (traced_step E 0 log _ _ _ _ _ Hstep) as Ht.
    set (self1 := NoopResetEnv.set_env self (traced (log ++ [EvStep 0 r]) e1)).
    destruct (IH (Some (obs_of r)) self1 g1 (log ++ [EvStep 0 r]) e1 eq_refl)
      as (rs & e' & g' & Hsteps & Hlen & Hrun).
    exists (r :: rs), e', g'.
    split; [exact (steps_succ 0 n e g r e1 g1 rs e' g' Hstep Hsteps) |].
    split; [cbn [length]; rewrite Hlen; reflexivity |].
    cbn [NoopResetEnv.for_range]. run. rewrite Henv, Ht.
    destruct r as [[[obs1 reward1] done1] info1].
    cbn [obs_of] in Hrun. unfold self1 in Hrun. rewrite Hrun.
    cbn [map]. rewrite last_cons_default. cbn [obs_of].
    rewrite <- app_assoc. reflexivity.
Qed.

(** C9. A [reset] of [NoopResetEnv] with [noop_max >= 1] calls the inner
    [reset], whose observation it drops, draws [n] with
    [np.random.randint(1, noop_max + 1)], so that [1 <= n <= noop_max]
    and every such [n] can be drawn, then makes exactly [n] [step] calls
    with action 0 and returns the observation of the last of them. *)
Theorem NoopResetEnv_reset_spec :
  forall (self : NoopResetEnv.t (Traced E)) (g : RandomState)
         (log : list Event) (e : state E)
         (obs0 : Obs) (e0 : state E) (g0 : RandomState),
    1 <= NoopResetEnv.noop_max self ->
    NoopResetEnv.env self = traced log e ->
    reset E e g = Ok (obs0, e0, g0) ->
    (forall s g1, succeeds (step E 0 s g1)) ->
    (exists (n : Z) (g1 : RandomState) (front : list StepResult) (final : StepResult)
            (e' : state E) (g' : RandomState),
       randint 1 (NoopResetEnv.noop_max self + 1) g0 = Ok (n, g1)
       /\ 1 <= n <= NoopResetEnv.noop_max self
       /\ Z.of_nat (length (front ++ [final])) = n
       /\ steps E 0 (length (front ++ [final])) e0 g1 = Ok (front ++ [final], e', g')
       /\ NoopResetEnv._reset self g =
            Ok (obs_of final,
                {| NoopResetEnv.env :=
                     traced (log ++ EvReset obs0 :: map (EvStep 0) (front ++ [final])) e';
                   NoopResetEnv.noop_max := NoopResetEnv.noop_max self |},
                g'))
    /\ (forall n, 1 <= n <= NoopResetEnv.noop_max self ->
          exists g0' g1, randint 1 (NoopResetEnv.noop_max self + 1) g0' = Ok (n, g1)).
Proof.
  intros self g log e obs0 e0 g0 Hmax Henv Hreset Htotal. split.
  - assert (Hlt : 1 < NoopResetEnv.noop_max self + 1) by lia.
    destruct (randint_range g0 Hlt) as (n & g1 & Hdraw & Hn).
    pose proof (traced_reset E log _ _ _ _ _ Hreset) as Ht.
    set (self0 := NoopResetEnv.set_env self (traced (log ++ [EvReset obs0]) e0)).
    destruct (NoopResetEnv_for_range_run Htotal (Z.to_nat n) None self0 g1
                (log ++ [EvReset obs0]) e0 eq_refl)
      as (rs & e' & g' & Hsteps & Hlen & Hrun).
    destruct (exists_last (l := rs)) as (front & final & ->).
    { intros ->. cbn in Hlen. lia. }
    exists n, g1, front, final, e', g'.
    split; [exact Hdraw |]. split; [lia |].
    split; [rewrite Hlen; lia |].
    split; [rewrite Hlen; exact Hsteps |].
    unfold NoopResetEnv._reset. run. rewrite Henv, Ht. setters.
    rewrite Hdraw. cbv beta iota.
    unfold self0, NoopResetEnv.set_env in Hrun.
    cbn [NoopResetEnv.noop_max] in Hrun. rewrite Hrun.
    rewrite map_app. cbn [map]. rewrite last_last.
    rewrite <- app_assoc. reflexivity.
  - intros n Hn. apply randint_onto. lia.
Qed.
End NoopResetClaims.

(** ** Frames and the buffer *)

Section BufferFacts.

Lemma lastn_all {A} (n : nat) (l : list A) :
  (length l <= n)%nat -> lastn n l = l.
Proof.
  intros Hle. unfold lastn.
  replace (length l - n)%nat with 0%nat by lia. apply skipn_0.
Qed.

Lemma length_lastn {A} (n : nat) (l : list A) :
  (length (lastn n l) <= n)%nat.
Proof. unfold lastn. rewrite length_skipn. lia. Qed.

Lemma lastn_app_lastn {A} (n : nat) (l xs : list A) :
  lastn n (lastn n l ++ xs) = lastn n (l ++ xs).
Proof.
  destruct (Nat.le_gt_cases (length l) n) as [Hle | Hgt].
  - rewrite (lastn_all n l Hle). reflexivity.
  - unfold lastn. rewrite !length_app, length_skipn.
    rewrite !skipn_app, skipn_skipn, length_skipn.
    f_equal; f_equal; lia.
Qed.

Lemma In_lastn {A} (n : nat) (l : list A) (x : A) :
  In x (lastn n l) -> In x l.
Proof.
  unfold lastn. intros Hin.
  rewrite <- (firstn_skipn (length l - n) l). apply in_or_app. right. exact Hin.
Qed.

Lemma deque_append_maxlen {A} (xs : list A) (d : deque A) :
  maxlen (fold_left deque_append xs d) = maxlen d.
Proof.
  revert d. induction xs as [| x xs IH]; intros d; [reflexivity |].
  cbn [fold_left]. rewrite IH. reflexivity.
Qed.

Lemma deque_append_items_bounded {A} (xs : list A) (d : deque A) :
  (length (items d) <= maxlen d)%nat ->
  items (fold_left deque_append xs d) = lastn (maxlen d) (items d ++ xs).
Proof.
  revert d. induction xs as [| x xs IH]; intros d Hle.
  - cbn [fold_left]. rewrite app_nil_r. symmetry. apply lastn_all. exact Hle.
  - cbn [fold_left]. rewrite IH.
    + cbn [deque_append maxlen items].
      fold (lastn (maxlen d) (items d ++ [x])).
      rewrite lastn_app_lastn, <- app_assoc. reflexivity.
    + cbn [deque_append maxlen items].
      fold (lastn (maxlen d) (items d ++ [x])). apply length_lastn.
Qed.

(** After at least one [append] the deque holds the last [maxlen] items
    of what it held followed by what was appended. *)
Lemma deque_append_items {A} (x : A) (xs : list A) (d : deque A) :
  items (fold_left deque_append (x :: xs) d) =
    lastn (maxlen d) (items d ++ x :: xs).
Proof.
  cbn [fold_left]. rewrite deque_append_items_bounded.
  - cbn [deque_append maxlen items].
    fold (lastn (maxlen d) (items d ++ [x])).
    rewrite lastn_app_lastn, <- app_assoc. reflexivity.
  - cbn [deque_append maxlen items].
    fold (lastn (maxlen d) (items d ++ [x])). apply length_lastn.
Qed.

Lemma maximum_length (a b : Obs) :
  length a = length b -> length (maximum a b) = length a.
Proof.
  revert b. induction a as [| x a IH]; intros [| y b] Hlen; try discriminate.
  - reflexivity.
  - cbn [maximum length]. f_equal. apply IH. cbn in Hlen. congruence.
Qed.

Lemma maximum_nth (a b : Obs) (i : nat) :
  length a = length b ->
  nth i (maximum a b) 0 = Z.max (nth i a 0) (nth i b 0).
Proof.
  revert b i. induction a as [| x a IH]; intros [| y b] i Hlen; try discriminate.
  - destruct i; reflexivity.
  - destruct i as [| i]; [reflexivity |].
    cbn [maximum nth]. apply IH. cbn in Hlen. congruence.
Qed.

Lemma fold_maximum_spec (rest : list Obs) (f : Obs) :
  Forall (fun f' => length f' = length f) rest ->
  elementwise_max (f :: rest) (fold_left maximum rest f).
Proof.
  revert f. induction rest as [| x rest IH]; intros f Hshape.
  - cbn [fold_left]. split.
    + intros f' [<- | []]. reflexivity.
    + intros i Hi. split.
      * intros f' [<- | []]. lia.
      * exists f. split; [left; reflexivity | reflexivity].
  - inversion Hshape as [| ? ? Hx Hrest]; subst.
    cbn [fold_left].
    assert (Hlen : length (maximum f x) = length f)
      by (apply maximum_length; congruence).
    destruct (IH (maximum f x)) as [Hshapes Hpix].
    { rewrite Hlen. exact Hrest. }
    assert (Hm : length (fold_left maximum rest (maximum f x)) = length f).
    { rewrite <- Hlen. symmetry. apply Hshapes. left. reflexivity. }
    split.
    + intros f' [<- | [<- | Hin]].
      * congruence.
      * congruence.
      * apply Hshapes. right. exact Hin.
    + intros i Hi. destruct (Hpix i Hi) as [Hbound (w & Hw & Heq)].
      pose proof (Hbound (maximum f x) (or_introl eq_refl)) as Hmax.
      rewrite maximum_nth in Hmax by congruence.
      split.
      * intros f' [<- | [<- | Hin]]; [lia | lia |].
        apply Hbound. right. exact Hin.
      * destruct Hw as [<- | Hin].
        -- rewrite maximum_nth in Heq by congruence.
           destruct (Z.max_spec (nth i f 0) (nth i x 0)) as [[_ Hr] | [_ Hr]];
             rewrite Hr in Heq.
           ++ exists x. split; [right; left; reflexivity | exact Heq].
           ++ exists f. split; [left; reflexivity | exact Heq].
        -- exists w. split; [right; right; exact Hin | exact Heq].
Qed.

Lemma np_stack_inv (frames stacked : list Obs) :
  np_stack frames = Ok stacked ->
  stacked = frames /\
  exists f rest, frames = f :: rest
                 /\ Forall (fun f' => length f' = length f) rest.
Proof.
  unfold np_stack. destruct frames as [| f rest]; [discriminate |].
  destruct (forallb (same_shape f) rest) eqn:Hall; [| discriminate].
  intros Heq. injection Heq as <-. split; [reflexivity |].
  exists f, rest. split; [reflexivity |].
  rewrite forallb_forall in Hall. apply Forall_forall. intros f' Hin.
  specialize (Hall f' Hin). unfold same_shape in Hall.
  apply Nat.eqb_eq in Hall. congruence.
Qed.

(** The array that [np.max(np.stack(frames), axis=0)] returns is the
    pixel-wise maximum of the frames. *)
Lemma np_max_stack_spec (frames stacked : list Obs) :
  np_stack frames = Ok stacked ->
  elementwise_max frames (np_max_axis0 stacked).
Proof.
  intros Hstack. destruct (np_stack_inv frames stacked Hstack)
    as (-> & f & rest & -> & Hshape).
  cbn [np_max_axis0]. apply fold_maximum_spec. exact Hshape.
Qed.

Lemma np_stack_ok (frames : list Obs) (shape : nat) :
  frames <> [] ->
  Forall (fun f => length f = shape) frames ->
  np_stack frames = Ok frames.
Proof.
  intros Hne Hshape. unfold np_stack.
  destruct frames as [| f rest]; [contradiction Hne; reflexivity |].
  inversion Hshape as [| ? ? Hf Hrest]; subst.
  replace (forallb (same_shape f) rest) with true; [reflexivity |].
  symmetry. apply forallb_forall. intros f' Hin.
  rewrite Forall_forall in Hrest. unfold same_shape.
  apply Nat.eqb_eq. symmetry. apply Hrest. exact Hin.
Qed.
End BufferFacts.

(** ** [MaxAndSkipEnv] *)

Section MaxAndSkipFacts.
Context `{X : Externals} (E : Env).

Lemma traced_step_raise action log (e : state E) g err :
  step E action e g = Raise err ->
  step (Traced E) action (traced log e) g = Raise err.
Proof. intros H. simpl. rewrite H. reflexivity. Qed.

Lemma deque_append_items_nonempty {A} (xs : list A) (d : deque A) :
  xs <> [] ->
  items (fold_left deque_append xs d) = lastn (maxlen d) (items d ++ xs).
Proof.
  destruct xs as [| x xs]; [intros H; contradiction H; reflexivity |].
  intros _. apply deque_append_items.
Qed.

Lemma steps_Forall (P : StepResult -> Prop) action :
  (forall s g r s' g', step E action s g = Ok (r, s', g') -> P r) ->
  forall n e g rs e' g',
    steps E action n e g = Ok (rs, e', g') -> Forall P rs.
Proof.
  intros HP. induction n as [| n IH]; intros e g rs e' g' Hsteps.
  - cbn in Hsteps. unfold ret in Hsteps. injection Hsteps as <- <- <-. constructor.
  - cbn [steps] in Hsteps. revert Hsteps. run.
    destruct (step E action e g) as [[[r e1] g1] | err] eqn:Hstep; [| discriminate].
    destruct (steps E action n e1 g1) as [[[rs1 e2] g2] | err] eqn:Hrest; [| discriminate].
    intros Heq. injection Heq as <- <- <-.
    constructor; [exact (HP _ _ _ _ _ Hstep) | exact (IH _ _ _ _ _ Hrest)].
Qed.

(** What one run of the loop of [_step] did, read off its result. *)
Lemma MaxAndSkipEnv_for_range_inv :
  forall n action l (self : MaxAndSkipEnv.t (Traced E)) g l' self' g' log e,
    MaxAndSkipEnv.env self = traced log e ->
    MaxAndSkipEnv.for_range n action l self g = Ok (l', self', g') ->
    exists rs e',
      steps E action (length rs) e g = Ok (rs, e', g')
      /\ MaxAndSkipEnv.env self' = traced (log ++ map (EvStep action) rs) e'
      /\ MaxAndSkipEnv._obs_buffer self' =
           fold_left deque_append (map obs_of rs) (MaxAndSkipEnv._obs_buffer self)
      /\ MaxAndSkipEnv._skip self' = MaxAndSkipEnv._skip self
      /\ MaxAndSkipEnv.total_reward l' =
           fold_left add (map reward_of rs) (MaxAndSkipEnv.total_reward l)
      /\ (length rs <= n)%nat
      /\ ((rs = [] /\ n = 0%nat /\ l' = l)
          \/ exists front final,
               rs = front ++ [final]
               /\ Forall (fun r => done_of r = false) front
               /\ MaxAndSkipEnv.done l' = Some (done_of final)
               /\ MaxAndSkipEnv.info l' = Some (info_of final)
               /\ (done_of final = true \/ length rs = n)).
Proof.
  induction n as [| n IH]; intros action l self g l' self' g' log e Henv Hrun.
  - cbn in Hrun. unfold ret in Hrun. injection Hrun as <- <- <-.
    exists [], e. cbn [map fold_left length]. rewrite app_nil_r.
    repeat split; try assumption; try reflexivity; try lia.
    left. repeat split.
  - cbn [MaxAndSkipEnv.for_range] in Hrun. revert Hrun. run. rewrite Henv.
    destruct (step E action e g) as [[[r e1] g1] | err] eqn:Hstep.
    2:{ rewrite (traced_step_raise action log e g err Hstep). discriminate. }
    rewrite (traced_step E action log _ _ _ _ _ Hstep).
    destruct r as [[[obs reward] d] info]. setters.
    destruct d.
    + intros Hrun. injection Hrun as <- <- <-.
      exists [(obs, reward, true, info)], e1.
      cbn [map fold_left length obs_of reward_of MaxAndSkipEnv.total_reward
           MaxAndSkipEnv.env MaxAndSkipEnv._obs_buffer MaxAndSkipEnv._skip].
      split; [exact (steps_succ E action 0 e g _ e1 g1 [] e1 g1 Hstep eq_refl) |].
      repeat split; try reflexivity; try lia.
      right. exists [], (obs, reward, true, info).
      repeat split; try reflexivity; [constructor | left; reflexivity].
    + intros Hrun.
      eapply IH in Hrun; [| cbn [MaxAndSkipEnv.env]; reflexivity].
      destruct Hrun as (rs & e' & Hsteps & Henv' & Hbuf & Hskip & Hrew & Hlen & Hexit).
      exists ((obs, reward, false, info) :: rs), e'.
      cbn [MaxAndSkipEnv.total_reward MaxAndSkipEnv.env MaxAndSkipEnv._obs_buffer
           MaxAndSkipEnv._skip] in Hbuf, Hskip, Hrew.
      cbn [map fold_left length obs_of reward_of].
      split; [exact (steps_succ E action _ e g _ e1 g1 rs e' g' Hstep Hsteps) |].
      split; [rewrite Henv', <- app_assoc; reflexivity |].
      split; [exact Hbuf |]. split; [exact Hskip |]. split; [exact Hrew |].
      split; [lia |].
      right. destruct Hexit as [(-> & -> & ->) | (front & final & -> & Hfront & Hd & Hi & Hlast)].
      * exists [], (obs, reward, false, info).
        repeat split; try reflexivity; [constructor | right; reflexivity].
      * exists ((obs, reward, false, info) :: front), final.
        repeat split; try assumption; try reflexivity.
        -- constructor; [reflexivity | exact Hfront].
        -- destruct Hlast as [Ht | Hn]; [left; exact Ht | right; cbn [length]; lia].
Qed.

(** The loop returns when the inner [step] does. *)
Lemma MaxAndSkipEnv_for_range_returns action :
  (forall s g, succeeds (step E action s g)) ->
  forall n l (self : MaxAndSkipEnv.t (Traced E)) g,
    succeeds (MaxAndSkipEnv.for_range n action l self g).
Proof.
  intros Htotal. induction n as [| n IH]; intros l self g.
  - eexists. reflexivity.
  - cbn [MaxAndSkipEnv.for_range]. run.
    destruct (MaxAndSkipEnv.env self) as [log e] eqn:Henv.
    destruct (Htotal e g) as [[[r e1] g1] Hstep].
    change (log, e) with (traced log e).
    rewrite (traced_step E action log _ _ _ _ _ Hstep).
    destruct r as [[[obs reward] d] info]. setters.
    destruct d; [eexists; reflexivity | apply IH].
Qed.

Lemma MaxAndSkipEnv_step_inv (F : Env) action (self : MaxAndSkipEnv.t F) g out self' g' :
  MaxAndSkipEnv._step action self g = Ok (out, self', g') ->
  exists l' stacked d i,
    MaxAndSkipEnv.for_range (Z.to_nat (MaxAndSkipEnv._skip self)) action MaxAndSkipEnv.at_entry self g =
      Ok (l', self', g')
    /\ np_stack (items (MaxAndSkipEnv._obs_buffer self')) = Ok stacked
    /\ MaxAndSkipEnv.done l' = Some d
    /\ MaxAndSkipEnv.info l' = Some i
    /\ out = (np_max_axis0 stacked, MaxAndSkipEnv.total_reward l', d, i).
Proof.
  unfold MaxAndSkipEnv._step. run.
  destruct (MaxAndSkipEnv.for_range _ action MaxAndSkipEnv.at_entry self g)
    as [[[l' self1] g1] | err]; [| discriminate].
  destruct (np_stack (items (MaxAndSkipEnv._obs_buffer self1))) as [stacked | err]
    eqn:Hstack; [| discriminate].
  destruct (MaxAndSkipEnv.done l') as [d |] eqn:Hd; [| discriminate].
  destruct (MaxAndSkipEnv.info l') as [i |] eqn:Hi; [| discriminate].
  intros Heq. injection Heq as <- <- <-.
  exists l', stacked, d, i. repeat split; assumption.
Qed.

Lemma MaxAndSkipEnv_step_run (F : Env) action (self : MaxAndSkipEnv.t F) g
      l' self' g' stacked d i :
  MaxAndSkipEnv.for_range (Z.to_nat (MaxAndSkipEnv._skip self)) action MaxAndSkipEnv.at_entry self g =
    Ok (l', self', g') ->
  np_stack (items (MaxAndSkipEnv._obs_buffer self')) = Ok stacked ->
  MaxAndSkipEnv.done l' = Some d ->
  MaxAndSkipEnv.info l' = Some i ->
  MaxAndSkipEnv._step action self g =
    Ok ((np_max_axis0 stacked, MaxAndSkipEnv.total_reward l', d, i), self', g').
Proof.
  intros Hrun Hstack Hd Hi. unfold MaxAndSkipEnv._step. run.
  rewrite Hrun, Hstack, Hd, Hi. reflexivity.
Qed.
End MaxAndSkipFacts.

Section MaxAndSkipClaims.
Context `{X : Externals} (E : Env).

Lemma lastn_snoc {A} (n : nat) (l : list A) (x : A) :
  lastn (S n) (l ++ [x]) = lastn n l ++ [x].
Proof.
  unfold lastn. rewrite length_app, skipn_app. cbn [length].
  replace (length l + 1 - S n)%nat with (length l - n)%nat by lia.
  replace (length l - n - length l)%nat with 0%nat by lia.
  reflexivity.
Qed.

Lemma lastn_0 {A} (l : list A) : lastn 0 l = [].
Proof. unfold lastn. rewrite Nat.sub_0_r. apply skipn_all. Qed.

Lemma lastn_app_long {A} (n : nat) (l xs : list A) :
  (n <= length xs)%nat -> lastn n (l ++ xs) = lastn n xs.
Proof.
  intros Hle. unfold lastn. rewrite length_app, skipn_app.
  rewrite skipn_all2 by lia. cbn [app]. f_equal. lia.
Qed.

Lemma lastn_nonempty {A} (n : nat) (l : list A) :
  l <> [] -> lastn (S n) l <> [].
Proof.
  intros Hne Hnil. apply Hne. apply length_zero_iff_nil.
  apply (f_equal (@length A)) in Hnil. unfold lastn in Hnil.
  rewrite length_skipn in Hnil. cbn [length] in Hnil. lia.
Qed.

Lemma frames_of_steps action (rs : list StepResult) :
  frames_of (map (EvStep action) rs) = map obs_of rs.
Proof.
  induction rs as [| r rs IH]; [reflexivity |].
  cbn [map frames_of flat_map app]. f_equal. exact IH.
Qed.

Lemma deque_eta {A} (d : deque A) : d = {| maxlen := maxlen d; items := items d |}.
Proof. destruct d; reflexivity. Qed.

(** C5. A [step] of [MaxAndSkipEnv] with [skip >= 1], on an inner
    environment whose [step] returns frames of one shape: the inner [step]
    is called with the caller's action at most [skip] times, none of the
    calls before the last returned [done], and fewer than [skip] calls are
    made only when the last one returned [done]; the reward returned is
    the sum, from [0.0] and in order, of the rewards of these calls; the
    observation returned is the pixel-wise maximum of the frames in the
    buffer, which holds the last two frames; [done] and [info] are those
    of the last call. *)
Theorem MaxAndSkipEnv_step_spec :
  forall (action : Action) (self : MaxAndSkipEnv.t (Traced E)) (g : RandomState)
         (log : list Event) (e : state E) (shape : nat),
    1 <= MaxAndSkipEnv._skip self ->
    MaxAndSkipEnv.env self = traced log e ->
    maxlen (MaxAndSkipEnv._obs_buffer self) = 2%nat ->
    Forall (fun f => length f = shape) (items (MaxAndSkipEnv._obs_buffer self)) ->
    (forall s g0, exists r s' g1,
        step E action s g0 = Ok (r, s', g1) /\ length (obs_of r) = shape) ->
    exists (front : list StepResult) (final : StepResult)
           (e' : state E) (g' : RandomState) (max_frame : Obs),
      let rs := front ++ [final] in
      let buffer :=
        lastn 2 (items (MaxAndSkipEnv._obs_buffer self) ++ map obs_of rs) in
      MaxAndSkipEnv._step action self g =
        Ok ((max_frame,
             fold_left add (map reward_of rs) float_zero,
             done_of final,
             info_of final),
            {| MaxAndSkipEnv.env := traced (log ++ map (EvStep action) rs) e';
               MaxAndSkipEnv._obs_buffer := {| maxlen := 2; items := buffer |};
               MaxAndSkipEnv._skip := MaxAndSkipEnv._skip self |},
            g')
      /\ steps E action (length rs) e g = Ok (rs, e', g')
      /\ Z.of_nat (length rs) <= MaxAndSkipEnv._skip self
      /\ Forall (fun r => done_of r = false) front
      /\ (Z.of_nat (length rs) < MaxAndSkipEnv._skip self -> done_of final = true)
      /\ elementwise_max buffer max_frame.
Proof.
  intros action self g log e shape Hskip Henv Hmaxlen Hbuffer Hinner.
  assert (Htotal : forall s g0, succeeds (step E action s g0)).
  { intros s g0. destruct (Hinner s g0) as (r & s' & g1 & Hstep & _).
    eexists. exact Hstep. }
  assert (Hshape : forall s g0 r s' g1,
             step E action s g0 = Ok (r, s', g1) -> length (obs_of r) = shape).
  { intros s g0 r s' g1 Hstep.
    destruct (Hinner s g0) as (r0 & s0 & g2 & Hstep0 & Hlen).
    rewrite Hstep in Hstep0. injection Hstep0 as <- <- <-. exact Hlen. }
  destruct (MaxAndSkipEnv_for_range_returns E action Htotal
              (Z.to_nat (MaxAndSkipEnv._skip self)) MaxAndSkipEnv.at_entry self g)
    as [[[l' self'] g'] Hrun].
  destruct (MaxAndSkipEnv_for_range_inv E _ _ _ _ _ _ _ _ _ _ Henv Hrun)
    as (rs & e' & Hsteps & Henv' & Hbuf & Hskip' & Hrew & Hlen & Hexit).
  destruct Hexit as [(_ & Hn & _) | (front & final & -> & Hfront & Hd & Hi & Hlast)];
    [lia |].
  set (rs := front ++ [final]) in *.
  assert (Hne : map obs_of rs <> []).
  { unfold rs. rewrite map_app. cbn [map]. intros H.
    apply app_eq_nil in H. destruct H as [_ H]. discriminate. }
  assert (Hitems : items (MaxAndSkipEnv._obs_buffer self') =
                   lastn 2 (items (MaxAndSkipEnv._obs_buffer self) ++ map obs_of rs)).
  { rewrite Hbuf, deque_append_items_nonempty by exact Hne.
    rewrite Hmaxlen. reflexivity. }
  assert (Hstack : np_stack (items (MaxAndSkipEnv._obs_buffer self')) =
                   Ok (items (MaxAndSkipEnv._obs_buffer self'))).
  { apply np_stack_ok with (shape := shape).
    - rewrite Hitems. apply lastn_nonempty. intros H.
      apply app_eq_nil in H. destruct H as [_ H]. contradiction.
    - rewrite Hitems. apply Forall_forall. intros f Hin. apply In_lastn in Hin.
      apply in_app_or in Hin. destruct Hin as [Hin | Hin].
      + rewrite Forall_forall in Hbuffer. apply Hbuffer. exact Hin.
      + apply in_map_iff in Hin. destruct Hin as (r & <- & Hin).
        pose proof (steps_Forall E (fun r => length (obs_of r) = shape) action
                      Hshape _ _ _ _ _ _ Hsteps) as Hall.
        rewrite Forall_forall in Hall. apply Hall. exact Hin. }
  exists front, final, e', g', (np_max_axis0 (items (MaxAndSkipEnv._obs_buffer self'))).
  cbv zeta. fold rs.
  split; [| split; [exact Hsteps | split; [lia | split; [exact Hfront | split]]]].
  - rewrite (MaxAndSkipEnv_step_run (Traced E) action self g l' self' g' _ _ _
               Hrun Hstack Hd Hi).
    rewrite Hrew. cbn [MaxAndSkipEnv.total_reward MaxAndSkipEnv.at_entry].
    f_equal. f_equal. f_equal.
    destruct self' as [env' buffer' skip'].
    cbn [MaxAndSkipEnv.env MaxAndSkipEnv._obs_buffer MaxAndSkipEnv._skip] in *.
    subst env' skip'. f_equal.
    rewrite (deque_eta buffer'). f_equal.
    + rewrite Hbuf, deque_append_maxlen. exact Hmaxlen.
    + exact Hitems.
  - intros Hfew. destruct Hlast as [Ht | Hn]; [exact Ht | lia].
  - rewrite <- Hitems. apply np_max_stack_spec. exact Hstack.
Qed.

(** C1, amended. The loop of [step] starts afresh on every call, but the
    frame buffer of [MaxAndSkipEnv] is kept from one [step] call to the
    next, and only [reset] clears it.  Of two consecutive [step] calls,
    the second computes its maximum from the last two frames of the
    buffer left by the first followed by its own frames: from its own
    frames only when it makes two inner calls or more, and from the last
    frame of the first call and its own single frame when it makes one. *)
Theorem MaxAndSkipEnv_buffer_across_steps :
  forall (a1 a2 : Action) (self self1 self2 : MaxAndSkipEnv.t (Traced E))
         (g g1 g2 : RandomState) (out1 out2 : StepResult)
         (log : list Event) (e : state E),
    MaxAndSkipEnv.env self = traced log e ->
    maxlen (MaxAndSkipEnv._obs_buffer self) = 2%nat ->
    MaxAndSkipEnv._step a1 self g = Ok (out1, self1, g1) ->
    MaxAndSkipEnv._step a2 self1 g1 = Ok (out2, self2, g2) ->
    (exists (front1 : list StepResult) (final1 : StepResult) (rs2 : list StepResult)
            (e1 e2 : state E),
       let log1 := map (EvStep a1) (front1 ++ [final1]) in
       let log2 := map (EvStep a2) rs2 in
       MaxAndSkipEnv.env self1 = traced (log ++ log1) e1
       /\ MaxAndSkipEnv.env self2 = traced (log ++ log1 ++ log2) e2
       /\ (1 <= length rs2)%nat
       /\ Z.of_nat (length rs2) <= MaxAndSkipEnv._skip self
       /\ items (MaxAndSkipEnv._obs_buffer self2) =
            lastn 2 (items (MaxAndSkipEnv._obs_buffer self1) ++ frames_of log2)
       /\ elementwise_max (items (MaxAndSkipEnv._obs_buffer self2)) (obs_of out2)
       /\ ((2 <= length rs2)%nat ->
           items (MaxAndSkipEnv._obs_buffer self2) = lastn 2 (frames_of log2))
       /\ (length rs2 = 1%nat ->
           items (MaxAndSkipEnv._obs_buffer self2) = obs_of final1 :: frames_of log2))
    /\ (forall obs e' g',
          reset E e g = Ok (obs, e', g') ->
          exists self',
            MaxAndSkipEnv._reset self g = Ok (obs, self', g')
            /\ items (MaxAndSkipEnv._obs_buffer self') = [obs]).
Proof.
  intros a1 a2 self self1 self2 g g1 g2 out1 out2 log e Henv Hmaxlen Hstep1 Hstep2.
  split.
  - destruct (MaxAndSkipEnv_step_inv (Traced E) a1 self g out1 self1 g1 Hstep1)
      as (l1 & stacked1 & d1 & i1 & Hrun1 & _ & _ & Hi1 & _).
    destruct (MaxAndSkipEnv_for_range_inv E _ _ _ _ _ _ _ _ _ _ Henv Hrun1)
      as (rs1 & e1 & _ & Henv1 & Hbuf1 & Hskip1 & _ & _ & Hexit1).
    destruct Hexit1 as [(_ & _ & ->) | (front1 & final1 & -> & _)];
      [discriminate Hi1 |].
    destruct (MaxAndSkipEnv_step_inv (Traced E) a2 self1 g1 out2 self2 g2 Hstep2)
      as (l2 & stacked2 & d2 & i2 & Hrun2 & Hstack2 & _ & Hi2 & Hout2).
    destruct (MaxAndSkipEnv_for_range_inv E _ _ _ _ _ _ _ _ _ _ Henv1 Hrun2)
      as (rs2 & e2 & _ & Henv2 & Hbuf2 & _ & _ & Hlen2 & Hexit2).
    assert (Hne2 : rs2 <> []).
    { destruct Hexit2 as [(_ & _ & ->) | (front2 & final2 & -> & _)];
        [discriminate Hi2 |].
      intros H. apply app_eq_nil in H. destruct H as [_ H]. discriminate. }
    assert (Hmaxlen1 : maxlen (MaxAndSkipEnv._obs_buffer self1) = 2%nat).
    { rewrite Hbuf1, deque_append_maxlen. exact Hmaxlen. }
    assert (Hitems1 : items (MaxAndSkipEnv._obs_buffer self1) =
                      lastn 1 (items (MaxAndSkipEnv._obs_buffer self) ++ map obs_of front1)
                        ++ [obs_of final1]).
    { rewrite Hbuf1, deque_append_items_nonempty.
      - rewrite Hmaxlen, map_app, app_assoc. cbn [map]. apply lastn_snoc.
      - rewrite map_app. cbn [map]. intros H.
        apply app_eq_nil in H. destruct H as [_ H]. discriminate. }
    assert (Hitems2 : items (MaxAndSkipEnv._obs_buffer self2) =
                      lastn 2 (items (MaxAndSkipEnv._obs_buffer self1) ++ map obs_of rs2)).
    { rewrite Hbuf2, deque_append_items_nonempty.
      - rewrite Hmaxlen1. reflexivity.
      - destruct rs2; [contradiction Hne2; reflexivity | discriminate]. }
    assert (Hpos2 : (1 <= length rs2)%nat).
    { destruct rs2; [contradiction Hne2; reflexivity | cbn [length]; lia]. }
    exists front1, final1, rs2, e1, e2. cbv zeta.
    rewrite frames_of_steps.
    split; [exact Henv1 |].
    split; [rewrite Henv2, <- app_assoc; reflexivity |].
    split; [exact Hpos2 |].
    split; [rewrite <- Hskip1; lia |].
    split; [exact Hitems2 |].
    split; [| split].
    + rewrite Hout2. cbn [obs_of]. apply np_max_stack_spec. exact Hstack2.
    + intros Hlong. rewrite Hitems2. apply lastn_app_long.
      rewrite length_map. exact Hlong.
    + intros Hone. rewrite Hitems2, Hitems1.
      destruct rs2 as [| r2 [| r3 rs2]]; try discriminate Hone.
      cbn [map]. rewrite lastn_snoc, lastn_snoc, lastn_0. reflexivity.
  - intros obs e' g' Hreset.
    pose proof (traced_reset E log _ _ _ _ _ Hreset) as Ht.
    eexists. split.
    + unfold MaxAndSkipEnv._reset. run. setters. rewrite Henv, Ht. setters.
      reflexivity.
    + cbn [MaxAndSkipEnv._obs_buffer deque_append deque_clear items maxlen].
      rewrite Hmaxlen. reflexivity.
Qed.
End MaxAndSkipClaims.

(** * Further properties of the wrappers *)

Section EpisodicLifeMore.
Context `{X : Externals} (E : Env).

(** X1. After every [step] and every [reset] of [EpisodicLifeEnv] that
    returns, the recorded [lives] is the life count of the base
    environment in the state the call left it in. *)
Theorem EpisodicLifeEnv_lives_in_sync :
  forall (self : EpisodicLifeEnv.t E) (g : RandomState),
    (forall action out self' g',
        EpisodicLifeEnv._step action self g = Ok (out, self', g') ->
        EpisodicLifeEnv.lives self' = ale_lives E (EpisodicLifeEnv.env self'))
    /\ (forall obs self' g',
          EpisodicLifeEnv._reset self g = Ok (obs, self', g') ->
          EpisodicLifeEnv.lives self' = ale_lives E (EpisodicLifeEnv.env self')).
Proof.
  intros self g. split.
  - intros action out self' g'. unfold EpisodicLifeEnv._step. run.
    destruct (step E action (EpisodicLifeEnv.env self) g)
      as [[[[[[obs reward] done] info] e1] g1] | err]; [| discriminate].
    setters. intros H. injection H as <- <- <-. reflexivity.
  - intros obs self' g'. unfold EpisodicLifeEnv._reset. run.
    destruct (EpisodicLifeEnv.was_real_done self).
    + destruct (reset E (EpisodicLifeEnv.env self) g) as [[[obs1 e1] g1] | err];
        [| discriminate].
      setters. intros H. injection H as <- <- <-. reflexivity.
    + destruct (step E 0 (EpisodicLifeEnv.env self) g)
        as [[[[[[obs1 reward] done] info] e1] g1] | err]; [| discriminate].
      setters. intros H. injection H as <- <- <-. reflexivity.
Qed.

(** X2. What the [reset] that follows a [step] does depends on the [done]
    of the inner environment at that step and not on the [done] that
    [EpisodicLifeEnv] returned: after an inner [done] it calls the inner
    [reset]; otherwise, also when a lost life made the wrapper return
    [done = True], it makes one [step] call with action 0. *)
Theorem EpisodicLifeEnv_reset_after_step :
  forall (action : Action) (self : EpisodicLifeEnv.t (Traced E)) (g : RandomState)
         (log : list Event) (e : state E)
         (obs : Obs) (reward : Reward) (done : bool) (info : Info)
         (e1 : state E) (g1 : RandomState),
    EpisodicLifeEnv.env self = traced log e ->
    step E action e g = Ok ((obs, reward, done, info), e1, g1) ->
    exists (out : StepResult) (self1 : EpisodicLifeEnv.t (Traced E)),
      EpisodicLifeEnv._step action self g = Ok (out, self1, g1)
      /\ (done = true ->
          forall obs' e2 g2,
            reset E e1 g1 = Ok (obs', e2, g2) ->
            exists self2,
              EpisodicLifeEnv._reset self1 g1 = Ok (obs', self2, g2)
              /\ EpisodicLifeEnv.env self2 =
                   traced (log ++ [EvStep action (obs, reward, done, info); EvReset obs']) e2)
      /\ (done = false ->
          forall obs' reward' done' info' e2 g2,
            step E 0 e1 g1 = Ok ((obs', reward', done', info'), e2, g2) ->
            exists self2,
              EpisodicLifeEnv._reset self1 g1 = Ok (obs', self2, g2)
              /\ EpisodicLifeEnv.env self2 =
                   traced (log ++ [EvStep action (obs, reward, done, info);
                                   EvStep 0 (obs', reward', done', info')]) e2).
Proof.
  intros action self g log e obs reward done info e1 g1 Henv Hstep.
  pose proof (traced_step E action log _ _ _ _ _ Hstep) as Ht.
  rewrite <- Henv in Ht.
  pose proof (EpisodicLifeEnv_step_run (Traced E) action self _ _ _ _ _ _ _ Ht) as Hrun.
  eexists. eexists. split; [exact Hrun |]. split.
  - intros -> obs' e2 g2 Hreset.
    pose proof (traced_reset E (log ++ [EvStep action (obs, reward, true, info)])
                  _ _ _ _ _ Hreset) as Hr.
    eexists. split.
    + apply (EpisodicLifeEnv_reset_real (Traced E)); [reflexivity | exact Hr].
    + cbn [EpisodicLifeEnv.env]. rewrite <- app_assoc. reflexivity.
  - intros -> obs' reward' done' info' e2 g2 Hnoop.
    pose proof (traced_step E 0 (log ++ [EvStep action (obs, reward, false, info)])
                  _ _ _ _ _ Hnoop) as Hr.
    eexists. split.
    + apply (EpisodicLifeEnv_reset_life_lost (Traced E)) with (1 := eq_refl) (2 := Hr).
    + cbn [EpisodicLifeEnv.env]. rewrite <- app_assoc. reflexivity.
Qed.
End EpisodicLifeMore.

Section MaxAndSkipMore.
Context `{X : Externals} (F : Env).

(** The loop of [_step] on any inner environment. *)
Lemma MaxAndSkipEnv_for_range_plain :
  forall n action l (self : MaxAndSkipEnv.t F) g l' self' g',
    MaxAndSkipEnv.for_range n action l self g = Ok (l', self', g') ->
    exists rs,
      steps F action (length rs) (MaxAndSkipEnv.env self) g =
        Ok (rs, MaxAndSkipEnv.env self', g')
      /\ MaxAndSkipEnv._obs_buffer self' =
           fold_left deque_append (map obs_of rs) (MaxAndSkipEnv._obs_buffer self)
      /\ MaxAndSkipEnv._skip self' = MaxAndSkipEnv._skip self
      /\ MaxAndSkipEnv.total_reward l' =
           fold_left add (map reward_of rs) (MaxAndSkipEnv.total_reward l)
      /\ (length rs <= n)%nat
      /\ ((rs = [] /\ n = 0%nat /\ l' = l)
          \/ exists front final,
               rs = front ++ [final]
               /\ Forall (fun r => done_of r = false) front
               /\ MaxAndSkipEnv.done l' = Some (done_of final)
               /\ MaxAndSkipEnv.info l' = Some (info_of final)
               /\ (done_of final = true \/ length rs = n)).
Proof.
  induction n as [| n IH]; intros action l self g l' self' g' Hrun.
  - cbn in Hrun. unfold ret in Hrun. injection Hrun as <- <- <-.
    exists []. cbn [map fold_left length].
    repeat split; try reflexivity; try lia.
    left. repeat split.
  - cbn [MaxAndSkipEnv.for_range] in Hrun. revert Hrun. run.
    destruct (step F action (MaxAndSkipEnv.env self) g) as [[[r e1] g1] | err] eqn:Hstep;
      [| discriminate].
    destruct r as [[[obs reward] d] info]. setters.
    destruct d.
    + intros Hrun. injection Hrun as <- <- <-.
      exists [(obs, reward, true, info)].
      cbn [map fold_left length obs_of reward_of MaxAndSkipEnv.total_reward
           MaxAndSkipEnv.env MaxAndSkipEnv._obs_buffer MaxAndSkipEnv._skip].
      split; [exact (steps_succ F action 0 _ g _ e1 g1 [] e1 g1 Hstep eq_refl) |].
      repeat split; try reflexivity; try lia.
      right. exists [], (obs, reward, true, info).
      repeat split; try reflexivity; [constructor | left; reflexivity].
    + intros Hrun. apply IH in Hrun.
      destruct Hrun as (rs & Hsteps & Hbuf & Hskip & Hrew & Hlen & Hexit).
      exists ((obs, reward, false, info) :: rs).
      cbn [MaxAndSkipEnv.total_reward MaxAndSkipEnv.env MaxAndSkipEnv._obs_buffer
           MaxAndSkipEnv._skip] in Hsteps, Hbuf, Hskip, Hrew.
      cbn [map fold_left length obs_of reward_of].
      split; [exact (steps_succ F action _ _ g _ e1 g1 rs _ g' Hstep Hsteps) |].
      split; [exact Hbuf |]. split; [exact Hskip |]. split; [exact Hrew |].
      split; [lia |].
      right. destruct Hexit as [(-> & -> & ->) | (front & final & -> & Hfront & Hd & Hi & Hlast)].
      * exists [], (obs, reward, false, info).
        repeat split; try reflexivity; [constructor | right; reflexivity].
      * exists ((obs, reward, false, info) :: front), final.
        repeat split; try assumption; try reflexivity.
        -- constructor; [reflexivity | exact Hfront].
        -- destruct Hlast as [Ht | Hn]; [left; exact Ht | right; cbn [length]; lia].
Qed.

(** What a [_step] that returned did. *)
Lemma MaxAndSkipEnv_step_plain action (self : MaxAndSkipEnv.t F) g out self' g' :
  MaxAndSkipEnv._step action self g = Ok (out, self', g') ->
  exists front final,
    let rs := front ++ [final] in
    steps F action (length rs) (MaxAndSkipEnv.env self) g =
      Ok (rs, MaxAndSkipEnv.env self', g')
    /\ MaxAndSkipEnv._obs_buffer self' =
         fold_left deque_append (map obs_of rs) (MaxAndSkipEnv._obs_buffer self)
    /\ MaxAndSkipEnv._skip self' = MaxAndSkipEnv._skip self
    /\ Z.of_nat (length rs) <= MaxAndSkipEnv._skip self
    /\ np_stack (items (MaxAndSkipEnv._obs_buffer self')) =
         Ok (items (MaxAndSkipEnv._obs_buffer self'))
    /\ out = (np_max_axis0 (items (MaxAndSkipEnv._obs_buffer self')),
              fold_left add (map reward_of rs) float_zero,
              done_of final, info_of final).
Proof.
  intros Hstep.
  destruct (MaxAndSkipEnv_step_inv F action self g out self' g' Hstep)
    as (l' & stacked & d & i & Hrun & Hstack & Hd & Hi & ->).
  destruct (MaxAndSkipEnv_for_range_plain _ _ _ _ _ _ _ _ Hrun)
    as (rs & Hsteps & Hbuf & Hskip & Hrew & Hlen & Hexit).
  destruct Hexit as [(_ & _ & ->) | (front & final & -> & _ & Hd' & Hi' & _)];
    [discriminate Hi |].
  exists front, final. cbv zeta.
  destruct (np_stack_inv _ _ Hstack) as [-> _].
  rewrite Hd in Hd'. rewrite Hi in Hi'. injection Hd' as ->. injection Hi' as ->.
  repeat split; try assumption.
  - assert ((length (front ++ [final]) >= 1)%nat)
      by (rewrite length_app; cbn [length]; lia).
    lia.
  - rewrite Hrew. reflexivity.
Qed.

(** X3. The frame buffer of [MaxAndSkipEnv] always is a two-slot buffer:
    construction makes it one that holds no frame, and [step] and [reset]
    keep it one; after a [step] that returned it holds at least one frame,
    and after a [reset] that returned exactly the observation of the
    [reset]. *)
Theorem MaxAndSkipEnv_buffer_invariant :
  (forall (e : state F) (skip : Z) self,
      MaxAndSkipEnv.__init__ F e skip = Ok self ->
      buffer_ok (MaxAndSkipEnv._obs_buffer self)
      /\ items (MaxAndSkipEnv._obs_buffer self) = [])
  /\ (forall action (self : MaxAndSkipEnv.t F) g out self' g',
        buffer_ok (MaxAndSkipEnv._obs_buffer self) ->
        MaxAndSkipEnv._step action self g = Ok (out, self', g') ->
        buffer_ok (MaxAndSkipEnv._obs_buffer self')
        /\ items (MaxAndSkipEnv._obs_buffer self') <> [])
  /\ (forall (self : MaxAndSkipEnv.t F) g obs self' g',
        buffer_ok (MaxAndSkipEnv._obs_buffer self) ->
        MaxAndSkipEnv._reset self g = Ok (obs, self', g') ->
        buffer_ok (MaxAndSkipEnv._obs_buffer self')
        /\ items (MaxAndSkipEnv._obs_buffer self') = [obs]).
Proof.
  split; [| split].
  - intros e skip self H. injection H as <-.
    split; [split; [reflexivity | cbn; lia] | reflexivity].
  - intros action self g out self' g' [Hmax Hlen] Hstep.
    destruct (MaxAndSkipEnv_step_plain action self g out self' g' Hstep)
      as (front & final & _ & Hbuf & _ & _ & Hstack & _).
    split.
    + split.
      * rewrite Hbuf, deque_append_maxlen. exact Hmax.
      * rewrite Hbuf, deque_append_items_bounded by lia.
        rewrite Hmax. apply length_lastn.
    + intros Hnil. rewrite Hnil in Hstack. discriminate Hstack.
  - intros self g obs self' g' [Hmax Hlen]. unfold MaxAndSkipEnv._reset. run. setters.
    destruct (reset F (MaxAndSkipEnv.env self) g) as [[[obs1 e1] g1] | err];
      [| discriminate].
    setters. intros H. injection H as <- <- <-.
    unfold buffer_ok.
    cbn [MaxAndSkipEnv._obs_buffer deque_append deque_clear items maxlen].
    rewrite Hmax. cbn. repeat split; lia.
Qed.

(** X4. With [skip <= 0] the loop of [_step] makes no call: it leaves the
    local variables and the wrapper, the inner environment in it, as they
    are.  [_step] then raises: [ValueError] from [np.stack] on an empty
    buffer, and otherwise, when the buffered frames stack,
    [UnboundLocalError] for [info]. *)
Theorem MaxAndSkipEnv_step_without_iterations :
  forall (action : Action) (self : MaxAndSkipEnv.t F) (g : RandomState),
    MaxAndSkipEnv._skip self <= 0 ->
    (forall l,
        MaxAndSkipEnv.for_range (Z.to_nat (MaxAndSkipEnv._skip self)) action l self g =
          Ok (l, self, g))
    /\ fails (MaxAndSkipEnv._step action self g)
    /\ (items (MaxAndSkipEnv._obs_buffer self) = [] ->
        MaxAndSkipEnv._step action self g = Raise ValueError)
    /\ (forall stacked,
          np_stack (items (MaxAndSkipEnv._obs_buffer self)) = Ok stacked ->
          MaxAndSkipEnv._step action self g = Raise UnboundLocalError).
Proof.
  intros action self g Hskip.
  assert (Hloop : forall l,
             MaxAndSkipEnv.for_range (Z.to_nat (MaxAndSkipEnv._skip self)) action l self g =
               Ok (l, self, g)).
  { intros l. replace (Z.to_nat (MaxAndSkipEnv._skip self)) with 0%nat by lia.
    reflexivity. }
  assert (Hrun : MaxAndSkipEnv._step action self g =
                 match np_stack (items (MaxAndSkipEnv._obs_buffer self)) with
                 | Ok _ => Raise UnboundLocalError
                 | Raise err => Raise err
                 end).
  { unfold MaxAndSkipEnv._step. run. rewrite Hloop.
    destruct (np_stack (items (MaxAndSkipEnv._obs_buffer self))); reflexivity. }
  split; [exact Hloop |]. split; [| split].
  - rewrite Hrun. destruct (np_stack _); eexists; reflexivity.
  - intros Hnil. rewrite Hrun, Hnil. reflexivity.
  - intros stacked Hstack. rewrite Hrun, Hstack. reflexivity.
Qed.

Lemma MaxAndSkipEnv_for_range_raises action (e' : state F) g' err :
  step F action e' g' = Raise err ->
  forall j n l (self : MaxAndSkipEnv.t F) g rs,
    steps F action j (MaxAndSkipEnv.env self) g = Ok (rs, e', g') ->
    Forall (fun r => done_of r = false) rs ->
    (j < n)%nat ->
    MaxAndSkipEnv.for_range n action l self g = Raise err.
Proof.
  intros Hraise.
  induction j as [| j IH]; intros n l self g rs Hsteps Hnotdone Hlt.
  - cbn in Hsteps. unfold ret in Hsteps. injection Hsteps as <- <- <-.
    destruct n as [| n]; [lia |].
    cbn [MaxAndSkipEnv.for_range]. run. rewrite Hraise. reflexivity.
  - destruct n as [| n]; [lia |].
    cbn [steps] in Hsteps. revert Hsteps. run.
    destruct (step F action (MaxAndSkipEnv.env self) g) as [[[r e1] g1] | err1] eqn:Hstep;
      [| discriminate].
    destruct (steps F action j e1 g1) as [[[rs1 e2] g2] | err1] eqn:Hrest;
      [| discriminate].
    intros Heq. injection Heq as <- <- <-.
    inversion Hnotdone as [| ? ? Hr Hrs]; subst.
    cbn [MaxAndSkipEnv.for_range]. run. rewrite Hstep.
    destruct r as [[[obs reward] d] info]. cbn [done_of] in Hr. subst d. setters.
    apply (IH n _ _ g1 rs1); [exact Hrest | exact Hrs | lia].
Qed.

(** X5. An exception of an inner [step] call ends the [_step] of
    [MaxAndSkipEnv] with that exception, at whichever iteration it comes:
    what the earlier iterations returned is lost. *)
Theorem MaxAndSkipEnv_step_raises :
  forall (action : Action) (self : MaxAndSkipEnv.t F) (g : RandomState)
         (j : nat) (rs : list StepResult) (e' : state F) (g' : RandomState) (err : exn),
    steps F action j (MaxAndSkipEnv.env self) g = Ok (rs, e', g') ->
    Forall (fun r => done_of r = false) rs ->
    Z.of_nat j < MaxAndSkipEnv._skip self ->
    step F action e' g' = Raise err ->
    MaxAndSkipEnv._step action self g = Raise err.
Proof.
  intros action self g j rs e' g' err Hsteps Hnotdone Hj Hraise.
  assert (Hloop : forall j n l (self : MaxAndSkipEnv.t F) g rs,
             steps F action j (MaxAndSkipEnv.env self) g = Ok (rs, e', g') ->
             Forall (fun r => done_of r = false) rs ->
             (j < n)%nat ->
             MaxAndSkipEnv.for_range n action l self g = Raise err).
  { clear self g j rs Hsteps Hnotdone Hj.
    induction j as [| j IH]; intros n l self g rs Hsteps Hnotdone Hlt.
    - cbn in Hsteps. unfold ret in Hsteps. injection Hsteps as <- <- <-.
      destruct n as [| n]; [lia |].
      cbn [MaxAndSkipEnv.for_range]. run. rewrite Hraise. reflexivity.
    - destruct n as [| n]; [lia |].
      cbn [steps] in Hsteps. revert Hsteps. run.
      destruct (step F action (MaxAndSkipEnv.env self) g) as [[[r e1] g1] | err1] eqn:Hstep;
        [| discriminate].
      destruct (steps F action j e1 g1) as [[[rs1 e2] g2] | err1] eqn:Hrest;
        [| discriminate].
      intros Heq. injection Heq as <- <- <-.
      inversion Hnotdone as [| ? ? Hr Hrs]; subst.
      cbn [MaxAndSkipEnv.for_range]. run. rewrite Hstep.
      destruct r as [[[obs reward] d] info]. cbn [done_of] in Hr. subst d. setters.
      apply (IH n _ _ g1 rs1); [exact Hrest | exact Hrs | lia]. }
  unfold MaxAndSkipEnv._step. run.
  rewrite (Hloop j (Z.to_nat (MaxAndSkipEnv._skip self)) _ self g rs Hsteps Hnotdone)
    by lia.
  reflexivity.
Qed.

(** X6. The first [step] after a [reset] of [MaxAndSkipEnv] computes its
    maximum from the last two of: the observation of the [reset], then the
    frames of the [step].  The [reset] observation counts exactly when the
    [step] makes a single inner call. *)
Theorem MaxAndSkipEnv_step_after_reset :
  forall (action : Action) (self self0 self1 : MaxAndSkipEnv.t F)
         (g g0 g1 : RandomState) (obs0 : Obs) (out : StepResult),
    maxlen (MaxAndSkipEnv._obs_buffer self) = 2%nat ->
    MaxAndSkipEnv._reset self g = Ok (obs0, self0, g0) ->
    MaxAndSkipEnv._step action self0 g0 = Ok (out, self1, g1) ->
    exists (front : list StepResult) (final : StepResult),
      let frames := map obs_of (front ++ [final]) in
      steps F action (length (front ++ [final])) (MaxAndSkipEnv.env self0) g0 =
        Ok (front ++ [final], MaxAndSkipEnv.env self1, g1)
      /\ items (MaxAndSkipEnv._obs_buffer self1) = lastn 2 (obs0 :: frames)
      /\ elementwise_max (items (MaxAndSkipEnv._obs_buffer self1)) (obs_of out)
      /\ (front = [] ->
          items (MaxAndSkipEnv._obs_buffer self1) = [obs0; obs_of final])
      /\ (front <> [] ->
          items (MaxAndSkipEnv._obs_buffer self1) = lastn 2 frames).
Proof.
  intros action self self0 self1 g g0 g1 obs0 out Hmax Hreset Hstep.
  assert (Hbuf0 : MaxAndSkipEnv._obs_buffer self0 = {| maxlen := 2; items := [obs0] |}).
  { revert Hreset. unfold MaxAndSkipEnv._reset. run. setters.
    destruct (reset F (MaxAndSkipEnv.env self) g) as [[[obs1 e1] g2] | err];
      [| discriminate].
    setters. intros H. injection H as <- <- <-.
    cbn [MaxAndSkipEnv._obs_buffer]. unfold deque_append, deque_clear.
    cbn [items maxlen]. rewrite Hmax. reflexivity. }
  destruct (MaxAndSkipEnv_step_plain action self0 g0 out self1 g1 Hstep)
    as (front & final & Hsteps & Hbuf & _ & _ & Hstack & Hout).
  cbv zeta in Hsteps, Hbuf, Hout.
  assert (Hitems : items (MaxAndSkipEnv._obs_buffer self1) =
                   lastn 2 (obs0 :: map obs_of (front ++ [final]))).
  { rewrite Hbuf, Hbuf0, deque_append_items_bounded by (cbn; lia). reflexivity. }
  exists front, final. cbv zeta.
  split; [exact Hsteps |]. split; [exact Hitems |]. split; [| split].
  - rewrite Hout. cbn [obs_of]. apply np_max_stack_spec. exact Hstack.
  - intros ->. rewrite Hitems. reflexivity.
  - intros Hne. rewrite Hitems.
    change (obs0 :: map obs_of (front ++ [final]))
      with ([obs0] ++ map obs_of (front ++ [final])).
    apply lastn_app_long. rewrite length_map, length_app. cbn [length].
    destruct front; [contradiction Hne; reflexivity | cbn [length]; lia].
Qed.
End MaxAndSkipMore.

Section NoopResetMore.
Context `{X : Externals} (E : Env).

(** X7. With [noop_max <= 0] a [reset] of [NoopResetEnv] calls the inner
    [reset] and then raises the [ValueError] of
    [np.random.randint(1, noop_max + 1)], whose interval is empty. *)
Theorem NoopResetEnv_reset_without_range :
  forall (self : NoopResetEnv.t E) (g : RandomState)
         (obs0 : Obs) (e0 : state E) (g0 : RandomState),
    NoopResetEnv.noop_max self <= 0 ->
    reset E (NoopResetEnv.env self) g = Ok (obs0, e0, g0) ->
    NoopResetEnv._reset self g = Raise ValueError.
Proof.
  intros self g obs0 e0 g0 Hmax Hreset.
  unfold NoopResetEnv._reset. run. rewrite Hreset. setters.
  assert (Hempty : NoopResetEnv.noop_max self + 1 <= 1) by lia.
  rewrite (randint_empty g0 Hempty). reflexivity.
Qed.
End NoopResetMore.

Section ClippedRewardsMore.
Context `{X : Externals} (F : Env).

(** X8. On top of [MaxAndSkipEnv], [ClippedRewardsWrapper] returns the
    sign of the summed reward of the skipped frames (not a sum of signs);
    observation, [done] and [info] are those of [MaxAndSkipEnv]. *)
Theorem ClippedRewards_over_MaxAndSkip :
  forall (action : Action) (self self' : ClippedRewardsWrapper.t (MaxAndSkipEnv.cls F))
         (g g' : RandomState) (out : StepResult),
    ClippedRewardsWrapper._step action self g = Ok (out, self', g') ->
    exists (front : list StepResult) (final : StepResult),
      let rs := front ++ [final] in
      steps F action (length rs)
        (MaxAndSkipEnv.env (ClippedRewardsWrapper.env self)) g =
        Ok (rs, MaxAndSkipEnv.env (ClippedRewardsWrapper.env self'), g')
      /\ reward_of out = np_sign (fold_left add (map reward_of rs) float_zero)
      /\ elementwise_max
           (items (MaxAndSkipEnv._obs_buffer (ClippedRewardsWrapper.env self')))
           (obs_of out)
      /\ done_of out = done_of final
      /\ info_of out = info_of final.
Proof.
  intros action self self' g g' out. unfold ClippedRewardsWrapper._step. run.
  cbn [step MaxAndSkipEnv.cls].
  destruct (MaxAndSkipEnv._step action (ClippedRewardsWrapper.env self) g)
    as [[[[[[obs reward] done] info] inner'] g1] | err] eqn:Hstep; [| discriminate].
  setters. intros H. injection H as <- <- <-.
  destruct (MaxAndSkipEnv_step_plain F action _ g _ inner' g1 Hstep)
    as (front & final & Hsteps & _ & _ & _ & Hstack & Hout).
  cbv zeta in Hsteps, Hout. injection Hout as -> -> -> ->.
  exists front, final. cbv zeta. cbn [ClippedRewardsWrapper.env reward_of obs_of done_of info_of].
  split; [exact Hsteps |]. split; [reflexivity |].
  split; [apply np_max_stack_spec; exact Hstack |].
  split; reflexivity.
Qed.
End ClippedRewardsMore.

(** ** The wrappers in the order of [wrap_deepmind_ram] *)

Section PipelineOrder.
Context `{X : Externals} (E : Env).

Let Episodic := EpisodicLifeEnv.cls (Traced E).
Let Noop := NoopResetEnv.cls Episodic.

Lemma play_cons action rest (e : state E) g trace e' g' :
  play E (action :: rest) e g = Ok (trace, e', g') ->
  exists r e1 g1 trace1,
    step E action e g = Ok (r, e1, g1)
    /\ play E rest e1 g1 = Ok (trace1, e', g')
    /\ trace = (r, ale_lives E e1) :: trace1.
Proof.
  cbn [play]. run.
  destruct (step E action e g) as [[[r e1] g1] | err] eqn:Hstep; [| discriminate].
  destruct (play E rest e1 g1) as [[[trace1 e2] g2] | err] eqn:Hrest; [| discriminate].
  intros H. injection H as <- <- <-.
  exists r, e1, g1, trace1. split; [reflexivity |]. split; [exact Hrest | reflexivity].
Qed.

Lemma skip_loop_until_life_lost action :
  forall (front : list (StepResult * Z)) n l (self : MaxAndSkipEnv.t Noop) g log e
         final final_lives e' g',
    EpisodicLifeEnv.env (episodic_of self) = traced log e ->
    play E (repeat action (S (length front))) e g =
      Ok (front ++ [(final, final_lives)], e', g') ->
    Forall (fun x => done_of (fst x) = false) front ->
    no_life_loss (EpisodicLifeEnv.lives (episodic_of self)) (map snd front) ->
    final_lives < last (map snd front) (EpisodicLifeEnv.lives (episodic_of self)) ->
    0 < final_lives ->
    (length front < n)%nat ->
    exists l' self',
      MaxAndSkipEnv.for_range n action l self g = Ok (l', self', g')
      /\ MaxAndSkipEnv.total_reward l' =
           fold_left add (map (fun x => reward_of (fst x)) (front ++ [(final, final_lives)]))
             (MaxAndSkipEnv.total_reward l)
      /\ MaxAndSkipEnv.done l' = Some true
      /\ MaxAndSkipEnv.info l' = Some (info_of final)
      /\ EpisodicLifeEnv.env (episodic_of self') =
           traced (log ++ map (fun x => EvStep action (fst x))
                              (front ++ [(final, final_lives)])) e'
      /\ EpisodicLifeEnv.lives (episodic_of self') = final_lives
      /\ EpisodicLifeEnv.was_real_done (episodic_of self') = done_of final
      /\ MaxAndSkipEnv._obs_buffer self' =
           fold_left deque_append
             (map (fun x => obs_of (fst x)) (front ++ [(final, final_lives)]))
             (MaxAndSkipEnv._obs_buffer self).
Proof.
  induction front as [| [r lv] front IH];
    intros n l self g log e final final_lives e' g' Henv Hplay Hquiet Hlives Hlost Hpos Hn.
  - cbn [length repeat app] in Hplay.
    destruct (play_cons _ _ _ _ _ _ _ Hplay) as (r & e1 & g1 & trace1 & Hstep & Hrest & Htrace).
    cbn in Hrest. unfold ret in Hrest. injection Hrest as <- <- <-.
    injection Htrace as <- ->.
    destruct n as [| n]; [lia |].
    pose proof (traced_step E action log _ _ _ _ _ Hstep) as Ht.
    rewrite <- Henv in Ht.
    destruct final as [[[obs reward] d] info].
    pose proof (EpisodicLifeEnv_step_run (Traced E) action (episodic_of self)
                  _ _ _ _ _ _ _ Ht) as Hrun.
    rewrite traced_lives in Hrun.
    cbn [map last] in Hlost.
    replace ((ale_lives E e1 <? EpisodicLifeEnv.lives (episodic_of self))
             && (0 <? ale_lives E e1)) with true in Hrun
      by (symmetry; apply andb_true_iff; split; apply Z.ltb_lt; lia).
    eexists. eexists. split.
    + cbn [MaxAndSkipEnv.for_range]. run.
      unfold Noop, Episodic in *.
      cbn [step NoopResetEnv.cls EpisodicLifeEnv.cls]. run.
      unfold episodic_of in Hrun. rewrite Hrun. setters. reflexivity.
    + unfold episodic_of.
      cbn [MaxAndSkipEnv.total_reward MaxAndSkipEnv.done MaxAndSkipEnv.info
           MaxAndSkipEnv.env MaxAndSkipEnv._obs_buffer NoopResetEnv.env
           EpisodicLifeEnv.env EpisodicLifeEnv.lives EpisodicLifeEnv.was_real_done
           map app fold_left fst reward_of obs_of info_of done_of].
      repeat split.
  - cbn [length repeat] in Hplay. rewrite <- app_comm_cons in Hplay.
    destruct (play_cons _ _ _ _ _ _ _ Hplay) as (r1 & e1 & g1 & trace1 & Hstep & Hrest & Htrace).
    injection Htrace as Hr1 Hlv Htr. subst r1 lv trace1.
    inversion Hquiet as [| ? ? Hr Hquiet']; subst. cbn [fst] in Hr.
    cbn [map snd no_life_loss] in Hlives. destruct Hlives as [Hle Hlives].
    cbn [map snd] in Hlost. rewrite last_cons_default in Hlost.
    cbn [length] in Hn. destruct n as [| n]; [lia |].
    pose proof (traced_step E action log _ _ _ _ _ Hstep) as Ht.
    rewrite <- Henv in Ht.
    destruct r as [[[obs reward] d] info]. cbn [done_of] in Hr. subst d.
    pose proof (EpisodicLifeEnv_step_run (Traced E) action (episodic_of self)
                  _ _ _ _ _ _ _ Ht) as Hrun.
    rewrite traced_lives in Hrun.
    replace ((ale_lives E e1 <? EpisodicLifeEnv.lives (episodic_of self))
             && (0 <? ale_lives E e1)) with false in Hrun
      by (symmetry; apply andb_false_iff; left; apply Z.ltb_ge; lia).
    pose (el1 := {| EpisodicLifeEnv.env :=
                      traced (log ++ [EvStep action (obs, reward, false, info)]) e1;
                    EpisodicLifeEnv.lives := ale_lives E e1;
                    EpisodicLifeEnv.was_real_done := false;
                    EpisodicLifeEnv.was_real_reset :=
                      EpisodicLifeEnv.was_real_reset (episodic_of self) |}).
    pose (self1 := MaxAndSkipEnv.set_obs_buffer
                     (deque_append (MaxAndSkipEnv._obs_buffer self) obs)
                     (MaxAndSkipEnv.set_env self
                        (NoopResetEnv.set_env (MaxAndSkipEnv.env self) el1))
                   : MaxAndSkipEnv.t Noop).
    destruct (IH n {| MaxAndSkipEnv.total_reward := add (MaxAndSkipEnv.total_reward l) reward;
                      MaxAndSkipEnv.done := Some false;
                      MaxAndSkipEnv.info := Some info |}
                self1 g1 (log ++ [EvStep action (obs, reward, false, info)]) e1
                final final_lives e' g' eq_refl Hrest Hquiet' Hlives Hlost Hpos)
      as (l' & self' & Hloop & Hrew & Hd & Hi & Henv' & Hlv & Hwrd & Hbuf); [lia |].
    exists l', self'. split.
    + cbn [MaxAndSkipEnv.for_range]. run.
      unfold Noop, Episodic in *.
      cbn [step NoopResetEnv.cls EpisodicLifeEnv.cls]. run.
      unfold episodic_of in Hrun. rewrite Hrun. setters. exact Hloop.
    + split; [exact Hrew |]. split; [exact Hd |]. split; [exact Hi |].
      split; [rewrite Henv'; cbn [map app fst]; rewrite <- app_assoc; reflexivity |].
      split; [exact Hlv |]. split; [exact Hwrd |]. exact Hbuf.
Qed.

(** X9. [EpisodicLifeEnv] sits under [MaxAndSkipEnv], so frame skipping
    stops at the frame on which a life is lost: when the frames before it
    lose no life and do not end the episode, and it comes within [skip]
    frames, the skipped [step] makes exactly the inner calls up to that
    frame and returns [done = True] with the summed reward, while
    [was_real_done] keeps the [done] of the base environment. *)
Theorem MaxAndSkipEnv_stops_at_lost_life :
  forall (action : Action) (self : MaxAndSkipEnv.t Noop) (g : RandomState)
         (log : list Event) (e : state E)
         (front : list (StepResult * Z)) (final : StepResult) (final_lives : Z)
         (e' : state E) (g' : RandomState) (shape : nat),
    let frames := front ++ [(final, final_lives)] in
    EpisodicLifeEnv.env (episodic_of self) = traced log e ->
    play E (repeat action (length frames)) e g = Ok (frames, e', g') ->
    Forall (fun x => done_of (fst x) = false) front ->
    no_life_loss (EpisodicLifeEnv.lives (episodic_of self)) (map snd front) ->
    final_lives < last (map snd front) (EpisodicLifeEnv.lives (episodic_of self)) ->
    0 < final_lives ->
    Z.of_nat (length frames) <= MaxAndSkipEnv._skip self ->
    maxlen (MaxAndSkipEnv._obs_buffer self) = 2%nat ->
    Forall (fun f => length f = shape) (items (MaxAndSkipEnv._obs_buffer self)) ->
    Forall (fun x => length (obs_of (fst x)) = shape) frames ->
    exists (max_frame : Obs) (self' : MaxAndSkipEnv.t Noop),
      MaxAndSkipEnv._step action self g =
        Ok ((max_frame,
             fold_left add (map (fun x => reward_of (fst x)) frames) float_zero,
             true,
             info_of final),
            self', g')
      /\ EpisodicLifeEnv.env (episodic_of self') =
           traced (log ++ map (fun x => EvStep action (fst x)) frames) e'
      /\ EpisodicLifeEnv.lives (episodic_of self') = final_lives
      /\ EpisodicLifeEnv.was_real_done (episodic_of self') = done_of final
      /\ elementwise_max (items (MaxAndSkipEnv._obs_buffer self')) max_frame.
Proof.
  intros action self g log e front final final_lives e' g' shape frames
         Henv Hplay Hquiet Hlives Hlost Hpos Hskip Hmax Hbuffer Hshapes.
  assert (Hlen : length frames = S (length front))
    by (unfold frames; rewrite length_app; cbn [length]; lia).
  rewrite Hlen in Hplay.
  destruct (skip_loop_until_life_lost action front
              (Z.to_nat (MaxAndSkipEnv._skip self)) MaxAndSkipEnv.at_entry self g log e
              final final_lives e' g' Henv Hplay Hquiet Hlives Hlost Hpos)
    as (l' & self' & Hloop & Hrew & Hd & Hi & Henv' & Hlv & Hwrd & Hbuf); [lia |].
  fold frames in Hrew, Henv', Hbuf.
  assert (Hne : map (fun x => obs_of (fst x)) frames <> []).
  { unfold frames. rewrite map_app. cbn [map]. intros H.
    apply app_eq_nil in H. destruct H as [_ H]. discriminate. }
  assert (Hitems : items (MaxAndSkipEnv._obs_buffer self') =
                   lastn 2 (items (MaxAndSkipEnv._obs_buffer self)
                            ++ map (fun x => obs_of (fst x)) frames)).
  { rewrite Hbuf, deque_append_items_nonempty by exact Hne.
    rewrite Hmax. reflexivity. }
  assert (Hstack : np_stack (items (MaxAndSkipEnv._obs_buffer self')) =
                   Ok (items (MaxAndSkipEnv._obs_buffer self'))).
  { apply np_stack_ok with (shape := shape).
    - rewrite Hitems. apply lastn_nonempty. intros H.
      apply app_eq_nil in H. destruct H as [_ H]. contradiction.
    - rewrite Hitems. apply Forall_forall. intros f Hin. apply In_lastn in Hin.
      apply in_app_or in Hin. destruct Hin as [Hin | Hin].
      + rewrite Forall_forall in Hbuffer. apply Hbuffer. exact Hin.
      + apply in_map_iff in Hin. destruct Hin as (x & <- & Hin).
        rewrite Forall_forall in Hshapes. apply Hshapes. exact Hin. }
  exists (np_max_axis0 (items (MaxAndSkipEnv._obs_buffer self'))), self'.
  split.
  - rewrite (MaxAndSkipEnv_step_run Noop action self g l' self' g' _ _ _
               Hloop Hstack Hd Hi).
    rewrite Hrew. reflexivity.
  - split; [exact Henv' |]. split; [exact Hlv |]. split; [exact Hwrd |].
    apply np_max_stack_spec. exact Hstack.
Qed.
End PipelineOrder.

Section PipelineReads.
Context `{X : Externals}.

(** X10. Whatever [wrap_deepmind_ram] returns reads the action meanings
    and the life count of the base environment it was given, and is the
    chain of four or five wrappers on top of it, [ClippedRewardsWrapper]
    outermost and [EpisodicLifeEnv] innermost. *)
Theorem wrap_deepmind_ram_transparent :
  forall (base env : Handle),
    wrap_deepmind_ram base = Ok env ->
    unwrapped_get_action_meanings env = unwrapped_get_action_meanings base
    /\ unwrapped_lives env = unwrapped_lives base
    /\ (class_chain env =
          ["ClippedRewardsWrapper"; "FireResetEnv"; "MaxAndSkipEnv";
           "NoopResetEnv"; "EpisodicLifeEnv"] ++ class_chain base
        \/ class_chain env =
             ["ClippedRewardsWrapper"; "MaxAndSkipEnv";
              "NoopResetEnv"; "EpisodicLifeEnv"] ++ class_chain base).
Proof.
  intros [E e] env. change (existT _ E e) with (handle E e).
  unfold wrap_deepmind_ram.
  rewrite construct_handle. cbn [and_then EpisodicLifeEnv.__init__].
  rewrite construct_handle.
  destruct (NoopResetEnv.__init__ _ _ 30) as [s2 | err] eqn:H2; [| discriminate].
  unfold NoopResetEnv.__init__ in H2.
  destruct (nth_error _ 0) as [m0 |]; [| discriminate].
  destruct (String.eqb m0 "NOOP"); [| discriminate].
  injection H2 as <-.
  cbn [and_then]. rewrite construct_handle. cbn [and_then MaxAndSkipEnv.__init__].
  rewrite meanings_of_handle.
  destruct (contains "FIRE" _).
  - rewrite construct_handle.
    destruct (FireResetEnv.__init__ _ _) as [s4 | err] eqn:H4; [| discriminate].
    unfold FireResetEnv.__init__ in H4.
    destruct (nth_error _ 1) as [m1 |]; [| discriminate].
    destruct (String.eqb m1 "FIRE"); [| discriminate].
    destruct (3 <=? _)%nat; [| discriminate].
    injection H4 as <-.
    cbn [and_then]. rewrite construct_handle.
    cbn [and_then ClippedRewardsWrapper.__init__].
    intros H. injection H as <-.
    split; [reflexivity |]. split; [reflexivity |]. left. reflexivity.
  - cbn [and_then]. rewrite construct_handle.
    cbn [and_then ClippedRewardsWrapper.__init__].
    intros H. injection H as <-.
    split; [reflexivity |]. split; [reflexivity |]. right. reflexivity.
Qed.

(** X11. An exception of the base environment's [step] comes out of the
    [step] of the whole chain of wrappers as it is, at whichever of the
    skipped frames it is raised: the frames before it are those that
    [MaxAndSkipEnv] got from the wrappers under it without [done]. *)
Theorem pipeline_step_raises :
  forall (E : Env) (action : Action)
         (self : state (ClippedRewardsWrapper.cls
                          (FireResetEnv.cls
                             (MaxAndSkipEnv.cls
                                (NoopResetEnv.cls (EpisodicLifeEnv.cls E))))))
         (g : RandomState) (j : nat) (rs : list StepResult)
         (under : NoopResetEnv.t (EpisodicLifeEnv.cls E)) (g' : RandomState) (err : exn),
    let skipper := FireResetEnv.env (ClippedRewardsWrapper.env self) in
    steps (NoopResetEnv.cls (EpisodicLifeEnv.cls E)) action j
      (MaxAndSkipEnv.env skipper) g = Ok (rs, under, g') ->
    Forall (fun r => done_of r = false) rs ->
    Z.of_nat j < MaxAndSkipEnv._skip skipper ->
    step E action (EpisodicLifeEnv.env (NoopResetEnv.env under)) g' = Raise err ->
    step (ClippedRewardsWrapper.cls
            (FireResetEnv.cls
               (MaxAndSkipEnv.cls (NoopResetEnv.cls (EpisodicLifeEnv.cls E)))))
         action self g = Raise err.
Proof.
  intros E action self g j rs under g' err skipper Hsteps Hnotdone Hj Hraise.
  assert (Hunder : step (NoopResetEnv.cls (EpisodicLifeEnv.cls E)) action under g' =
                   Raise err).
  { cbn [step NoopResetEnv.cls]. run.
    cbn [step EpisodicLifeEnv.cls]. unfold EpisodicLifeEnv._step. run.
    rewrite Hraise. reflexivity. }
  cbn [step ClippedRewardsWrapper.cls]. unfold ClippedRewardsWrapper._step. run.
  cbn [step FireResetEnv.cls]. run.
  cbn [step MaxAndSkipEnv.cls]. unfold MaxAndSkipEnv._step. run.
  fold skipper.
  rewrite (MaxAndSkipEnv_for_range_raises (NoopResetEnv.cls (EpisodicLifeEnv.cls E))
             action under g' err Hunder j (Z.to_nat (MaxAndSkipEnv._skip skipper))
             MaxAndSkipEnv.at_entry skipper g rs Hsteps Hnotdone) by lia.
  reflexivity.
Qed.
End PipelineReads.

(** * The configuration helpers *)

Section ConfigFacts.
Context `{V : Values}.

Lemma dict_get_set_same (d : dict) (k : string) (v : Value) :
  dict_get (dict_set d k v) k = Some v.
Proof.
  induction d as [| [k' v'] d IH]; cbn [dict_set dict_get].
  - rewrite String.eqb_refl. reflexivity.
  - destruct (String.eqb k' k) eqn:Hk; cbn [dict_get]; rewrite Hk;
      [reflexivity | exact IH].
Qed.

Lemma dict_get_set_other (d : dict) (k k0 : string) (v : Value) :
  k <> k0 -> dict_get (dict_set d k v) k0 = dict_get d k0.
Proof.
  intros Hne. induction d as [| [k' v'] d IH]; cbn [dict_set dict_get].
  - destruct (String.eqb_spec k k0); [contradiction | reflexivity].
  - destruct (String.eqb_spec k' k) as [-> | Hk]; cbn [dict_get].
    + destruct (String.eqb_spec k k0); [contradiction | reflexivity].
    + destruct (String.eqb k' k0); [reflexivity | exact IH].
Qed.

Lemma dict_get_None (d : dict) (k : string) :
  dict_get d k = None <-> ~ In k (dict_keys d).
Proof.
  induction d as [| [k' v'] d IH]; cbn [dict_get dict_keys map In fst].
  - split; [intros _ [] | reflexivity].
  - destruct (String.eqb_spec k' k) as [-> | Hk].
    + split; [discriminate | intros H; contradiction H; left; reflexivity].
    + rewrite IH. unfold dict_keys. split.
      * intros Hn [Heq | Hin]; [contradiction | contradiction].
      * intros Hn Hin. apply Hn. right. exact Hin.
Qed.

Lemma dict_contains_In (d : dict) (k : string) :
  dict_contains k d = true <-> In k (dict_keys d).
Proof.
  unfold dict_contains. destruct (dict_get d k) eqn:Hget.
  - split; [intros _ | reflexivity].
    destruct (in_dec string_dec k (dict_keys d)) as [Hin | Hnin]; [exact Hin |].
    apply dict_get_None in Hnin. congruence.
  - split; [discriminate |]. intros Hin. apply dict_get_None in Hget. contradiction.
Qed.

Lemma dict_keys_set (d : dict) (k : string) (v : Value) :
  dict_keys (dict_set d k v) =
    if dict_contains k d then dict_keys d else dict_keys d ++ [k].
Proof.
  unfold dict_contains.
  induction d as [| [k' v'] d IH]; cbn [dict_set dict_get dict_keys map fst app].
  - reflexivity.
  - destruct (String.eqb k' k); cbn [map fst]; [reflexivity |].
    fold (dict_keys (dict_set d k v)). rewrite IH.
    destruct (dict_get d k); reflexivity.
Qed.

Lemma dict_update_get (new d : dict) (k : string) :
  NoDup (dict_keys new) ->
  dict_get (dict_update d new) k =
    match dict_get new k with
    | Some v => Some v
    | None => dict_get d k
    end.
Proof.
  unfold dict_update. revert d.
  induction new as [| [k1 v1] new IH]; intros d Hnodup; [reflexivity |].
  cbn [dict_keys map fst] in Hnodup. inversion Hnodup as [| ? ? Hnin Hrest]; subst.
  cbn [fold_left fst snd dict_get]. rewrite IH by exact Hrest.
  destruct (String.eqb_spec k1 k) as [-> | Hne].
  - apply dict_get_None in Hnin. rewrite Hnin. apply dict_get_set_same.
  - rewrite dict_get_set_other by exact Hne. reflexivity.
Qed.

Lemma dict_update_keys (new d : dict) :
  NoDup (dict_keys new) ->
  dict_keys (dict_update d new) =
    dict_keys d ++ filter (fun k => negb (dict_contains k d)) (dict_keys new).
Proof.
  unfold dict_update. revert d.
  induction new as [| [k1 v1] new IH]; intros d Hnodup.
  - cbn. rewrite app_nil_r. reflexivity.
  - cbn [dict_keys map fst] in Hnodup. inversion Hnodup as [| ? ? Hnin Hrest]; subst.
    cbn [fold_left fst snd]. rewrite IH by exact Hrest. rewrite dict_keys_set.
    change (dict_keys ((k1, v1) :: new)) with (k1 :: dict_keys new).
    cbn [filter].
    assert (Hfilter : filter (fun k => negb (dict_contains k (dict_set d k1 v1))) (dict_keys new)
                      = filter (fun k => negb (dict_contains k d)) (dict_keys new)).
    { apply filter_ext_in. intros k Hin. f_equal. unfold dict_contains.
      rewrite dict_get_set_other; [reflexivity |].
      intros ->. contradiction. }
    rewrite Hfilter.
    destruct (dict_contains k1 d); cbn [negb].
    + reflexivity.
    + rewrite <- app_assoc. reflexivity.
Qed.

(** X12. Looking a key up in [merge_config(new, old)] gives the value of
    [new] when [new] has the key and the value of [old] otherwise; with
    [new = None] the result is [old]. *)
Theorem merge_config_lookup :
  forall (old_config : dict),
    merge_config None old_config = old_config
    /\ forall (new_config : dict) (k : string),
         NoDup (dict_keys new_config) ->
         dict_get (merge_config (Some new_config) old_config) k =
           match dict_get new_config k with
           | Some v => Some v
           | None => dict_get old_config k
           end.
Proof.
  intros old_config. split; [reflexivity |].
  intros new_config k Hnodup. unfold merge_config, deepcopy.
  apply dict_update_get. exact Hnodup.
Qed.

(** X13. [merge_config(new, old)] keeps the keys of [old] in their order
    and puts the keys that only [new] has after them, in the order of
    [new]; its keys are distinct when those of [old] and of [new] are. *)
Theorem merge_config_keys :
  forall (new_config old_config : dict),
    NoDup (dict_keys new_config) ->
    dict_keys (merge_config (Some new_config) old_config) =
      dict_keys old_config
      ++ filter (fun k => negb (dict_contains k old_config)) (dict_keys new_config)
    /\ (NoDup (dict_keys old_config) ->
        NoDup (dict_keys (merge_config (Some new_config) old_config))).
Proof.
  intros new_config old_config Hnew.
  assert (Hkeys : dict_keys (merge_config (Some new_config) old_config) =
                  dict_keys old_config
                  ++ filter (fun k => negb (dict_contains k old_config))
                       (dict_keys new_config)).
  { unfold merge_config, deepcopy. apply dict_update_keys. exact Hnew. }
  split; [exact Hkeys |].
  intros Hold. rewrite Hkeys. apply NoDup_app.
  - exact Hold.
  - apply NoDup_filter. exact Hnew.
  - intros k Hin Hin'. apply filter_In in Hin'. destruct Hin' as [_ Hnot].
    apply dict_contains_In in Hin. rewrite Hin in Hnot. discriminate.
Qed.

Lemma assert_known_ok (keys : list string) (default_config : dict) :
  (forall k, In k keys -> dict_contains k default_config = true) ->
  assert_known keys default_config = Ok tt.
Proof.
  induction keys as [| k keys IH]; intros Hall; [reflexivity |].
  cbn [assert_known]. rewrite (Hall k) by (left; reflexivity).
  apply IH. intros k' Hin. apply Hall. right. exact Hin.
Qed.

Lemma assert_known_raises (keys : list string) (default_config : dict) :
  (exists k, In k keys /\ dict_contains k default_config = false) ->
  assert_known keys default_config = Raise AssertionError.
Proof.
  induction keys as [| k keys IH]; intros (k0 & Hin & Hno); [contradiction |].
  cbn [assert_known]. destruct (dict_contains k default_config) eqn:Hk; [| reflexivity].
  apply IH. exists k0. split; [| exact Hno].
  destruct Hin as [-> | Hin]; [congruence | exact Hin].
Qed.

Lemma assert_known_inv (keys : list string) (default_config : dict) (u : unit) :
  assert_known keys default_config = Ok u ->
  forall k, In k keys -> dict_contains k default_config = true.
Proof.
  induction keys as [| k keys IH]; intros Hok k0 Hin; [contradiction |].
  cbn [assert_known] in Hok.
  destruct (dict_contains k default_config) eqn:Hk; [| discriminate].
  destruct Hin as [<- | Hin]; [exact Hk | exact (IH Hok k0 Hin)].
Qed.

(** X14. On a configuration that is not marked as checked,
    [check_and_merge_config] raises [AssertionError] when a key of the user
    configuration, ["checked"] included, is no key of the default
    configuration; otherwise it returns the merged configuration with
    ["checked"] set to [True]. *)
Theorem check_and_merge_config_checks_keys :
  forall (user_config default_config : dict),
    truthy (dict_get_default user_config "checked" py_False) = false ->
    ((exists k, In k (dict_keys user_config) /\ dict_contains k default_config = false) ->
     check_and_merge_config user_config default_config = Raise AssertionError)
    /\ ((forall k, In k (dict_keys user_config) -> dict_contains k default_config = true) ->
        check_and_merge_config user_config default_config =
          Ok (dict_set (merge_config (Some user_config) default_config) "checked" py_True)).
Proof.
  intros user_config default_config Hunchecked. unfold check_and_merge_config.
  rewrite Hunchecked. split.
  - intros Hbad. rewrite (assert_known_raises _ _ Hbad). reflexivity.
  - intros Hall. rewrite (assert_known_ok _ _ Hall). reflexivity.
Qed.

(** X15. A configuration that [check_and_merge_config] returned comes back
    unchanged from [check_and_merge_config], whatever the default
    configuration then is. *)
Theorem check_and_merge_config_idempotent :
  forall (user_config default_config config : dict),
    check_and_merge_config user_config default_config = Ok config ->
    forall default_config',
      check_and_merge_config config default_config' = Ok config.
Proof.
  intros user_config default_config config Hcheck default_config'.
  assert (Hchecked : truthy (dict_get_default config "checked" py_False) = true).
  { revert Hcheck. unfold check_and_merge_config.
    destruct (truthy (dict_get_default user_config "checked" py_False)) eqn:Hc.
    - intros H. injection H as <-. exact Hc.
    - destruct (assert_known _ _); [| discriminate].
      intros H. injection H as <-.
      unfold dict_get_default. rewrite dict_get_set_same. apply truthy_True. }
  unfold check_and_merge_config. rewrite Hchecked. reflexivity.
Qed.

(** X16. In the configuration that [check_and_merge_config] builds from an
    unchecked user configuration, ["checked"] is [True], every other key
    has the user's value when the user gave one and the default value
    otherwise, and every key is a key of the default configuration or
    ["checked"]. *)
Theorem check_and_merge_config_result :
  forall (user_config default_config config : dict),
    NoDup (dict_keys user_config) ->
    truthy (dict_get_default user_config "checked" py_False) = false ->
    check_and_merge_config user_config default_config = Ok config ->
    dict_get config "checked" = Some py_True
    /\ (forall k, k <> "checked" ->
          dict_get config k =
            match dict_get user_config k with
            | Some v => Some v
            | None => dict_get default_config k
            end)
    /\ (forall k, In k (dict_keys config) ->
          k = "checked" \/ In k (dict_keys default_config)).
Proof.
  intros user_config default_config config Hnodup Hunchecked.
  unfold check_and_merge_config. rewrite Hunchecked.
  destruct (assert_known (dict_keys user_config) default_config) as [u |] eqn:Hknown;
    [| discriminate].
  intros H. injection H as <-.
  split; [apply dict_get_set_same |]. split.
  - intros k Hk. rewrite dict_get_set_other by congruence.
    unfold merge_config, deepcopy. apply dict_update_get. exact Hnodup.
  - intros k Hin. rewrite dict_keys_set in Hin.
    assert (Hmerged : forall k0,
               In k0 (dict_keys (merge_config (Some user_config) default_config)) ->
               In k0 (dict_keys default_config)).
    { intros k0 Hin0. unfold merge_config, deepcopy in Hin0.
      rewrite dict_update_keys in Hin0 by exact Hnodup.
      apply in_app_or in Hin0. destruct Hin0 as [Hin0 | Hin0]; [exact Hin0 |].
      apply filter_In in Hin0. destruct Hin0 as [Hin0 Hnot].
      rewrite (assert_known_inv _ _ u Hknown k0 Hin0) in Hnot. discriminate. }
    destruct (dict_contains "checked" _).
    + right. apply Hmerged. exact Hin.
    + apply in_app_or in Hin. destruct Hin as [Hin | [<- | []]].
      * right. apply Hmerged. exact Hin.
      * left. reflexivity.
Qed.
End ConfigFacts.

(** * The evaluation loop *)

Section EvaluateFacts.
Context `{X : Externals} {N : Numpy X} (P : Agent) (E : Env) (V : Viewer E).

Lemma caller_step act asked (a : agent P) log (e : state E) g :
  on_env (TracedAgent P) (Traced E) (step (Traced E) act) ((asked, a), (log, e)) g =
    match step E act e g with
    | Ok (r, e1, g1) => Ok (r, ((asked, a), (log ++ [EvStep act r], e1)), g1)
    | Raise err => Raise err
    end.
Proof.
  unfold on_env, zoom. cbn [snd fst step Traced].
  destruct (step E act e g) as [[[r e1] g1] | err]; reflexivity.
Qed.

Lemma caller_reset asked (a : agent P) log (e : state E) g :
  on_env (TracedAgent P) (Traced E) (reset (Traced E)) ((asked, a), (log, e)) g =
    match reset E e g with
    | Ok (obs, e1, g1) => Ok (obs, ((asked, a), (log ++ [EvReset obs], e1)), g1)
    | Raise err => Raise err
    end.
Proof.
  unfold on_env, zoom. cbn [snd fst reset Traced].
  destruct (reset E e g) as [[[r e1] g1] | err]; reflexivity.
Qed.

Lemma caller_compute_action obs asked (a : agent P) log (e : state E) g :
  on_agent (TracedAgent P) (Traced E) (compute_action (TracedAgent P) obs)
    ((asked, a), (log, e)) g =
    match compute_action P obs a g with
    | Ok (act, a1, g1) => Ok (act, ((asked ++ [(obs, act)], a1), (log, e)), g1)
    | Raise err => Raise err
    end.
Proof.
  unfold on_agent, zoom. cbn [snd fst compute_action TracedAgent].
  destruct (compute_action P obs a g) as [[[act a1] g1] | err]; reflexivity.
Qed.

Lemma caller_render asked (a : agent P) log (e : state E) g :
  on_env (TracedAgent P) (Traced E) (env_render (traced_viewer V)) ((asked, a), (log, e)) g =
    match env_render V e g with
    | Ok (u, e1, g1) => Ok (u, ((asked, a), (log, e1)), g1)
    | Raise err => Raise err
    end.
Proof.
  unfold on_env, zoom. cbn [snd fst env_render traced_viewer].
  destruct (env_render V e g) as [[[u e1] g1] | err]; reflexivity.
Qed.

Lemma caller_close asked (a : agent P) log (e : state E) g :
  on_env (TracedAgent P) (Traced E) (env_close (traced_viewer V)) ((asked, a), (log, e)) g =
    match env_close V e g with
    | Ok (u, e1, g1) => Ok (u, ((asked, a), (log, e1)), g1)
    | Raise err => Raise err
    end.
Proof.
  unfold on_env, zoom. cbn [snd fst env_close traced_viewer].
  destruct (env_close V e g) as [[[u e1] g1] | err]; reflexivity.
Qed.

Lemma while_true_run :
  forall fuel render act ep_reward asked a log e g r asked' a' log' e' g',
    while_true (TracedAgent P) (Traced E) (traced_viewer V) fuel render act ep_reward
      ((asked, a), (log, e)) g = Ok (Some r, ((asked', a'), (log', e')), g') ->
    exists front final,
      log' = log ++ step_calls act (front ++ [final])
      /\ asked' = asked ++ map (fun t => (obs_of (fst t), snd t)) (front ++ [final])
      /\ Forall (fun t => done_of (fst t) = false) front
      /\ done_of (fst final) = true
      /\ r = fold_left add (map (fun t => reward_of (fst t)) (front ++ [final])) ep_reward.
Proof.
  induction fuel as [| fuel IH];
    intros render act ep_reward asked a log e g r asked' a' log' e' g' Hrun.
  - discriminate Hrun.
  - cbn [while_true] in Hrun. unfold bind in Hrun.
    rewrite caller_step in Hrun.
    destruct (step E act e g) as [[[[[[obs reward] done] info] e1] g1] | err];
      [| discriminate].
    rewrite caller_compute_action in Hrun.
    destruct (compute_action P obs a g1) as [[[act1 a1] g2] | err]; [| discriminate].
    assert (Hafter : forall e2 g3,
               (if done
                then ret (Some (add ep_reward reward))
                else while_true (TracedAgent P) (Traced E) (traced_viewer V) fuel render
                       act1 (add ep_reward reward))
                 ((asked ++ [(obs, act1)], a1),
                  (log ++ [EvStep act (obs, reward, done, info)], e2)) g3 =
               Ok (Some r, ((asked', a'), (log', e')), g') ->
               exists front final,
                 log' = log ++ step_calls act (front ++ [final])
                 /\ asked' = asked ++ map (fun t => (obs_of (fst t), snd t)) (front ++ [final])
                 /\ Forall (fun t => done_of (fst t) = false) front
                 /\ done_of (fst final) = true
                 /\ r = fold_left add (map (fun t => reward_of (fst t)) (front ++ [final]))
                          ep_reward).
    { intros e2 g3. destruct done.
      - unfold ret. intros H. injection H as <- <- <- <- <- <-.
        exists [], ((obs, reward, true, info), act1). repeat split. constructor.
      - intros H. apply IH in H.
        destruct H as (front & final & -> & -> & Hfront & Hfinal & ->).
        exists (((obs, reward, false, info), act1) :: front), final.
        cbn [app step_calls map fst snd obs_of reward_of fold_left].
        rewrite <- !app_assoc.
        repeat split; try assumption.
        constructor; [reflexivity | exact Hfront]. }
    destruct render.
    + rewrite caller_render in Hrun.
      destruct (env_render V e1 g2) as [[[u e2] g3] | err]; [| discriminate].
      unfold wait, ret at 1 in Hrun. exact (Hafter _ _ Hrun).
    + unfold ret at 1 in Hrun. exact (Hafter _ _ Hrun).
Qed.

Lemma for_episodes_run :
  forall n fuel render rewards asked a log e g rs asked' a' log' e' g',
    for_episodes (TracedAgent P) (Traced E) (traced_viewer V) fuel render n rewards
      ((asked, a), (log, e)) g = Ok (Some rs, ((asked', a'), (log', e')), g') ->
    exists episodes : list Episode,
      length episodes = n
      /\ log' = log ++ flat_map episode_calls episodes
      /\ asked' = asked ++ flat_map episode_questions episodes
      /\ Forall episode_ends episodes
      /\ rs = rewards ++ map episode_reward episodes.
Proof.
  induction n as [| n IH];
    intros fuel render rewards asked a log e g rs asked' a' log' e' g' Hrun.
  - cbn [for_episodes] in Hrun. unfold ret in Hrun.
    injection Hrun as <- <- <- <- <- <-.
    exists []. cbn [flat_map map length]. rewrite !app_nil_r.
    repeat split. constructor.
  - cbn [for_episodes] in Hrun. unfold bind in Hrun.
    rewrite caller_reset in Hrun.
    destruct (reset E e g) as [[[obs e1] g1] | err]; [| discriminate].
    rewrite caller_compute_action in Hrun.
    destruct (compute_action P obs a g1) as [[[act a1] g2] | err]; [| discriminate].
    destruct (while_true (TracedAgent P) (Traced E) (traced_viewer V) fuel render act int_zero
                ((asked ++ [(obs, act)], a1), (log ++ [EvReset obs], e1)) g2)
      as [[[[r |] [[asked2 a2] [log2 e2]]] g3] | err] eqn:Hloop; try discriminate Hrun.
    apply while_true_run in Hloop.
    destruct Hloop as (front & final & -> & -> & Hfront & Hfinal & ->).
    apply IH in Hrun.
    destruct Hrun as (episodes & Hlen & -> & -> & Hends & ->).
    exists ({| first_obs := obs; first_action := act; turns := front ++ [final] |}
              :: episodes).
    cbn [length flat_map map].
    unfold episode_calls at 1, episode_questions at 1, episode_reward at 1.
    cbn [first_obs first_action turns app].
    rewrite <- !app_assoc. cbn [app].
    split; [rewrite Hlen; reflexivity |].
    split; [reflexivity |]. split; [reflexivity |].
    split; [| reflexivity].
    constructor; [| exact Hends].
    exists front, final. repeat split; assumption.
Qed.

(** X17. A run of [evaluate_agent] that returns consists of
    [num_episodes] episodes, or of one episode when rendering: each is one
    [reset] call followed by [step] calls up to and including the first
    that returns [done], every [step] being made with the action that the
    agent computed from the observation before it; the agent is asked once
    for every observation, the last one of an episode included; and the
    value returned is [np.mean] of the episodes' rewards, each summed from
    [0] in order. *)
Theorem evaluate_agent_run :
  forall (fuel : nat) (num_episodes : Z) (render : bool)
         (asked asked' : list (Obs * Action)) (a a' : agent P)
         (log log' : list Event) (e e' : state E) (g g' : RandomState)
         (result : Reward),
    evaluate_agent (TracedAgent P) (Traced E) (traced_viewer V) fuel num_episodes render
      ((asked, a), (log, e)) g = Ok (Some result, ((asked', a'), (log', e')), g') ->
    exists episodes : list Episode,
      length episodes = (if render then 1%nat else Z.to_nat num_episodes)
      /\ log' = log ++ flat_map episode_calls episodes
      /\ asked' = asked ++ flat_map episode_questions episodes
      /\ Forall episode_ends episodes
      /\ result = np_mean (map episode_reward episodes).
Proof.
  intros fuel num_episodes render asked asked' a a' log log' e e' g g' result Hrun.
  unfold evaluate_agent in Hrun. unfold bind in Hrun.
  destruct (for_episodes (TracedAgent P) (Traced E) (traced_viewer V) fuel render
              (Z.to_nat (if render then 1 else num_episodes)) [] ((asked, a), (log, e)) g)
    as [[[[rs |] [[asked1 a1] [log1 e1]]] g1] | err] eqn:Hloop; try discriminate Hrun.
  apply for_episodes_run in Hloop.
  destruct Hloop as (episodes & Hlen & -> & -> & Hends & ->).
  assert (Hcount : length episodes = (if render then 1%nat else Z.to_nat num_episodes)).
  { rewrite Hlen. destruct render; reflexivity. }
  destruct render.
  - rewrite caller_close in Hrun.
    destruct (env_close V e1 g1) as [[[u e2] g2] | err]; [| discriminate].
    unfold ret in Hrun. injection Hrun as <- <- <- <- <- <-.
    exists episodes. repeat split; assumption.
  - unfold ret in Hrun. injection Hrun as <- <- <- <- <- <-.
    exists episodes. repeat split; assumption.
Qed.
End EvaluateFacts.

Section EvaluateReturns.
Context `{X : Externals} {N : Numpy X} (P : Agent) (E : Env) (V : Viewer E).

Lemma on_env_run {A} (m : M (state E) A) (a : agent P) (s : state E) g :
  on_env P E m (a, s) g =
    match m s g with
    | Ok (x, s', g') => Ok (x, (a, s'), g')
    | Raise err => Raise err
    end.
Proof. reflexivity. Qed.

Lemma on_agent_run {A} (m : M (agent P) A) (a : agent P) (s : state E) g :
  on_agent P E m (a, s) g =
    match m a g with
    | Ok (x, a', g') => Ok (x, (a', s), g')
    | Raise err => Raise err
    end.
Proof. reflexivity. Qed.

Variable measure : state E -> nat.

Hypothesis reset_returns : forall s g, succeeds (reset E s g).
Hypothesis step_progress :
  forall act s g, exists r s' g',
    step E act s g = Ok (r, s', g')
    /\ (done_of r = true \/ (measure s' < measure s)%nat).
Hypothesis agent_returns : forall obs a g, succeeds (compute_action P obs a g).
Hypothesis render_returns :
  forall s g, exists u s' g',
    env_render V s g = Ok (u, s', g') /\ (measure s' <= measure s)%nat.
Hypothesis close_returns : forall s g, succeeds (env_close V s g).

Lemma while_true_returns :
  forall fuel render act ep_reward a s g,
    (measure s < fuel)%nat ->
    exists r c' g',
      while_true P E V fuel render act ep_reward (a, s) g = Ok (Some r, c', g').
Proof.
  induction fuel as [| fuel IH]; intros render act ep_reward a s g Hfuel; [lia |].
  cbn [while_true]. unfold bind. rewrite on_env_run.
  destruct (step_progress act s g) as (r & s1 & g1 & Hstep & Hprogress).
  rewrite Hstep. destruct r as [[[obs reward] done] info]. cbn [done_of] in Hprogress.
  rewrite on_agent_run.
  destruct (agent_returns obs a g1) as [[[act1 a1] g2] Hact]. rewrite Hact.
  assert (Hafter : forall s2 g3, (measure s2 <= measure s1)%nat ->
             exists r c' g',
               (if done
                then ret (Some (add ep_reward reward))
                else while_true P E V fuel render act1 (add ep_reward reward))
                 (a1, s2) g3 = Ok (Some r, c', g')).
  { intros s2 g3 Hle. destruct done.
    - eexists. eexists. eexists. reflexivity.
    - apply IH. destruct Hprogress as [Hd | Hlt]; [discriminate | lia]. }
  destruct render.
  - rewrite on_env_run.
    destruct (render_returns s1 g2) as (u & s2 & g3 & Hrender & Hle). rewrite Hrender.
    unfold wait, ret at 1. apply Hafter. exact Hle.
  - unfold ret at 1. apply Hafter. lia.
Qed.

Lemma for_episodes_returns :
  forall n fuel render rewards c g,
    (forall s, (measure s < fuel)%nat) ->
    exists rs c' g',
      for_episodes P E V fuel render n rewards c g = Ok (Some rs, c', g').
Proof.
  induction n as [| n IH]; intros fuel render rewards [a s] g Hfuel.
  - eexists. eexists. eexists. reflexivity.
  - cbn [for_episodes]. unfold bind. rewrite on_env_run.
    destruct (reset_returns s g) as [[[obs s1] g1] Hreset]. rewrite Hreset.
    rewrite on_agent_run.
    destruct (agent_returns obs a g1) as [[[act a1] g2] Hact]. rewrite Hact.
    destruct (while_true_returns fuel render act int_zero a1 s1 g2 (Hfuel s1))
      as (r & c' & g3 & Hloop).
    rewrite Hloop. apply IH. exact Hfuel.
Qed.

(** X18. [evaluate_agent] returns on an environment whose episodes end:
    when [reset], the agent and the viewer return, every [step] returns and
    either reports [done] or brings a bounded measure of the environment
    state down, and rendering does not raise that measure, then with more
    iterations allowed per episode than the bound the evaluation loop
    comes back with a value. *)
Theorem evaluate_agent_returns :
  forall (fuel : nat) (num_episodes : Z) (render : bool) (c : Caller P E) (g : RandomState),
    (forall s, (measure s < fuel)%nat) ->
    exists result c' g',
      evaluate_agent P E V fuel num_episodes render c g = Ok (Some result, c', g').
Proof.
  intros fuel num_episodes render c g Hfuel.
  unfold evaluate_agent. unfold bind.
  destruct (for_episodes_returns (Z.to_nat (if render then 1 else num_episodes))
              fuel render [] c g Hfuel) as (rs & [a1 s1] & g1 & Hloop).
  rewrite Hloop. destruct render.
  - rewrite on_env_run.
    destruct (close_returns s1 g1) as [[[u s2] g2] Hclose]. rewrite Hclose.
    eexists. eexists. eexists. reflexivity.
  - eexists. eexists. eexists. reflexivity.
Qed.
End EvaluateReturns.

(** * The properties on the test double *)

#[local] Existing Instance Mock.externals.

Example breakout_life_lost_step :
  EpisodicLifeEnv._step 0 Mock.episodic_playing [] =
    Ok (([2; 8], 2, true, 2%nat),
        {| EpisodicLifeEnv.env :=
             traced (E := Mock.Breakout) [EvStep 0 ([2; 8], 2, false, 2%nat)] 3%nat;
           EpisodicLifeEnv.lives := 2;
           EpisodicLifeEnv.was_real_done := false;
           EpisodicLifeEnv.was_real_reset := true |},
        []).
Proof. reflexivity. Qed.

(** Losing the third life of Breakout on the step from clock 2. *)
Lemma EpisodicLifeEnv_step_spec_witness :
  exists done' : bool,
    EpisodicLifeEnv._step 0 Mock.episodic_playing [] =
      Ok (([2; 8], 2, done', 2%nat),
          {| EpisodicLifeEnv.env :=
               traced (E := Mock.Breakout) ([] ++ [EvStep 0 ([2; 8], 2, false, 2%nat)]) 3%nat;
             EpisodicLifeEnv.lives := 2;
             EpisodicLifeEnv.was_real_done := false;
             EpisodicLifeEnv.was_real_reset := true |},
          [])
    /\ (2 < 3 /\ 2 > 0 -> done' = true)
    /\ (~ (2 < 3 /\ 2 > 0) -> done' = false).
Proof.
  exact (EpisodicLifeEnv_step_spec Mock.Breakout 0 Mock.episodic_playing []
           [] 2%nat [2; 8] 2 false 2%nat 3%nat [] eq_refl eq_refl).
Defined.

(** After a lost life, [reset] takes one no-op step. *)
Lemma EpisodicLifeEnv_reset_spec_witness :
  EpisodicLifeEnv._reset Mock.episodic_playing [] =
    Ok ([2; 8],
        {| EpisodicLifeEnv.env :=
             traced (E := Mock.Breakout) ([] ++ [EvStep 0 ([2; 8], 2, false, 2%nat)]) 3%nat;
           EpisodicLifeEnv.lives := 2;
           EpisodicLifeEnv.was_real_done := false;
           EpisodicLifeEnv.was_real_reset := false |},
        []).
Proof.
  exact (proj2 (EpisodicLifeEnv_reset_spec Mock.Breakout Mock.episodic_playing []
                  [] 2%nat eq_refl)
           eq_refl [2; 8] 2 false 2%nat 3%nat [] eq_refl).
Defined.


(** Two steps of Breakout lose no life. *)
Lemma EpisodicLifeEnv_done_without_life_loss_witness :
  exists trace' self',
    play (EpisodicLifeEnv.cls Mock.Breakout) [0; 2] Mock.episodic_start [] =
      Ok (trace', self', [])
    /\ EpisodicLifeEnv.env self' = 2%nat
    /\ length trace' = 2%nat
    /\ map (fun x => done_of (fst x)) trace' = [false; false].
Proof.
  apply (EpisodicLifeEnv_done_without_life_loss Mock.Breakout [0; 2] Mock.episodic_start []
           [(([0; 10], 0, false, 0%nat), 3); (([1; 9], 1, false, 1%nat), 3)] 2%nat []).
  - reflexivity.
  - cbn. lia.
Defined.

(** The action tables of Breakout and of the environment with ["FIRE"] out
    of place. *)
Lemma construction_checks_action_meanings_witness :
  NoopResetEnv.__init__ Mock.Breakout 0%nat 30 =
    Ok {| NoopResetEnv.env := Mock.at_clock Mock.breakout 0; NoopResetEnv.noop_max := 30 |}
  /\ FireResetEnv.__init__ Mock.Breakout 0%nat =
       Ok {| FireResetEnv.env := Mock.at_clock Mock.breakout 0 |}
  /\ fails (FireResetEnv.__init__ Mock.MisplacedFire 0%nat).
Proof.
  destruct (construction_checks_action_meanings Mock.Breakout 0%nat 30)
    as (Hnoop & _ & Hfire & _).
  destruct (construction_checks_action_meanings Mock.MisplacedFire 0%nat 30)
    as (_ & _ & _ & Hnofire).
  split; [apply Hnoop; reflexivity |].
  split; [apply Hfire; split; [reflexivity | cbn; lia] |].
  apply Hnofire. intros [Hfire1 _]. discriminate Hfire1.
Defined.

(** The second forced step ends the episode; [reset] returns its frame and
    nothing else. *)
Lemma FireResetEnv_reset_spec_witness :
  FireResetEnv._reset Mock.fire_reset [] =
    Ok ([2],
        {| FireResetEnv.env :=
             traced (E := Mock.ShortEpisode)
               ([] ++ [EvReset [0];
                       EvStep 1 ([1], 5, false, 0%nat);
                       EvStep 2 ([2], 5, true, 1%nat)]) 2%nat |},
        []).
Proof.
  exact (FireResetEnv_reset_spec Mock.ShortEpisode Mock.fire_reset [] [] 4%nat
           [0] 0%nat [] [1] [2] 5 5 false true 0%nat 1%nat 1%nat 2%nat [] []
           eq_refl eq_refl eq_refl eq_refl).
Defined.

(** With the tape [7] the draw from [1, 3] is 2: two no-op steps. *)
Example noop_reset_draws_two :
  NoopResetEnv._reset Mock.noop_reset_3 [7] =
    Ok ([1; 9],
        {| NoopResetEnv.env :=
             traced (E := Mock.Breakout)
               [EvReset [0; 0]; EvStep 0 ([0; 10], 0, false, 0%nat);
                EvStep 0 ([1; 9], 1, false, 1%nat)] 2%nat;
           NoopResetEnv.noop_max := 3 |},
        []).
Proof. reflexivity. Qed.

Lemma NoopResetEnv_reset_spec_witness :
  exists (n : Z) (g1 : list Z) (front : list StepResult) (final : StepResult)
         (e' : nat) (g' : list Z),
    randint 1 (3 + 1) [7] = Ok (n, g1)
    /\ 1 <= n <= 3
    /\ Z.of_nat (length (front ++ [final])) = n
    /\ steps Mock.Breakout 0 (length (front ++ [final])) 0%nat g1 = Ok (front ++ [final], e', g')
    /\ NoopResetEnv._reset Mock.noop_reset_3 [7] =
         Ok (obs_of final,
             {| NoopResetEnv.env :=
                  traced (E := Mock.Breakout)
                    ([] ++ EvReset [0; 0] :: map (EvStep 0) (front ++ [final])) e';
                NoopResetEnv.noop_max := 3 |},
             g').
Proof.
  apply (NoopResetEnv_reset_spec Mock.Breakout Mock.noop_reset_3 [7] [] 4%nat [0; 0] 0%nat [7]).
  - cbn. lia.
  - reflexivity.
  - reflexivity.
  - intros s g1. eexists. reflexivity.
Defined.

(** From clock 3 the episode ends at the third inner step: three calls
    for [skip = 4]. *)
Example max_and_skip_stops_at_done :
  MaxAndSkipEnv._step 0 (Mock.max_and_skip_4 Mock.Breakout 3%nat) [] =
    Ok (([5; 6], 12, true, 5%nat),
        {| MaxAndSkipEnv.env :=
             traced (E := Mock.Breakout)
               [EvStep 0 ([3; 7], 3, false, 3%nat);
                EvStep 0 ([4; 6], 4, false, 4%nat);
                EvStep 0 ([5; 5], 5, true, 5%nat)] 6%nat;
           MaxAndSkipEnv._obs_buffer := {| maxlen := 2; items := [[4; 6]; [5; 5]] |};
           MaxAndSkipEnv._skip := 4 |},
        []).
Proof. reflexivity. Qed.

Lemma MaxAndSkipEnv_step_spec_witness :
  exists (front : list StepResult) (final : StepResult)
         (e' : nat) (g' : list Z) (max_frame : Obs),
    let rs := front ++ [final] in
    let buffer := lastn 2 ([] ++ map obs_of rs) in
    MaxAndSkipEnv._step 0 (Mock.max_and_skip_4 Mock.Breakout 3%nat) [] =
      Ok ((max_frame,
           fold_left Z.add (map reward_of rs) 0,
           done_of final,
           info_of final),
          {| MaxAndSkipEnv.env :=
               traced (E := Mock.Breakout) ([] ++ map (EvStep 0) rs) e';
             MaxAndSkipEnv._obs_buffer := {| maxlen := 2; items := buffer |};
             MaxAndSkipEnv._skip := 4 |},
          g')
    /\ steps Mock.Breakout 0 (length rs) 3%nat [] = Ok (rs, e', g')
    /\ Z.of_nat (length rs) <= 4
    /\ Forall (fun r => done_of r = false) front
    /\ (Z.of_nat (length rs) < 4 -> done_of final = true)
    /\ elementwise_max buffer max_frame.
Proof.
  apply (MaxAndSkipEnv_step_spec Mock.Breakout 0 (Mock.max_and_skip_4 Mock.Breakout 3%nat) []
           [] 3%nat 2%nat).
  - cbn. lia.
  - reflexivity.
  - reflexivity.
  - constructor.
  - intros s g0. eexists. eexists. eexists. split; reflexivity.
Defined.

(** The bright frame of the first call is still in the buffer of the
    second call, and is what the second call returns. *)
Example flash_first_step :
  MaxAndSkipEnv._step 0 (Mock.max_and_skip_4 Mock.Flash 0%nat) [] =
    Ok (([7], 4, false, 3%nat), Mock.flash_after_first, []).
Proof. reflexivity. Qed.

Example flash_second_step :
  MaxAndSkipEnv._step 0 Mock.flash_after_first [] =
    Ok (([7], 1, true, 4%nat), Mock.flash_after_second, []).
Proof. reflexivity. Qed.

(** C1, as worded, fails: after four quiet frames ending on the bright
    frame [[7]], a second [step] that sees the single dark frame [[1]]
    computes its maximum from the buffer [[[7]]; [[1]]]. *)
Lemma MaxAndSkipEnv_buffer_keeps_frames : ~ buffer_reset_on_every_step.
Proof.
  intros Hreset.
  apply (Hreset Mock.externals Mock.Flash 0 0
           (Mock.max_and_skip_4 Mock.Flash 0%nat)
           Mock.flash_after_first Mock.flash_after_second
           [] [] [] ([7], 4, false, 3%nat) ([7], 1, true, 4%nat) Mock.flash_log_1
           flash_first_step flash_second_step eq_refl [7]).
  - cbn. right. right. right. left. reflexivity.
  - cbn. left. reflexivity.
Qed.

Lemma MaxAndSkipEnv_buffer_across_steps_witness :
  exists (front1 : list StepResult) (final1 : StepResult) (rs2 : list StepResult)
         (e1 e2 : nat),
    let log1 := map (EvStep 0) (front1 ++ [final1]) in
    let log2 := map (EvStep 0) rs2 in
    MaxAndSkipEnv.env Mock.flash_after_first = traced (E := Mock.Flash) ([] ++ log1) e1
    /\ MaxAndSkipEnv.env Mock.flash_after_second =
         traced (E := Mock.Flash) ([] ++ log1 ++ log2) e2
    /\ (1 <= length rs2)%nat
    /\ Z.of_nat (length rs2) <= 4
    /\ [[7]; [1]] = lastn 2 ([[0]; [7]] ++ frames_of log2)
    /\ elementwise_max [[7]; [1]] [7]
    /\ ((2 <= length rs2)%nat -> [[7]; [1]] = lastn 2 (frames_of log2))
    /\ (length rs2 = 1%nat -> [[7]; [1]] = obs_of final1 :: frames_of log2).
Proof.
  apply (MaxAndSkipEnv_buffer_across_steps Mock.Flash 0 0
           (Mock.max_and_skip_4 Mock.Flash 0%nat)
           Mock.flash_after_first Mock.flash_after_second
           [] [] [] ([7], 4, false, 3%nat) ([7], 1, true, 4%nat) [] 0%nat).
  - reflexivity.
  - reflexivity.
  - reflexivity.
  - reflexivity.
Defined.

(** C4, as worded, fails: with ["FIRE"] among the action meanings but not
    at index 1 the composer raises. *)
Example wrap_misplaced_fire :
  wrap_deepmind_ram (handle Mock.MisplacedFire 0%nat) = Raise AssertionError.
Proof. reflexivity. Qed.

Lemma wrap_deepmind_ram_may_raise : ~ composer_always_returns.
Proof.
  intros Hreturns.
  destruct (Hreturns Mock.externals (handle Mock.MisplacedFire 0%nat))
    as (env & Hwrap & _).
  rewrite wrap_misplaced_fire in Hwrap. discriminate Hwrap.
Qed.

(** On Breakout, whose table is [NOOP; FIRE; UP], the five wrappers are
    built. *)
Lemma wrap_deepmind_ram_spec_witness :
  exists s5,
    wrap_deepmind_ram (handle Mock.Breakout 0%nat) =
      Ok (handle
            (ClippedRewardsWrapper.cls
               (FireResetEnv.cls
                  (MaxAndSkipEnv.cls
                     (NoopResetEnv.cls (EpisodicLifeEnv.cls Mock.Breakout)))))
            s5).
Proof.
  destruct (proj1 (wrap_deepmind_ram_spec Mock.Breakout 0%nat))
    as (s1 & s2 & s3 & _ & _ & _ & Hfire & _).
  - split.
    + reflexivity.
    + intros _. split; [reflexivity | cbn; lia].
  - destruct Hfire as (s4 & s5 & _ & _ & Hwrap & _).
    + cbn. right. left. reflexivity.
    + exists s5. exact Hwrap.
Defined.

(** * The further properties on the test double *)

#[local] Existing Instance Scenes.json_values.
#[local] Existing Instance Scenes.numpy.

(** After a step of Breakout the recorded count is the game's. *)
Lemma EpisodicLifeEnv_lives_in_sync_witness :
  EpisodicLifeEnv.lives (Scenes.episodic Mock.Breakout 1%nat 3) =
    ale_lives Mock.Breakout (EpisodicLifeEnv.env (Scenes.episodic Mock.Breakout 1%nat 3)).
Proof.
  apply (proj1 (EpisodicLifeEnv_lives_in_sync Mock.Breakout Mock.episodic_start []))
    with (action := 0) (out := ([0; 10], 0, false, 0%nat)) (g' := []).
  reflexivity.
Defined.

(** A lost life makes the wrapper return [done]; the [reset] after it
    still takes the no-op step. *)
Lemma EpisodicLifeEnv_reset_after_step_witness :
  exists (out : StepResult) (self1 self2 : EpisodicLifeEnv.t (Traced Mock.Breakout)),
    EpisodicLifeEnv._step 0 Mock.episodic_playing [] = Ok (out, self1, [])
    /\ EpisodicLifeEnv._reset self1 [] = Ok ([3; 7], self2, [])
    /\ EpisodicLifeEnv.env self2 =
         traced (E := Mock.Breakout)
           [EvStep 0 ([2; 8], 2, false, 2%nat); EvStep 0 ([3; 7], 3, false, 3%nat)] 4%nat.
Proof.
  destruct (EpisodicLifeEnv_reset_after_step Mock.Breakout 0 Mock.episodic_playing []
              [] 2%nat [2; 8] 2 false 2%nat 3%nat [] eq_refl eq_refl)
    as (out & self1 & Hstep & _ & Hlost).
  destruct (Hlost eq_refl [3; 7] 3 false 3%nat 4%nat [] eq_refl) as (self2 & Hreset & Henv).
  exists out, self1, self2.
  split; [exact Hstep |]. split; [exact Hreset | exact Henv].
Defined.

Lemma MaxAndSkipEnv_buffer_invariant_witness :
  buffer_ok (MaxAndSkipEnv._obs_buffer Mock.flash_after_first)
  /\ items (MaxAndSkipEnv._obs_buffer Mock.flash_after_first) <> [].
Proof.
  apply (proj1 (proj2 (MaxAndSkipEnv_buffer_invariant (Traced Mock.Flash))))
    with (action := 0) (self := Mock.max_and_skip_4 Mock.Flash 0%nat) (g := [])
         (out := ([7], 4, false, 3%nat)) (g' := []).
  - split; [reflexivity | cbn; lia].
  - reflexivity.
Defined.

Lemma MaxAndSkipEnv_step_without_iterations_witness :
  MaxAndSkipEnv.for_range (Z.to_nat 0) 0 MaxAndSkipEnv.at_entry
    (Scenes.skipper Mock.Breakout 0%nat 0) [] =
    Ok (MaxAndSkipEnv.at_entry, Scenes.skipper Mock.Breakout 0%nat 0, [])
  /\ MaxAndSkipEnv._step 0 (Scenes.skipper Mock.Breakout 0%nat 0) [] = Raise ValueError.
Proof.
  destruct (MaxAndSkipEnv_step_without_iterations Mock.Breakout 0
              (Scenes.skipper Mock.Breakout 0%nat 0) [])
    as (Hloop & _ & Hempty & _).
  - cbn. lia.
  - split; [apply Hloop | apply Hempty; reflexivity].
Defined.

(** The emulator fails at the third of four frames. *)
Lemma MaxAndSkipEnv_step_raises_witness :
  MaxAndSkipEnv._step 0 (Scenes.skipper Scenes.Faulty (Scenes.faulty_at 0) 4) [] =
    Raise (EnvError "emulator crashed").
Proof.
  apply (MaxAndSkipEnv_step_raises Scenes.Faulty 0
           (Scenes.skipper Scenes.Faulty (Scenes.faulty_at 0) 4) []
           2%nat [([0], 1, false, 0%nat); ([1], 1, false, 1%nat)] 2%nat []).
  - reflexivity.
  - repeat constructor.
  - cbn. lia.
  - reflexivity.
Defined.

(** With [skip = 1] the frame of [reset] is half of the first maximum. *)
Lemma MaxAndSkipEnv_step_after_reset_witness :
  exists (front : list StepResult) (final : StepResult),
    let frames := map obs_of (front ++ [final]) in
    steps Mock.Breakout 0 (length (front ++ [final])) 0%nat [] =
      Ok (front ++ [final], 1%nat, [])
    /\ [[0; 0]; [0; 10]] = lastn 2 ([0; 0] :: frames)
    /\ elementwise_max [[0; 0]; [0; 10]] [0; 10]
    /\ (front = [] -> [[0; 0]; [0; 10]] = [[0; 0]; obs_of final])
    /\ (front <> [] -> [[0; 0]; [0; 10]] = lastn 2 frames).
Proof.
  apply (MaxAndSkipEnv_step_after_reset Mock.Breakout 0
           (Scenes.skipper Mock.Breakout 3%nat 1)
           (Scenes.skipper_holding Mock.Breakout 0%nat [[0; 0]] 1)
           (Scenes.skipper_holding Mock.Breakout 1%nat [[0; 0]; [0; 10]] 1)
           [] [] [] [0; 0] ([0; 10], 0, false, 0%nat)).
  - reflexivity.
  - reflexivity.
  - reflexivity.
Defined.

Lemma NoopResetEnv_reset_without_range_witness :
  NoopResetEnv._reset (Scenes.nooping Mock.Breakout 4%nat 0) [7] = Raise ValueError.
Proof.
  apply (NoopResetEnv_reset_without_range Mock.Breakout
           (Scenes.nooping Mock.Breakout 4%nat 0) [7] [0; 0] 0%nat [7]).
  - cbn. lia.
  - reflexivity.
Defined.

(** Rewards 3, 4 and 5 are clipped to 1, not to 3. *)
Lemma ClippedRewards_over_MaxAndSkip_witness :
  exists (front : list StepResult) (final : StepResult),
    let rs := front ++ [final] in
    steps Mock.Breakout 0 (length rs) 3%nat [] = Ok (rs, 6%nat, [])
    /\ 1 = Z.sgn (fold_left Z.add (map reward_of rs) 0)
    /\ elementwise_max [[4; 6]; [5; 5]] [5; 6]
    /\ true = done_of final
    /\ 5%nat = info_of final.
Proof.
  apply (ClippedRewards_over_MaxAndSkip Mock.Breakout 0
           (Scenes.clipped (MaxAndSkipEnv.cls Mock.Breakout)
              (Scenes.skipper Mock.Breakout 3%nat 4))
           (Scenes.clipped (MaxAndSkipEnv.cls Mock.Breakout)
              (Scenes.skipper_holding Mock.Breakout 6%nat [[4; 6]; [5; 5]] 4))
           [] [] ([5; 6], 1, true, 5%nat)).
  reflexivity.
Defined.

(** Breakout loses a life on its third frame: the skipped step ends there. *)
Lemma MaxAndSkipEnv_stops_at_lost_life_witness :
  exists (max_frame : Obs)
         (self' : MaxAndSkipEnv.t
                    (NoopResetEnv.cls (EpisodicLifeEnv.cls (Traced Mock.Breakout)))),
    MaxAndSkipEnv._step 0 Scenes.breakout_stack [] =
      Ok ((max_frame, 0 + 0 + 1 + 2, true, 2%nat), self', [])
    /\ EpisodicLifeEnv.env (episodic_of self') =
         traced (E := Mock.Breakout)
           [EvStep 0 ([0; 10], 0, false, 0%nat);
            EvStep 0 ([1; 9], 1, false, 1%nat);
            EvStep 0 ([2; 8], 2, false, 2%nat)] 3%nat
    /\ EpisodicLifeEnv.lives (episodic_of self') = 2
    /\ EpisodicLifeEnv.was_real_done (episodic_of self') = false
    /\ elementwise_max (items (MaxAndSkipEnv._obs_buffer self')) max_frame.
Proof.
  apply (MaxAndSkipEnv_stops_at_lost_life Mock.Breakout 0 Scenes.breakout_stack []
           [] 0%nat
           [(([0; 10], 0, false, 0%nat), 3); (([1; 9], 1, false, 1%nat), 3)]
           ([2; 8], 2, false, 2%nat) 2 3%nat [] 2%nat).
  - reflexivity.
  - reflexivity.
  - repeat constructor.
  - cbn. lia.
  - cbn. lia.
  - lia.
  - cbn. lia.
  - reflexivity.
  - constructor.
  - repeat constructor.
Defined.

Lemma wrap_deepmind_ram_transparent_witness :
  unwrapped_get_action_meanings Scenes.breakout_pipeline = ["NOOP"; "FIRE"; "UP"]
  /\ unwrapped_lives Scenes.breakout_pipeline = 3
  /\ (class_chain Scenes.breakout_pipeline =
        ["ClippedRewardsWrapper"; "FireResetEnv"; "MaxAndSkipEnv";
         "NoopResetEnv"; "EpisodicLifeEnv"] ++ []
      \/ class_chain Scenes.breakout_pipeline =
           ["ClippedRewardsWrapper"; "MaxAndSkipEnv";
            "NoopResetEnv"; "EpisodicLifeEnv"] ++ []).
Proof.
  apply (wrap_deepmind_ram_transparent (handle Mock.Breakout 0%nat) Scenes.breakout_pipeline).
  reflexivity.
Defined.

(** The emulator fails at the third frame of a skipped step of the
    chain. *)
Lemma pipeline_step_raises_witness :
  step (ClippedRewardsWrapper.cls
          (FireResetEnv.cls
             (MaxAndSkipEnv.cls (NoopResetEnv.cls (EpisodicLifeEnv.cls Scenes.Faulty)))))
       0 (Scenes.faulty_pipeline 0) [] = Raise (EnvError "emulator crashed").
Proof.
  apply (pipeline_step_raises Scenes.Faulty 0 (Scenes.faulty_pipeline 0) []
           2%nat [([0], 1, false, 0%nat); ([1], 1, false, 1%nat)]
           (Scenes.nooping (EpisodicLifeEnv.cls Scenes.Faulty)
              (Scenes.episodic Scenes.Faulty (Scenes.faulty_at 2) 3) 30)
           []).
  - reflexivity.
  - repeat constructor.
  - cbn. lia.
  - reflexivity.
Defined.

Lemma merge_config_lookup_witness :
  dict_get (merge_config (Some Scenes.user_config) Scenes.default_config) "gamma" =
    Some (Scenes.JInt 95)
  /\ dict_get (merge_config (Some Scenes.user_config) Scenes.default_config) "lr" =
       Some (Scenes.JInt 3).
Proof.
  split.
  - apply (proj2 (merge_config_lookup Scenes.default_config) Scenes.user_config "gamma").
    repeat constructor. intros [].
  - apply (proj2 (merge_config_lookup Scenes.default_config) Scenes.user_config "lr").
    repeat constructor. intros [].
Defined.

Lemma merge_config_keys_witness :
  dict_keys (merge_config (Some Scenes.seeded_config)
               Scenes.default_config) =
    ["lr"; "gamma"; "checked"; "seed"]
  /\ NoDup (dict_keys (merge_config (Some Scenes.seeded_config)
                         Scenes.default_config)).
Proof.
  destruct (merge_config_keys Scenes.seeded_config
              Scenes.default_config) as [Hkeys Hnodup].
  - repeat constructor; cbn; intuition discriminate.
  - split; [exact Hkeys |]. apply Hnodup.
    repeat constructor; cbn; intuition discriminate.
Defined.

Lemma check_and_merge_config_checks_keys_witness :
  check_and_merge_config Scenes.typo_config Scenes.default_config =
    Raise AssertionError
  /\ check_and_merge_config Scenes.user_config Scenes.default_config =
       Ok Scenes.checked_config.
Proof.
  split.
  - apply (proj1 (check_and_merge_config_checks_keys Scenes.typo_config
                    Scenes.default_config eq_refl)).
    exists "gama". split; [left; reflexivity | reflexivity].
  - apply (proj2 (check_and_merge_config_checks_keys Scenes.user_config
                    Scenes.default_config eq_refl)).
    intros k [<- | []]. reflexivity.
Defined.

Lemma check_and_merge_config_idempotent_witness :
  check_and_merge_config Scenes.checked_config Scenes.empty_config =
    Ok Scenes.checked_config.
Proof.
  apply (check_and_merge_config_idempotent Scenes.user_config Scenes.default_config).
  reflexivity.
Defined.

Lemma check_and_merge_config_result_witness :
  let config := Scenes.checked_config in
  dict_get config "checked" = Some (Scenes.JBool true)
  /\ (forall k, k <> "checked" ->
        dict_get config k =
          match dict_get Scenes.user_config k with
          | Some v => Some v
          | None => dict_get Scenes.default_config k
          end)
  /\ (forall k, In k (dict_keys config) ->
        k = "checked" \/ In k (dict_keys Scenes.default_config)).
Proof.
  apply (check_and_merge_config_result Scenes.user_config Scenes.default_config).
  - repeat constructor. intros [].
  - reflexivity.
  - reflexivity.
Defined.

(** Two episodes of Breakout from the reset frame to the sixth step. *)
Lemma evaluate_agent_run_witness :
  exists episodes : list Episode,
    length episodes = 2%nat
    /\ [EvReset [0; 0]; EvStep 0 ([0; 10], 0, false, 0%nat);
        EvStep 0 ([1; 9], 1, false, 1%nat); EvStep 1 ([2; 8], 2, false, 2%nat);
        EvStep 2 ([3; 7], 3, false, 3%nat); EvStep 3 ([4; 6], 4, false, 4%nat);
        EvStep 4 ([5; 5], 5, true, 5%nat); EvReset [0; 0];
        EvStep 0 ([0; 10], 0, false, 0%nat); EvStep 0 ([1; 9], 1, false, 1%nat);
        EvStep 1 ([2; 8], 2, false, 2%nat); EvStep 2 ([3; 7], 3, false, 3%nat);
        EvStep 3 ([4; 6], 4, false, 4%nat); EvStep 4 ([5; 5], 5, true, 5%nat)] =
       [] ++ flat_map episode_calls episodes
    /\ [([0; 0], 0); ([0; 10], 0); ([1; 9], 1); ([2; 8], 2); ([3; 7], 3); ([4; 6], 4);
        ([5; 5], 5); ([0; 0], 0); ([0; 10], 0); ([1; 9], 1); ([2; 8], 2); ([3; 7], 3);
        ([4; 6], 4); ([5; 5], 5)] =
       [] ++ flat_map episode_questions episodes
    /\ Forall episode_ends episodes
    /\ 15 = np_mean (map episode_reward episodes).
Proof.
  apply (evaluate_agent_run Scenes.pixel_agent Mock.Breakout (Scenes.no_viewer Mock.Breakout)
           10 2 false [] _ 0%nat 14%nat [] _ 3%nat 6%nat [] [] 15).
  reflexivity.
Defined.

(** Breakout is over at its sixth step: seven iterations are enough. *)
Lemma evaluate_agent_returns_witness :
  exists result c' g',
    evaluate_agent Scenes.pixel_agent Mock.Breakout (Scenes.no_viewer Mock.Breakout)
      7 3 true (0%nat, 2%nat) [] = Ok (Some result, c', g').
Proof.
  apply (evaluate_agent_returns Scenes.pixel_agent Mock.Breakout
           (Scenes.no_viewer Mock.Breakout) (fun clock => (6 - clock)%nat)).
  - intros s g. eexists. reflexivity.
  - intros act s g. eexists. eexists. eexists. split; [reflexivity |].
    cbn [done_of]. change (Mock.done_at Mock.breakout s) with (Nat.leb 5 s).
    destruct (Nat.leb_spec 5 s); [left; reflexivity | right; lia].
  - intros obs a g. eexists. reflexivity.
  - intros s g. exists tt, s, g. split; [reflexivity | lia].
  - intros s g. eexists. reflexivity.
  - intros s. lia.
Defined.

(** ** The first calls after construction depend on the calls before them *)



(** A [reset] before the first [step]: it records three lives, and the
    [step] that loses one returns [done = True] where the game returned
    [False]. *)
Example fragile_reset_before_step :
  resets (EpisodicLifeEnv.cls (Traced Scenes.Fragile)) 1
    (Scenes.fresh_episodic (Traced Scenes.Fragile) (traced [] (Mock.at_clock Scenes.fragile 0)))
    [] =
    Ok ([[0]],
        {| EpisodicLifeEnv.env := traced (E := Scenes.Fragile) [EvReset [0]] 0%nat;
           EpisodicLifeEnv.lives := 3;
           EpisodicLifeEnv.was_real_done := true;
           EpisodicLifeEnv.was_real_reset := true |},
        []).
Proof. reflexivity. Qed.

Example fragile_first_step_is_done :
  EpisodicLifeEnv._step 0
    {| EpisodicLifeEnv.env := traced (E := Scenes.Fragile) [EvReset [0]] 0%nat;
       EpisodicLifeEnv.lives := 3;
       EpisodicLifeEnv.was_real_done := true;
       EpisodicLifeEnv.was_real_reset := true |} [] =
    Ok (([0], 0, true, 0%nat),
        {| EpisodicLifeEnv.env :=
             traced (E := Scenes.Fragile)
               [EvReset [0]; EvStep 0 ([0], 0, false, 0%nat)] 1%nat;
           EpisodicLifeEnv.lives := 2;
           EpisodicLifeEnv.was_real_done := false;
           EpisodicLifeEnv.was_real_reset := true |},
        []).
Proof. reflexivity. Qed.

